(** * The iter8 experiment engine

    A shallow embedding of [base/experiment.go]: the insights store, the
    metric-name normaliser, the sample aggregator, the SLO predicate and the
    task loop of the engine, followed by the properties proved about them.

    Go values are modelled as the code has them: [float64] is IEEE binary64
    (Rocq's primitive floats), [int] is [Z], a map is a [gmap] behind an
    [option] (a nil map reads as empty and cannot be written), a pointer is an
    [option] (with the address of its cell where [reflect.DeepEqual] looks at
    it), and a run-time panic is an outcome of its own, distinct from a
    returned [error]. *)

From Stdlib Require Import ZArith Floats Ascii String List Lia Bool DecimalString Sorted.
From stdpp Require Import gmap strings list fin_maps.

Open Scope string_scope.
Open Scope list_scope.
Open Scope Z_scope.

(** ** The Go runtime *)

(** What makes the runtime abort a call. *)
Inductive runtime_error : Type :=
| IndexOutOfRange
| NilDereference
| NilMapAssignment
| TypeAssertion
| MakeSliceLenOutOfRange.

(** The outcome of a call: it returns, or the goroutine panics. *)
Inductive result (A : Type) : Type :=
| Ok (a : A)
| Panic (p : runtime_error).

Arguments Ok {A} a.
Arguments Panic {A} p.

(** Sequencing: a panic ends the call. *)
Definition bind {A B : Type} (r : result A) (k : A -> result B) : result B :=
  match r with
  | Ok a => k a
  | Panic p => Panic p
  end.

Notation "x <- r ;; k" := (bind r (fun x => k))
  (at level 100, r at next level, right associativity).

(** The values of type [error] the engine itself creates, by the place that
    creates them; [ErrExternal] is an error handed over by a task, the driver
    or the expression library. *)
Inductive error : Type :=
| ErrIncompatible
| ErrInsufficientVersions
| ErrCannotExtractPercent (m : string)
| ErrMetaDiffer (m : string)
| ErrSLOsConflict
| ErrNilResult
| ErrInfoNotFound (m : string)
| ErrInvalidMetricName (m : string)
| ErrExternal (msg : string).

(** [l[i]] on a slice. *)
Definition index {A : Type} (l : list A) (i : Z) : result A :=
  if i <? 0 then Panic IndexOutOfRange
  else match l !! Z.to_nat i with
       | Some a => Ok a
       | None => Panic IndexOutOfRange
       end.

(** [len(l)] as an [int]. *)
Definition len {A : Type} (l : list A) : Z := Z.of_nat (length l).

(** [x++] on a 64-bit [int]. *)
Definition int_succ (x : Z) : Z :=
  (x + 1 + 2 ^ 63) mod 2 ^ 64 - 2 ^ 63.

(** A pointer to a heap cell: its address and what the cell holds. *)
Record pointer (A : Type) : Type := mkPointer { addr : positive; deref : A }.
Arguments mkPointer {A} addr deref.
Arguments addr {A} _.
Arguments deref {A} _.

(** A slice: nil, or a backing array (its first cell's address) and the
    elements in view. *)
Record backed (A : Type) : Type := mkBacked { base : positive; elems : list A }.
Arguments mkBacked {A} base elems.
Arguments base {A} _.
Arguments elems {A} _.

Definition slice (A : Type) : Type := option (backed A).

Definition slice_elems {A : Type} (s : slice A) : list A :=
  match s with
  | Some b => elems b
  | None => []
  end.

(** ** Package [strings] *)

Definition strings_HasPrefix (s pre : string) : bool := String.prefix pre s.

Fixpoint drop_string (n : nat) (s : string) : string :=
  match n, s with
  | O, _ => s
  | S n', String _ s' => drop_string n' s'
  | S _, EmptyString => EmptyString
  end.

Definition strings_TrimPrefix (s pre : string) : string :=
  if strings_HasPrefix s pre then drop_string (String.length pre) s else s.

(** [strings.Split(s, sep)] for a separator of one byte. *)
Fixpoint strings_Split (s : string) (sep : ascii) : list string :=
  match s with
  | EmptyString => [EmptyString]
  | String c s' =>
      if Ascii.eqb c sep then EmptyString :: strings_Split s' sep
      else match strings_Split s' sep with
           | h :: t => String c h :: t
           | [] => [String c EmptyString]
           end
  end.

(** ** The data model *)

Definition MetricType : Type := string.

(** Modelled from the spec: the constant for the metric type the spec calls
    counter; the metric-type constants are declared in a file of the package
    that is not among the sources. *)
Definition CounterMetricType : MetricType := "counter".

(** Modelled from the spec: the constant for the metric type gauge. *)
Definition GaugeMetricType : MetricType := "gauge".

(** Modelled from the spec: the constant for the metric type sample. *)
Definition SampleMetricType : MetricType := "sample".

(** Modelled from the spec: the constant for the metric type histogram. *)
Definition HistogramMetricType : MetricType := "histogram".

Record MetricMeta : Type := mkMetricMeta {
  Description : string;
  Units : option string;
  Type_ : MetricType
}.

(** Modelled from the spec: a histogram bucket [{lower, upper, count}]; the
    struct is declared outside the sources. *)
Record HistBucket : Type := mkHistBucket {
  bucket_lower : float;
  bucket_upper : float;
  bucket_count : Z
}.

Record SLO : Type := mkSLO {
  Metric : string;
  Limit : float
}.

Module SLOLimits.
Record t : Type := mk {
  Upper : slice SLO;
  Lower : slice SLO
}.
End SLOLimits.

Module SLOResults.
Record t : Type := mk {
  Upper : list (list bool);
  Lower : list (list bool)
}.
End SLOResults.

(** The dynamic value handed to [updateMetric] as an [interface{}]: a
    [float64], a [[]float64], a [[]HistBucket], or a value of any other type. *)
Inductive MetricValue : Type :=
| VFloat (v : float)
| VFloats (v : list float)
| VHist (v : list HistBucket)
| VOther.

Definition AggregationType : Type := string.

(** Modelled from the spec: the aggregator token [mean]; the aggregator
    constants are declared in a file of the package that is not among the
    sources. *)
Definition MeanAggregator : AggregationType := "mean".

(** Modelled from the spec: the aggregator token [stddev]. *)
Definition StdDevAggregator : AggregationType := "stddev".

(** Modelled from the spec: the aggregator token [min]. *)
Definition MinAggregator : AggregationType := "min".

(** Modelled from the spec: the aggregator token [max]. *)
Definition MaxAggregator : AggregationType := "max".

(** Modelled from the spec: the aggregator token [count]. *)
Definition CountAggregator : AggregationType := "count".

(** Modelled from the spec: the backend of the built-in HTTP metrics, the
    first piece of the percentile prefix [http/latency-p]; the pieces of the
    two percentile prefixes are constants declared outside the sources. *)
Definition httpMetricPrefix : string := "http".

(** Modelled from the spec: the second piece of [http/latency-p]. *)
Definition builtInHTTPLatencyPercentilePrefix : string := "latency-p".

(** Modelled from the spec: the backend of the built-in gRPC metrics, the
    first piece of the percentile prefix [grpc/latency/p]. *)
Definition gRPCMetricPrefix : string := "grpc".

(** Modelled from the spec: the second piece of [grpc/latency/p], the gRPC
    latency sample metric. *)
Definition gRPCLatencySampleMetricName : string := "latency".

(** Modelled from the spec: the last piece of [grpc/latency/p], the prefix of
    a percentile aggregator [p<X>]. *)
Definition PercentileAggregatorPrefix : string := "p".

(** ** The libraries the package calls

    Functions of other packages, by their signatures. A call that returns a
    value and an [error] is an [option]: [None] when the error is not nil,
    which is all the callers look at. A panic inside a library function has
    no place in these signatures: the properties are about what the package
    does with what a library returns. *)
Class GoLibs : Type := {
  (** [stats.Mean], [stats.StandardDeviation], [stats.Min] and
      [stats.Percentile] of montanaflynn/stats *)
  stats_Mean : list float -> option float;
  stats_StandardDeviation : list float -> option float;
  stats_Min : list float -> option float;
  stats_Percentile : list float -> float -> option float;
  (** [regexp.MatchString(decimalRegex, b)]; the pattern [decimalRegex] is a
      constant declared outside the sources *)
  decimal_MatchString : string -> bool;
  (** [strconv.ParseFloat(s, 64)] *)
  strconv_ParseFloat : string -> option float;
  (** [fmt.Sprintf("%v", x)] at a [float64] *)
  fmt_v : float -> string
}.

(** [reflect.DeepEqual] at the types it is called with. Values of a struct
    are compared field by field, floats with [==]; two pointers are equal when
    they hold the same address or point to equal values; two slices when both
    are nil, or neither is and they have one length and either one backing
    array or equal elements. *)
Definition DeepEqual_string_ptr (x y : option string) : bool :=
  match x, y with
  | None, None => true
  | Some a, Some b => String.eqb a b
  | _, _ => false
  end.

Definition DeepEqual_MetricMeta (x y : MetricMeta) : bool :=
  String.eqb (Description x) (Description y)
  && DeepEqual_string_ptr (Units x) (Units y)
  && String.eqb (Type_ x) (Type_ y).

Definition DeepEqual_SLO (x y : SLO) : bool :=
  String.eqb (Metric x) (Metric y) && PrimFloat.eqb (Limit x) (Limit y).

Fixpoint DeepEqual_elems {A : Type} (eq : A -> A -> bool) (x y : list A) : bool :=
  match x, y with
  | [], [] => true
  | a :: x', b :: y' => if eq a b then DeepEqual_elems eq x' y' else false
  | _, _ => false
  end.

Definition DeepEqual_slice {A : Type} (eq : A -> A -> bool) (x y : slice A) : bool :=
  match x, y with
  | None, None => true
  | Some a, Some b =>
      if negb (len (elems a) =? len (elems b)) then false
      else if Pos.eqb (base a) (base b) then true
      else DeepEqual_elems eq (elems a) (elems b)
  | _, _ => false
  end.

Definition DeepEqual_SLOLimits (x y : SLOLimits.t) : bool :=
  DeepEqual_slice DeepEqual_SLO (SLOLimits.Upper x) (SLOLimits.Upper y)
  && DeepEqual_slice DeepEqual_SLO (SLOLimits.Lower x) (SLOLimits.Lower y).

Definition DeepEqual_SLOLimits_ptr (x y : option (pointer SLOLimits.t)) : bool :=
  match x, y with
  | None, None => true
  | Some p, Some q =>
      if Pos.eqb (addr p) (addr q) then true
      else DeepEqual_SLOLimits (deref p) (deref q)
  | _, _ => false
  end.

(** [m[k]] read from a map that may be nil. *)
Definition map_get {V : Type} (m : option (gmap string V)) (k : string) : option V :=
  match m with
  | Some g => g !! k
  | None => None
  end.

(** [metricTypeMatch] checks if the metric value is a match for its type. *)
Definition metricTypeMatch (t : MetricType) (val : MetricValue) : bool :=
  match val with
  | VFloat _ =>
      if String.eqb t CounterMetricType || String.eqb t GaugeMetricType
      then true else false
  | VFloats _ => if String.eqb t SampleMetricType then true else false
  | VHist _ => if String.eqb t HistogramMetricType then true else false
  | VOther => false
  end.

Module Insights.

Record t : Type := mk {
  NumVersions : Z;
  MetricsInfo : option (gmap string MetricMeta);
  NonHistMetricValues : list (option (gmap string (list float)));
  HistMetricValues : list (option (gmap string (list HistBucket)));
  SLOs : option (pointer SLOLimits.t);
  SLOsSatisfied : option SLOResults.t
}.

(** Assignments to one field. *)
Definition set_MetricsInfo (in_ : t) (x : option (gmap string MetricMeta)) : t :=
  mk (NumVersions in_) x (NonHistMetricValues in_) (HistMetricValues in_)
     (SLOs in_) (SLOsSatisfied in_).

Definition set_NonHistMetricValues (in_ : t)
    (x : list (option (gmap string (list float)))) : t :=
  mk (NumVersions in_) (MetricsInfo in_) x (HistMetricValues in_)
     (SLOs in_) (SLOsSatisfied in_).

Definition set_HistMetricValues (in_ : t)
    (x : list (option (gmap string (list HistBucket)))) : t :=
  mk (NumVersions in_) (MetricsInfo in_) (NonHistMetricValues in_) x
     (SLOs in_) (SLOsSatisfied in_).

Definition set_SLOs (in_ : t) (x : option (pointer SLOLimits.t)) : t :=
  mk (NumVersions in_) (MetricsInfo in_) (NonHistMetricValues in_)
     (HistMetricValues in_) x (SLOsSatisfied in_).

Definition set_SLOsSatisfied (in_ : t) (x : option SLOResults.t) : t :=
  mk (NumVersions in_) (MetricsInfo in_) (NonHistMetricValues in_)
     (HistMetricValues in_) (SLOs in_) x.

(** [vs[i][m] = append(vs[i][m], val...)] on a slice of maps. *)
Definition append_at {V : Type} (vs : list (option (gmap string (list V))))
    (m : string) (i : Z) (val : list V)
    : result (list (option (gmap string (list V)))) :=
  mp <- index vs i ;;
  match mp with
  | None => Panic NilMapAssignment
  | Some g =>
      Ok (<[Z.to_nat i := Some (<[m := default [] (g !! m) ++ val]> g)]> vs)
  end.

(** [updateMetricValueScalar] updates a scalar metric value for a given version. *)
Definition updateMetricValueScalar (in_ : t) (m : string) (i : Z) (val : float)
    : result t :=
  vs <- append_at (NonHistMetricValues in_) m i [val] ;;
  Ok (set_NonHistMetricValues in_ vs).

(** [updateMetricValueVector] updates a vector metric value for a given version. *)
Definition updateMetricValueVector (in_ : t) (m : string) (i : Z)
    (val : list float) : result t :=
  vs <- append_at (NonHistMetricValues in_) m i val ;;
  Ok (set_NonHistMetricValues in_ vs).

(** [updateMetricValueHist] updates a histogram metric value for a given version. *)
Definition updateMetricValueHist (in_ : t) (m : string) (i : Z)
    (val : list HistBucket) : result t :=
  vs <- append_at (HistMetricValues in_) m i val ;;
  Ok (set_HistMetricValues in_ vs).

(** [in.MetricsInfo[m] = mm] *)
Definition assign_MetricsInfo (in_ : t) (m : string) (mm : MetricMeta) : result t :=
  match MetricsInfo in_ with
  | None => Panic NilMapAssignment
  | Some g => Ok (set_MetricsInfo in_ (Some (<[m := mm]> g)))
  end.

(** [registerMetric] registers a new metric by adding its meta data. *)
Definition registerMetric (in_ : t) (m : string) (mm : MetricMeta)
    : result (t * option error) :=
  match map_get (MetricsInfo in_) m with
  | Some old =>
      if negb (DeepEqual_MetricMeta old mm) then Ok (in_, Some (ErrMetaDiffer m))
      else in' <- assign_MetricsInfo in_ m mm ;; Ok (in', None)
  | None => in' <- assign_MetricsInfo in_ m mm ;; Ok (in', None)
  end.

(** [setSLOs] sets the SLOs field in insights. *)
Definition setSLOs (in_ : t) (slos : option (pointer SLOLimits.t))
    : t * option error :=
  match SLOs in_ with
  | Some _ =>
      if DeepEqual_SLOLimits_ptr (SLOs in_) slos then (in_, None)
      else (in_, Some ErrSLOsConflict)
  | None => (set_SLOs in_ slos, None)
  end.

(** [getCounterOrGaugeMetricFromValuesMap] gets the value of the given counter
    or gauge metric, for the given version, from the metric values map. *)
Definition getCounterOrGaugeMetricFromValuesMap (in_ : t) (i : Z) (m : string)
    : result (option float) :=
  match map_get (MetricsInfo in_) m with
  | Some mm =>
      if negb (String.eqb (Type_ mm) CounterMetricType)
         && negb (String.eqb (Type_ mm) GaugeMetricType)
      then Ok None
      else
        let l := len (NonHistMetricValues in_) in
        if l <=? i then Ok None
        else
          mp <- index (NonHistMetricValues in_) i ;;
          match map_get mp m with
          | Some vals =>
              if 0 <? len vals
              then v <- index vals (len vals - 1) ;; Ok (Some v)
              else Ok None
          | None => Ok None
          end
  | None => Ok None
  end.

(** [GetMetricsInfo] gets metric meta for the given normalized metric name. *)
Definition GetMetricsInfo (in_ : t) (nm : string) : result (option MetricMeta * option error) :=
  let s := strings_Split nm "/" in
  if len s =? 3 then
    s0 <- index s 0 ;;
    s1 <- index s 1 ;;
    s2 <- index s 2 ;;
    let vm := s0 +:+ "/" +:+ s1 in
    match map_get (MetricsInfo in_) vm with
    | None => Ok (None, Some (ErrInfoNotFound vm))
    | Some mm =>
        let aggType :=
          if negb (String.eqb s2 CountAggregator) then GaugeMetricType
          else CounterMetricType in
        let formattedAggregator :=
          if strings_HasPrefix s2 PercentileAggregatorPrefix
          then strings_TrimPrefix s2 PercentileAggregatorPrefix +:+ "-th percentile value"
          else s2 +:+ " value" in
        Ok (Some (mkMetricMeta (formattedAggregator +:+ " of " +:+ vm) (Units mm) aggType),
            None)
    end
  else if len s =? 2 then
    match map_get (MetricsInfo in_) nm with
    | None => Ok (None, Some (ErrInfoNotFound nm))
    | Some mm => Ok (Some mm, None)
    end
  else Ok (None, Some (ErrInvalidMetricName nm)).

(** The errors of the two initialisers, by the place that creates them. *)
Inductive init_error : Type :=
| ErrInconsistentVersions
| ErrInconsistentMetrics
| ErrVersionsChanged.

(** [len(m)] of a map that may be nil. *)
Definition map_len {V : Type} (m : option (gmap string V)) : Z :=
  match m with
  | Some g => Z.of_nat (size g)
  | None => 0
  end.

(** [make([]map[string][]V, n)] with every entry set to [make(map[string][]V)]
    by the loop that follows it in [initMetrics]. *)
Definition make_maps {V : Type} (n : Z) : result (list (option (gmap string (list V)))) :=
  if n <? 0 then Panic MakeSliceLenOutOfRange
  else Ok (replicate (Z.to_nat n) (Some ∅)).

(** [initMetrics] initializes the data structures inside insights that will
    hold metrics. [allocated] is the test
    [in.NonHistMetricValues != nil || in.HistMetricValues != nil]: a list does
    not record whether a slice of length zero is nil. *)
Definition initMetrics (in_ : t) (allocated : bool) : result (t * option init_error) :=
  if allocated then
    if negb (len (NonHistMetricValues in_) =? NumVersions in_)
       || negb (len (HistMetricValues in_) =? NumVersions in_)
    then Ok (in_, Some ErrInconsistentVersions)
    else
      n0 <- index (NonHistMetricValues in_) 0 ;;
      h0 <- index (HistMetricValues in_) 0 ;;
      if negb (map_len n0 + map_len h0 =? map_len (MetricsInfo in_))
      then Ok (in_, Some ErrInconsistentMetrics)
      else Ok (in_, None)
  else
    nonhist <- make_maps (NumVersions in_) ;;
    hist <- make_maps (NumVersions in_) ;;
    Ok (mk (NumVersions in_) (Some ∅) nonhist hist (SLOs in_) (SLOsSatisfied in_),
        None).

Section Libraries.
Context {libs : GoLibs}.

(** [getSampleAggregation] aggregates the given base metric for the given
    version [i] with the given aggregation [a]. *)
Definition getSampleAggregation (in_ : t) (i : Z) (baseMetric : string)
    (a : string) : result (option float) :=
  let at_ : AggregationType := a in
  mp <- index (NonHistMetricValues in_) i ;;
  let vals := default [] (map_get mp baseMetric) in
  if len vals =? 1 then v <- index vals 0 ;; Ok (Some v)
  else if String.eqb at_ MeanAggregator then Ok (stats_Mean vals)
  else if String.eqb at_ StdDevAggregator then Ok (stats_StandardDeviation vals)
  else if String.eqb at_ MinAggregator then Ok (stats_Min vals)
  else if String.eqb at_ MaxAggregator then Ok (stats_Mean vals)
  else if strings_HasPrefix a "p" then
    let b := strings_TrimPrefix a "p" in
    if decimal_MatchString b then
      match strconv_ParseFloat b with
      | None => Ok None
      | Some percent => Ok (stats_Percentile vals percent)
      end
    else Ok None
  else Ok None.

(** [aggregateMetric] returns the aggregated metric value for a given version
    and metric. *)
Definition aggregateMetric (in_ : t) (i : Z) (m : string) : result (option float) :=
  let s := strings_Split m "/" in
  s0 <- index s 0 ;;
  s1 <- index s 1 ;;
  let baseMetric := s0 +:+ "/" +:+ s1 in
  match map_get (MetricsInfo in_) baseMetric with
  | Some mm =>
      if String.eqb (Type_ mm) SampleMetricType
      then s2 <- index s 2 ;; getSampleAggregation in_ i baseMetric s2
      else Ok None
  | None => Ok None
  end.

(** [NormalizeMetricName] normalizes percentile values in metric names. *)
Definition NormalizeMetricName (m : string) : string * option error :=
  let preHTTP := httpMetricPrefix +:+ "/" +:+ builtInHTTPLatencyPercentilePrefix in
  let preGRPC := gRPCMetricPrefix +:+ "/" +:+ gRPCLatencySampleMetricName
                 +:+ "/" +:+ PercentileAggregatorPrefix in
  let pre :=
    if strings_HasPrefix m preHTTP then preHTTP
    else if strings_HasPrefix m preGRPC then preGRPC
    else EmptyString in
  if 0 <? Z.of_nat (String.length pre) then
    let remainder := strings_TrimPrefix m pre in
    match strconv_ParseFloat remainder with
    | None => (m, Some (ErrCannotExtractPercent m))
    | Some percent => (pre +:+ fmt_v percent, None)
    end
  else (m, None).

(** [updateMetric] registers a metric and adds a metric value for a given
    version; metric names will be normalized. *)
Definition updateMetric (in_ : t) (m : string) (mm : MetricMeta) (i : Z)
    (val : MetricValue) : result (t * option error) :=
  if negb (metricTypeMatch (Type_ mm) val) then Ok (in_, Some ErrIncompatible)
  else if NumVersions in_ <=? i then Ok (in_, Some ErrInsufficientVersions)
  else
    match NormalizeMetricName m with
    | (_, Some err) => Ok (in_, Some err)
    | (nm, None) =>
        r <- registerMetric in_ nm mm ;;
        match r with
        | (in1, Some err) => Ok (in1, Some err)
        | (in1, None) =>
            if String.eqb (Type_ mm) CounterMetricType
               || String.eqb (Type_ mm) GaugeMetricType
            then match val with
                 | VFloat v =>
                     in2 <- updateMetricValueScalar in1 nm i v ;; Ok (in2, None)
                 | _ => Panic TypeAssertion
                 end
            else if String.eqb (Type_ mm) SampleMetricType
            then match val with
                 | VFloats v =>
                     in2 <- updateMetricValueVector in1 nm i v ;; Ok (in2, None)
                 | _ => Panic TypeAssertion
                 end
            else if String.eqb (Type_ mm) HistogramMetricType
            then match val with
                 | VHist v =>
                     in2 <- updateMetricValueHist in1 nm i v ;; Ok (in2, None)
                 | _ => Panic TypeAssertion
                 end
            else Ok (in1, None)
        end
    end.

(** [ScalarMetricValue] gets the value of the given scalar metric for the
    given version. *)
Definition ScalarMetricValue (in_ : t) (i : Z) (m : string) : result (option float) :=
  let s := strings_Split m "/" in
  if len s =? 3 then aggregateMetric in_ i m
  else if len s =? 2 then
    match NormalizeMetricName m with
    | (_, Some _) => Ok None
    | (nm, None) => getCounterOrGaugeMetricFromValuesMap in_ i nm
    end
  else Ok None.

End Libraries.

End Insights.

Record ExperimentResult : Type := mkExperimentResult {
  Revision : Z;
  NumLoops : Z;
  NumCompletedTasks : Z;
  Failure : bool;
  Insights : option Insights.t;
  Iter8Version : string
}.

Record TaskMeta : Type := mkTaskMeta {
  Task : option string;
  Run : option string;
  If : option string
}.

(** [initInsightsWithNumVersions] is also going to initialize the insights
    data structure; the error of [initMetrics] is dropped, as in the source.
    [allocated] is read by [initMetrics] when the insights exist already; new
    insights have nil slices. *)
Definition initInsightsWithNumVersions (r : ExperimentResult) (n : Z)
    (allocated : bool) : result (ExperimentResult * option Insights.init_error) :=
  let with_insights (ins : Insights.t) :=
    mkExperimentResult (Revision r) (NumLoops r) (NumCompletedTasks r) (Failure r)
      (Some ins) (Iter8Version r) in
  match Insights r with
  | Some ins =>
      if negb (Insights.NumVersions ins =? n) then Ok (r, Some Insights.ErrVersionsChanged)
      else x <- Insights.initMetrics ins allocated ;; Ok (with_insights (fst x), None)
  | None =>
      x <- Insights.initMetrics (Insights.mk n None [] [] None None) false ;;
      Ok (with_insights (fst x), None)
  end.

Module Experiment.

(** An experiment over tasks of type [T]; the [driver] field is threaded by
    [run] as a state of its own. *)
Record t (T : Type) : Type := mk {
  Spec : list T;
  Result : option ExperimentResult
}.
Arguments mk {T} Spec Result.
Arguments Spec {T} _.
Arguments Result {T} _.

Section SLOs.
Context {T : Type}.

(** [count] rows made by [make([]bool, n)] each. *)
Definition make_rows (count : nat) (n : Z) : result (list (list bool)) :=
  match count with
  | O => Ok []
  | S _ =>
      if n <? 0 then Panic MakeSliceLenOutOfRange
      else Ok (replicate count (replicate (Z.to_nat n) false))
  end.

(** [initializeSLOsSatisfied] initializes the SLOs satisfied field. *)
Definition initializeSLOsSatisfied (e : t T) : result (t T * option error) :=
  match Result e with
  | None => Panic NilDereference
  | Some r =>
      match Insights r with
      | None => Panic NilDereference
      | Some ins =>
          match Insights.SLOsSatisfied ins with
          | Some _ => Ok (e, None)
          | None =>
              sat <- match Insights.SLOs ins with
                     | None => Ok (SLOResults.mk [] [])
                     | Some slos =>
                         upper <- make_rows
                                    (length (slice_elems (SLOLimits.Upper (deref slos))))
                                    (Insights.NumVersions ins) ;;
                         lower <- make_rows
                                    (length (slice_elems (SLOLimits.Lower (deref slos))))
                                    (Insights.NumVersions ins) ;;
                         Ok (SLOResults.mk upper lower)
                     end ;;
              Ok (mk (Spec e)
                    (Some (mkExperimentResult (Revision r) (NumLoops r)
                             (NumCompletedTasks r) (Failure r)
                             (Some (Insights.set_SLOsSatisfied ins (Some sat)))
                             (Iter8Version r))),
                  None)
          end
      end
  end.

(** The cell [SLOsSatisfied.Upper[i][j]] (or [Lower]), read through the nil-able
    pointer [SLOsSatisfied]. *)
Definition satisfied_cell (side : SLOResults.t -> list (list bool))
    (ins : Insights.t) (i j : Z) : result bool :=
  match Insights.SLOsSatisfied ins with
  | None => Panic NilDereference
  | Some r => row <- index (side r) i ;; index row j
  end.

(** One of the two inner loops of [getSLOsSatisfiedBy]:
    [satThis = satThis && cell[i][j]; if !satThis { break }] for [n] more
    rows from row [i]. The conjunction short-circuits. *)
Fixpoint satisfied_rows (cell : Z -> result bool) (n : nat) (i : Z)
    (satThis : bool) : result bool :=
  match n with
  | O => Ok satThis
  | S n' =>
      s <- (if satThis then cell i else Ok false) ;;
      if negb s then Ok s else satisfied_rows cell n' (i + 1) s
  end.

(** The loop over the versions [j], [n] more from [j]. *)
Fixpoint satisfied_versions (ins : Insights.t) (slos : SLOLimits.t)
    (n : nat) (j : Z) (sat : list Z) : result (list Z) :=
  match n with
  | O => Ok sat
  | S n' =>
      s1 <- satisfied_rows (fun i => satisfied_cell SLOResults.Upper ins i j)
              (length (slice_elems (SLOLimits.Upper slos))) 0 true ;;
      s2 <- satisfied_rows (fun i => satisfied_cell SLOResults.Lower ins i j)
              (length (slice_elems (SLOLimits.Lower slos))) 0 s1 ;;
      satisfied_versions ins slos n' (j + 1) (if s2 then sat ++ [j] else sat)
  end.

(** [for j := 0; j < n; j++ { sat = append(sat, j) }] *)
Fixpoint all_versions (n : nat) (j : Z) (sat : list Z) : list Z :=
  match n with
  | O => sat
  | S n' => all_versions n' (j + 1) (sat ++ [j])
  end.

(** [getSLOsSatisfiedBy]; [None] is the nil slice. *)
Definition getSLOsSatisfiedBy (exp : option (t T)) : result (option (list Z)) :=
  match exp with
  | None => Ok None
  | Some e =>
      match Result e with
      | None => Ok None
      | Some r =>
          match Insights r with
          | None => Ok None
          | Some ins =>
              if Insights.NumVersions ins =? 0 then Ok None
              else match Insights.SLOs ins with
                   | None =>
                       Ok (Some (all_versions (Z.to_nat (Insights.NumVersions ins)) 0 []))
                   | Some slos =>
                       sat <- satisfied_versions ins (deref slos)
                                (Z.to_nat (Insights.NumVersions ins)) 0 [] ;;
                       Ok (Some sat)
                   end
          end
      end
  end.

(** [SLOs]: true if all versions satisfy SLOs. *)
Definition SLOs (exp : option (t T)) : result bool :=
  match exp with
  | None => Ok false
  | Some e =>
      match Result e with
      | None => Ok false
      | Some r =>
          match Insights r with
          | None => Ok false
          | Some ins =>
              sby <- getSLOsSatisfiedBy exp ;;
              Ok (Insights.NumVersions ins =? len (default [] sby))
          end
      end
  end.

End SLOs.

(** *** The engine *)

(** The [Task] interface, as far as [run] uses it: the task's own [run], and
    the [TaskMeta] that [getIf] and [getName] recover from the task's JSON. *)
Class TaskOps (T : Type) : Type := {
  task_meta : T -> TaskMeta;
  task_run : T -> t T -> t T * option error
}.

(** The [Driver] interface over a store of type [D]. *)
Class Driver (D T : Type) : Type := {
  driver_Read : D -> (t T) + error;
  driver_Write : D -> t T -> D * option error;
  driver_GetRevision : D -> Z
}.

(** The expression library: [expr.Compile(cond, expr.Env(exp), expr.AsBool())]
    and [expr.Run(program, exp)]. *)
Class ExprLib (T : Type) : Type := {
  program : Type;
  expr_Compile : string -> t T -> program + error;
  expr_Run : program -> t T -> bool + error
}.

(** The calls [run] makes on the two interfaces, in order. *)
Inductive call (T : Type) : Type :=
| CallWrite (e : t T)
| CallRun (i : nat) (task : T).
Arguments CallWrite {T} e.
Arguments CallRun {T} i task.

(** What a run has in hand: the experiment, the driver's store, and the calls
    made so far. *)
Record state (D T : Type) : Type := mkState {
  s_exp : t T;
  s_driver : D;
  s_calls : list (call T)
}.
Arguments mkState {D T} s_exp s_driver s_calls.
Arguments s_exp {D T} _.
Arguments s_driver {D T} _.
Arguments s_calls {D T} _.

(** Modelled from the spec: the name a task with a [run] script is logged
    under, a constant declared outside the sources. *)
Definition RunTaskName : string := "run".

Section Engine.
Context {D T : Type} `{TaskOps T} `{Driver D T} `{ExprLib T}.

(** [getIf] returns the condition (if any) which determines whether this task
    needs to run. *)
Definition getIf (tk : T) : option string := If (task_meta tk).

(** [getName] returns the name of this task. *)
Definition getName (tk : T) : option string :=
  match Task (task_meta tk) with
  | None =>
      match Run (task_meta tk) with
      | Some _ => Some RunTaskName
      | None => None
      end
  | Some n => Some n
  end.

(** An assignment through [e.Result]. *)
Definition update_Result (f : ExperimentResult -> ExperimentResult) (e : t T)
    : result (t T) :=
  match Result e with
  | None => Panic NilDereference
  | Some r => Ok (mk (Spec e) (Some (f r)))
  end.

(** [failExperiment] sets the experiment failure status to true. *)
Definition failExperiment (e : t T) : result (t T) :=
  update_Result (fun r =>
    mkExperimentResult (Revision r) (NumLoops r) (NumCompletedTasks r) true
      (Insights r) (Iter8Version r)) e.

(** [incrementNumCompletedTasks] increments the number of completed tasks. *)
Definition incrementNumCompletedTasks (e : t T) : result (t T) :=
  update_Result (fun r =>
    mkExperimentResult (Revision r) (NumLoops r) (int_succ (NumCompletedTasks r))
      (Failure r) (Insights r) (Iter8Version r)) e.

(** [incrementNumLoops] increments the number of loops. *)
Definition incrementNumLoops (e : t T) : result (t T) :=
  update_Result (fun r =>
    mkExperimentResult (Revision r) (int_succ (NumLoops r)) (NumCompletedTasks r)
      (Failure r) (Insights r) (Iter8Version r)) e.

(** [driver.Write(exp)] *)
Definition write (s : state D T) : state D T * option error :=
  let w := driver_Write (s_driver s) (s_exp s) in
  (mkState (s_exp s) (fst w) (s_calls s ++ [CallWrite (s_exp s)]), snd w).

(** [t.run(exp)] *)
Definition invoke (i : nat) (tk : T) (s : state D T) : state D T * option error :=
  let r := task_run tk (s_exp s) in
  (mkState (fst r) (s_driver s) (s_calls s ++ [CallRun i tk]), snd r).

(** The condition of a task: [true] without one, else what it evaluates to. *)
Definition shouldRun (tk : T) (e : t T) : bool + error :=
  match getIf tk with
  | None => inl true
  | Some cond =>
      match expr_Compile cond e with
      | inr err => inr err
      | inl prog => expr_Run prog e
      end
  end.

(** The end of the loop body, after the [if shouldRun] statement:
    [exp.incrementNumCompletedTasks()], then [driver.Write(exp)]. The second
    component is the error [run] returns with, if any. *)
Definition completeTask (s : state D T) : result (state D T * option error) :=
  e <- incrementNumCompletedTasks (s_exp s) ;;
  Ok (write (mkState e (s_driver s) (s_calls s))).

(** The loop body of [run] for the task [tk] at position [i]. *)
Definition run_task (i : nat) (tk : T) (s : state D T)
    : result (state D T * option error) :=
  match getName tk with
  | None => Panic NilDereference
  | Some _ =>
      match shouldRun tk (s_exp s) with
      | inr err => Ok (s, Some err)
      | inl true =>
          match invoke i tk s with
          | (s1, Some err) =>
              e <- failExperiment (s_exp s1) ;;
              match write (mkState e (s_driver s1) (s_calls s1)) with
              | (s2, Some e') => Ok (s2, Some e')
              | (s2, None) => Ok (s2, Some err)
              end
          | (s1, None) => completeTask s1
          end
      | inl false => completeTask s
      end
  end.

(** [for i, t := range exp.Spec { ... }] *)
Fixpoint run_tasks (i : nat) (ts : list T) (s : state D T)
    : result (state D T * option error) :=
  match ts with
  | [] => Ok (s, None)
  | tk :: ts' =>
      r <- run_task i tk s ;;
      match r with
      | (s', Some err) => Ok (s', Some err)
      | (s', None) => run_tasks (S i) ts' s'
      end
  end.

(** [run] the experiment. *)
Definition run (exp : t T) (driver : D) : result (state D T * option error) :=
  match Result exp with
  | None => Ok (mkState exp driver [], Some ErrNilResult)
  | Some _ =>
      e <- incrementNumLoops exp ;;
      match write (mkState e driver []) with
      | (s, Some err) => Ok (s, Some err)
      | (s, None) => run_tasks 0 (Spec exp) s
      end
  end.

End Engine.

(** *** Around a run *)

Section Lifecycle.
Context {D T : Type} `{TaskOps T} `{Driver D T} `{ExprLib T}.

(** The constant [MajorMinor], the version of the CLI, declared outside the
    sources. *)
Variable MajorMinor : string.

(** [Completed] returns true if the experiment is complete. *)
Definition Completed (exp : option (t T)) : bool :=
  match exp with
  | Some e =>
      match Result e with
      | Some r => if NumCompletedTasks r =? len (Spec e) then true else false
      | None => false
      end
  | None => false
  end.

(** [NoFailure] returns true if no task in the experiment has failed. *)
Definition NoFailure (exp : option (t T)) : bool :=
  match exp with
  | Some e =>
      match Result e with
      | Some r => negb (Failure r)
      | None => false
      end
  | None => false
  end.

(** [initResults] initializes the results section of an experiment; the start
    time is a field the model of the result does not carry. *)
Definition initResults (e : t T) (revision : Z) : t T :=
  mk (Spec e) (Some (mkExperimentResult revision 0 0 false None MajorMinor)).

(** [BuildExperiment] builds an experiment. *)
Definition BuildExperiment (driver : D) : (t T) + error :=
  match driver_Read driver with
  | inr err => inr err
  | inl e => inl e
  end.

(** [RunExperiment] runs an experiment; [None] for the state when there was
    no experiment to run. *)
Definition RunExperiment (reuseResult : bool) (driver : D)
    : result (option (state D T) * option error) :=
  match BuildExperiment driver with
  | inr err => Ok (None, Some err)
  | inl exp =>
      let exp' := if negb reuseResult
                  then initResults exp (driver_GetRevision driver) else exp in
      r <- run exp' driver ;;
      Ok (Some (fst r), snd r)
  end.

End Lifecycle.

End Experiment.


(** ** A reference instance of the libraries

    Computable stand-ins on binary64 for the library functions, used to run
    the model on concrete inputs. The statistics follow montanaflynn/stats.
    Parsing and printing cover the plain decimal fragment only: an optional
    sign, digits and an optional fraction that fit a float exactly after one
    division, and the spellings of the infinities and of NaN. A value that
    prints outside this fragment (in exponent form, or with more digits) is
    printed as NaN is. *)
Module Ref.

Definition float64_of_int (n : Z) : float := PrimFloat.of_uint63 (Uint63.of_Z n).

(** [int(x)] for a finite [x]: truncation towards zero. *)
Definition int_of_float64 (x : float) : Z :=
  match Prim2SF x with
  | S754_finite s m e =>
      let v := if 0 <=? e then Z.pos m * 2 ^ e else Z.pos m / 2 ^ (- e) in
      if s then - v else v
  | _ => 0
  end.

Definition Sum (input : list float) : float :=
  fold_left PrimFloat.add input 0%float.

Definition Mean (input : list float) : option float :=
  match input with
  | [] => None
  | _ => Some (Sum input / float64_of_int (len input))%float
  end.

Definition Min (input : list float) : option float :=
  match input with
  | [] => None
  | x :: rest => Some (fold_left (fun m y => if (y <? m)%float then y else m) rest x)
  end.

Definition Max (input : list float) : option float :=
  match input with
  | [] => None
  | x :: rest => Some (fold_left (fun m y => if (m <? y)%float then y else m) rest x)
  end.

Definition PopulationVariance (input : list float) : option float :=
  match Mean input with
  | None => None
  | Some m =>
      let variance :=
        fold_left (fun v n => v + (n - m) * (n - m))%float input 0%float in
      Some (variance / float64_of_int (len input))%float
  end.

Definition StandardDeviation (input : list float) : option float :=
  match PopulationVariance input with
  | None => None
  | Some vp => Some (PrimFloat.sqrt vp)
  end.

(** The order of [sort.Float64s]: NaN first. *)
Definition float64_less (x y : float) : bool :=
  (x <? y)%float || (PrimFloat.is_nan x && negb (PrimFloat.is_nan y)).

Fixpoint insert_sorted (x : float) (l : list float) : list float :=
  match l with
  | [] => [x]
  | y :: l' => if float64_less x y then x :: l else y :: insert_sorted x l'
  end.

Definition sortedCopy (input : list float) : list float :=
  fold_right insert_sorted [] input.

(** [stats.Percentile]. Where the library reads [c[i-1]] at [i = 0], for a
    percent so small that the index rounds to zero, it panics; the stand-in
    reads [c[0]] there. *)
Definition Percentile (input : list float) (percent : float) : option float :=
  match input with
  | [] => None
  | [x] => Some x
  | _ =>
      if (percent <=? 0)%float || (100 <? percent)%float then None
      else
        let c := sortedCopy input in
        let index := ((percent / 100) * float64_of_int (len c))%float in
        let i := Z.to_nat (int_of_float64 index) in
        if (index =? float64_of_int (int_of_float64 index))%float then c !! (i - 1)%nat
        else if (1 <? index)%float then
          match c !! (i - 1)%nat, c !! i with
          | Some a, Some b => Mean [a; b]
          | _, _ => None
          end
        else None
  end.

(** Decimal digits. *)
Definition digit_val (c : ascii) : option Z :=
  let n := Z.of_nat (nat_of_ascii c) in
  if (48 <=? n) && (n <=? 57) then Some (n - 48) else None.

Fixpoint digits_val (s : string) (acc : Z) : option Z :=
  match s with
  | EmptyString => Some acc
  | String c s' =>
      match digit_val c with
      | Some d => digits_val s' (10 * acc + d)
      | None => None
      end
  end.

Fixpoint pow10 (k : nat) : float :=
  match k with
  | O => 1%float
  | S k' => (pow10 k' * 10)%float
  end.

(** An unsigned decimal [digits[.digits]] with at least one digit. *)
Definition parse_unsigned (s : string) : option float :=
  let value (ip fp : string) :=
    if (String.length ip + String.length fp =? 0)%nat then None
    else match digits_val (ip +:+ fp) 0 with
         | Some mant =>
             if (mant <? 2 ^ 53) && (String.length fp <=? 22)%nat
             then Some (float64_of_int mant / pow10 (String.length fp))%float
             else None
         | None => None
         end in
  match strings_Split s "." with
  | [ip] => value ip EmptyString
  | [ip; fp] => value ip fp
  | _ => None
  end.

(** [strconv.ParseFloat(s, 64)] on the plain decimal fragment; an exponent
    form or a mantissa past the fragment, which the library accepts, is
    refused. *)
Definition ParseFloat (s : string) : option float :=
  if String.eqb s "NaN" then Some nan
  else if String.eqb s "+Inf" || String.eqb s "Inf" then Some infinity
  else if String.eqb s "-Inf" then Some neg_infinity
  else match s with
       | String "-" s' => option_map PrimFloat.opp (parse_unsigned s')
       | String "+" s' => parse_unsigned s'
       | _ => parse_unsigned s
       end.

(** Modelled from the spec: [regexp.MatchString(decimalRegex, b)], whose
    pattern is declared outside the sources; [p<X>] takes a decimal [X], read
    here as digits with an optional fraction. *)
Definition MatchDecimal (b : string) : bool :=
  let all_digits (s : string) :=
    (0 <? String.length s)%nat && bool_decide (is_Some (digits_val s 0)) in
  match strings_Split b "." with
  | [ip] => all_digits ip
  | [ip; fp] => all_digits ip && all_digits fp
  | _ => false
  end.

Definition uint_string (n : Z) : string :=
  NilZero.string_of_uint (N.to_uint (Z.to_N n)).

(** [|x|] rounded to [d] decimals, in fixed notation. *)
Definition fixed (x : float) (d : nat) : string :=
  match Prim2SF x with
  | S754_finite _ m e =>
      let num := if 0 <=? e then Z.pos m * 2 ^ e * 10 ^ Z.of_nat d
                 else Z.pos m * 10 ^ Z.of_nat d in
      let den := if 0 <=? e then 1 else 2 ^ (- e) in
      let q := num / den in
      let r := num mod den in
      let n := if (den <? 2 * r) || ((2 * r =? den) && Z.odd q) then q + 1 else q in
      let ip := uint_string (n / 10 ^ Z.of_nat d) in
      match d with
      | O => ip
      | _ => ip +:+ "." +:+
             drop_string 1 (uint_string (10 ^ Z.of_nat d + n mod 10 ^ Z.of_nat d))
      end
  | _ => "0"
  end.

Definition reads_back (x : float) (s : string) : bool :=
  match ParseFloat s with
  | Some y => PrimFloat.Leibniz.eqb y x
  | None => false
  end.

Definition sign_string (x : float) : string :=
  if PrimFloat.get_sign x then "-" else EmptyString.

(** [fmt.Sprintf("%v", x)]: the shortest decimal that reads back as [x], in
    fixed notation while the decimal exponent is between -4 and 5; past
    that range, where the library prints the exponent form, the stand-in
    prints as for NaN. *)
Definition Sprint (x : float) : string :=
  if PrimFloat.is_nan x then "NaN"
  else if (x =? infinity)%float then "+Inf"
  else if (x =? neg_infinity)%float then "-Inf"
  else if negb (PrimFloat.is_zero x)
          && ((PrimFloat.abs x <? 0x1.a36e2eb1c432dp-14)%float
              || (1000000 <=? PrimFloat.abs x)%float)
  then "NaN"
  else
    match find (reads_back x)
               (map (fun d => sign_string x +:+ fixed x d) (seq 0 21)) with
    | Some s => s
    | None => "NaN"
    end.

Definition libs : GoLibs := {|
  stats_Mean := Mean;
  stats_StandardDeviation := StandardDeviation;
  stats_Min := Min;
  stats_Percentile := Percentile;
  decimal_MatchString := MatchDecimal;
  strconv_ParseFloat := ParseFloat;
  fmt_v := Sprint
|}.

End Ref.

(** ** A reference instance of the engine's interfaces

    Tasks that leave the experiment as it is and fail or not as they are
    told, a driver that keeps every experiment written to it, and conditions
    made of the one call [SLOs()]. *)
Module RefEngine.

Record task : Type := mkTask {
  meta : TaskMeta;
  fails : bool
}.

Global Instance task_ops : Experiment.TaskOps task := {|
  Experiment.task_meta := meta;
  Experiment.task_run := fun tk e =>
    (e, if fails tk then Some (ErrExternal "task failed") else None)
|}.

Global Instance memory_driver : Experiment.Driver (list (Experiment.t task)) task := {|
  Experiment.driver_Read := fun d =>
    match last d with
    | Some e => inl e
    | None => inr (ErrExternal "nothing written")
    end;
  Experiment.driver_Write := fun d e => (d ++ [e], None);
  Experiment.driver_GetRevision := fun _ => 0
|}.

Global Instance slos_expr : Experiment.ExprLib task := {|
  Experiment.program := unit;
  Experiment.expr_Compile := fun cond _ =>
    if String.eqb cond "SLOs()" then inl tt
    else inr (ErrExternal "unknown name");
  Experiment.expr_Run := fun _ e =>
    match Experiment.SLOs (Some e) with
    | Ok b => inl b
    | Panic _ => inr (ErrExternal "runtime error")
    end
|}.

End RefEngine.

(** ** The vocabulary of the properties *)

(** The insights an experiment leads to; [None] when the experiment, its
    result or its insights is nil. *)
Definition insights_of {T : Type} (exp : option (Experiment.t T)) : option Insights.t :=
  match exp with
  | None => None
  | Some e =>
      match Experiment.Result e with
      | None => None
      | Some r => Insights r
      end
  end.

(** The cell of a satisfaction matrix for SLO [i] and version [j]. *)
Definition cell (rows : list (list bool)) (i j : Z) : option bool :=
  match rows !! Z.to_nat i with
  | Some row => row !! Z.to_nat j
  | None => None
  end.

(** Version [j] satisfies every configured SLO. *)
Definition satisfies_SLOs (ins : Insights.t) (j : Z) : Prop :=
  match Insights.SLOs ins, Insights.SLOsSatisfied ins with
  | None, _ => True
  | Some slos, Some r =>
      (forall i, 0 <= i < len (slice_elems (SLOLimits.Upper (deref slos))) ->
         cell (SLOResults.Upper r) i j = Some true)
      /\ (forall i, 0 <= i < len (slice_elems (SLOLimits.Lower (deref slos))) ->
         cell (SLOResults.Lower r) i j = Some true)
  | Some _, None => False
  end.

Definition all_versions_satisfy_SLOs (ins : Insights.t) : Prop :=
  forall j, 0 <= j < Insights.NumVersions ins -> satisfies_SLOs ins j.

(** The satisfaction matrices have a row per configured SLO and a cell per
    version in each row, as the assess task allocates them. *)
Definition SLOsSatisfied_allocated (ins : Insights.t) : Prop :=
  match Insights.SLOs ins with
  | None => True
  | Some slos =>
      exists r, Insights.SLOsSatisfied ins = Some r
        /\ length (SLOResults.Upper r) = length (slice_elems (SLOLimits.Upper (deref slos)))
        /\ length (SLOResults.Lower r) = length (slice_elems (SLOLimits.Lower (deref slos)))
        /\ Forall (fun row => len row = Insights.NumVersions ins) (SLOResults.Upper r)
        /\ Forall (fun row => len row = Insights.NumVersions ins) (SLOResults.Lower r)
  end.

(** Whether version [j] passes, read off the matrices as a boolean. *)
Definition passes (slos : SLOLimits.t) (r : SLOResults.t) (j : Z) : bool :=
  forallb (fun i => default false (cell (SLOResults.Upper r) i j))
    (seqZ 0 (len (slice_elems (SLOLimits.Upper slos))))
  && forallb (fun i => default false (cell (SLOResults.Lower r) i j))
    (seqZ 0 (len (slice_elems (SLOLimits.Lower slos)))).

(** What [strconv] documents of the shortest formatting, as far as the
    normaliser needs it: a printed float parses, to a float that prints the
    same. *)
Definition prints_readably {libs : GoLibs} : Prop :=
  forall x, exists y, strconv_ParseFloat (fmt_v x) = Some y /\ fmt_v y = fmt_v x.

(** The observations stored for version [i] and metric [m]. *)
Definition observations (in_ : Insights.t) (i : Z) (m : string) : list float :=
  match Insights.NonHistMetricValues in_ !! Z.to_nat i with
  | Some mp => default [] (map_get mp m)
  | None => []
  end.

(** What montanaflynn/stats documents for an empty input: every function
    returns an error. *)
Definition stats_reject_empty {libs : GoLibs} : Prop :=
  stats_Mean [] = None
  /\ stats_StandardDeviation [] = None
  /\ stats_Min [] = None
  /\ forall percent, stats_Percentile [] percent = None.

(** The experiment [e] with one more completed task in its result [r]. *)
Definition counted {T : Type} (e : Experiment.t T) (r : ExperimentResult)
    : Experiment.t T :=
  Experiment.mk (Experiment.Spec e)
    (Some (mkExperimentResult (Revision r) (NumLoops r)
             (int_succ (NumCompletedTasks r)) (Failure r) (Insights r)
             (Iter8Version r))).

(** The metrics are initialised for the versions, as [initMetrics] leaves
    them: a map of metric metadata, and one map of values per version in each
    of the two stores. *)
Definition metrics_initialized (in_ : Insights.t) : Prop :=
  is_Some (Insights.MetricsInfo in_)
  /\ len (Insights.NonHistMetricValues in_) = Insights.NumVersions in_
  /\ len (Insights.HistMetricValues in_) = Insights.NumVersions in_
  /\ Forall is_Some (Insights.NonHistMetricValues in_)
  /\ Forall is_Some (Insights.HistMetricValues in_).

(** The dynamic shape of a value matches a metric type: a scalar float for a
    counter or a gauge, a float vector for a sample, a bucket vector for a
    histogram. *)
Inductive shape_matches : MetricType -> MetricValue -> Prop :=
| scalar_counter (v : float) : shape_matches CounterMetricType (VFloat v)
| scalar_gauge (v : float) : shape_matches GaugeMetricType (VFloat v)
| vector_sample (v : list float) : shape_matches SampleMetricType (VFloats v)
| buckets_histogram (v : list HistBucket) : shape_matches HistogramMetricType (VHist v).

(** The store [vs] with [val] appended to what version [i] holds for [nm]. *)
Definition appended {V : Type} (vs : list (option (gmap string (list V))))
    (nm : string) (i : Z) (val : list V) : list (option (gmap string (list V))) :=
  alter (fmap (fun g : gmap string (list V) => <[nm := default [] (g !! nm) ++ val]> g))
    (Z.to_nat i) vs.

(** The insights with [mm] registered under [nm] and [val] appended for
    version [i] in the store of its shape. *)
Definition recorded (in_ : Insights.t) (nm : string) (mm : MetricMeta) (i : Z)
    (val : MetricValue) : Insights.t :=
  Insights.mk (Insights.NumVersions in_)
    (Some (<[nm := mm]> (default ∅ (Insights.MetricsInfo in_))))
    (match val with
     | VFloat v => appended (Insights.NonHistMetricValues in_) nm i [v]
     | VFloats v => appended (Insights.NonHistMetricValues in_) nm i v
     | _ => Insights.NonHistMetricValues in_
     end)
    (match val with
     | VHist v => appended (Insights.HistMetricValues in_) nm i v
     | _ => Insights.HistMetricValues in_
     end)
    (Insights.SLOs in_) (Insights.SLOsSatisfied in_).

(** The percentile prefix a name starts with, and the suffix that is to be a
    decimal percent: names under [http/latency-p] and [grpc/latency/p]. *)
Definition percentile_suffix (m : string) : option (string * string) :=
  if strings_HasPrefix m "http/latency-p"
  then Some ("http/latency-p", strings_TrimPrefix m "http/latency-p")
  else if strings_HasPrefix m "grpc/latency/p"
  then Some ("grpc/latency/p", strings_TrimPrefix m "grpc/latency/p")
  else None.

(** The four ways [updateMetric] is refused: the version index is not below
    [numVersions], the shape of the value does not match the type of the
    meta, the canonical name is registered with a different meta, or the
    percentile suffix of the name does not parse. *)
Definition update_refused {libs : GoLibs} (in_ : Insights.t) (m : string)
    (mm : MetricMeta) (i : Z) (val : MetricValue) : Prop :=
  Insights.NumVersions in_ <= i
  \/ ~ shape_matches (Type_ mm) val
  \/ (exists nm old, Insights.NormalizeMetricName m = (nm, None)
        /\ map_get (Insights.MetricsInfo in_) nm = Some old /\ old <> mm)
  \/ (exists pre suffix, percentile_suffix m = Some (pre, suffix)
        /\ strconv_ParseFloat suffix = None).

(** Two SLO limit sets hold the same limits in the same order, and a nil
    list where the other has a nil list. *)
Definition equal_limits (x y : SLOLimits.t) : Prop :=
  option_map elems (SLOLimits.Upper x) = option_map elems (SLOLimits.Upper y)
  /\ option_map elems (SLOLimits.Lower x) = option_map elems (SLOLimits.Lower y).

(** Two SLOs are equal as Go compares them: the same metric, and limits that
    are [==] as floats. *)
Definition SLO_eq (x y : SLO) : Prop :=
  Metric x = Metric y /\ PrimFloat.eqb (Limit x) (Limit y) = true.

(** Two lists of limits agree: both are nil; or neither is, they have one
    length, and they share their backing array or their elements are equal
    pairwise. *)
Definition limits_agree (x y : slice SLO) : Prop :=
  match x, y with
  | None, None => True
  | Some a, Some b =>
      length (elems a) = length (elems b)
      /\ (base a = base b \/ Forall2 SLO_eq (elems a) (elems b))
  | _, _ => False
  end.

(** The argument of a second [setSLOs] is the stored value: the stored
    pointer itself, or a pointer to limits that agree with the stored ones. *)
Definition same_SLOs (old : pointer SLOLimits.t) (slos : option (pointer SLOLimits.t))
    : Prop :=
  match slos with
  | None => False
  | Some new =>
      addr old = addr new
      \/ (limits_agree (SLOLimits.Upper (deref old)) (SLOLimits.Upper (deref new))
          /\ limits_agree (SLOLimits.Lower (deref old)) (SLOLimits.Lower (deref new)))
  end.

(** No limit is NaN, the one float that is not [==] to itself. *)
Definition no_NaN_limit (x : SLOLimits.t) : Prop :=
  Forall (fun s => PrimFloat.is_nan (Limit s) = false)
    (slice_elems (SLOLimits.Upper x) ++ slice_elems (SLOLimits.Lower x)).

(** Every cell of a matrix is false. *)
Definition all_false (rows : list (list bool)) : Prop :=
  Forall (Forall (fun b => b = false)) rows.

(** At least one SLO is configured. *)
Definition some_SLO (slos : SLOLimits.t) : Prop :=
  (0 < length (slice_elems (SLOLimits.Upper slos))
       + length (slice_elems (SLOLimits.Lower slos)))%nat.

(** What a value adds to the observations of its metric. *)
Definition new_observations (val : MetricValue) : list float :=
  match val with
  | VFloat v => [v]
  | VFloats vs => vs
  | _ => []
  end.


(** The metric [m] is registered as a counter or a gauge. *)
Definition scalar_metric (in_ : Insights.t) (m : string) : bool :=
  match map_get (Insights.MetricsInfo in_) m with
  | Some mm =>
      String.eqb (Type_ mm) CounterMetricType || String.eqb (Type_ mm) GaugeMetricType
  | None => false
  end.


(** The experiment with its failure status set, as [failExperiment] leaves
    it. *)
Definition failed {T : Type} (e : Experiment.t T) (r : ExperimentResult)
    : Experiment.t T :=
  Experiment.mk (Experiment.Spec e)
    (Some (mkExperimentResult (Revision r) (NumLoops r) (NumCompletedTasks r) true
             (Insights r) (Iter8Version r))).

(** The experiment at the start of a loop, as [incrementNumLoops] leaves
    it. *)
Definition started {T : Type} (e : Experiment.t T) (r : ExperimentResult)
    : Experiment.t T :=
  Experiment.mk (Experiment.Spec e)
    (Some (mkExperimentResult (Revision r) (int_succ (NumLoops r))
             (NumCompletedTasks r) (Failure r) (Insights r) (Iter8Version r))).

(** A call on the driver. *)
Definition is_write {T : Type} (c : Experiment.call T) : bool :=
  match c with
  | Experiment.CallWrite _ => true
  | Experiment.CallRun _ _ => false
  end.

(** The number of driver writes among the calls. *)
Definition writes {T : Type} (calls : list (Experiment.call T)) : nat :=
  length (List.filter is_write calls).

(** The tasks whose [run] was called, in the order of the calls. *)
Definition tasks_run {T : Type} (calls : list (Experiment.call T)) : list T :=
  omap (fun c => match c with
                 | Experiment.CallRun _ tk => Some tk
                 | Experiment.CallWrite _ => None
                 end) calls.

(** What the engine keeps of the progress of an experiment in its result: the
    number of completed tasks and the failure status. *)
Definition progress {T : Type} (e : Experiment.t T) : option (Z * bool) :=
  option_map (fun r => (NumCompletedTasks r, Failure r)) (Experiment.Result e).

(** The tasks leave the engine's book-keeping alone: a task's [run] changes
    neither the list of tasks nor the progress of the experiment. *)
Definition keeps_progress {T : Type} `{Experiment.TaskOps T} : Prop :=
  forall (tk : T) (e : Experiment.t T),
    Experiment.Spec (fst (Experiment.task_run tk e)) = Experiment.Spec e
    /\ progress (fst (Experiment.task_run tk e)) = progress e.

(** ** Sample experiments *)

(** An experiment without tasks around the given insights. *)
Definition experiment_with (ins : Insights.t) : Experiment.t RefEngine.task :=
  Experiment.mk [] (Some (mkExperimentResult 0 0 0 false (Some ins) "v0.8")).

(** Insights of an experiment that saw no version. *)
Definition zero_versions : Insights.t :=
  Insights.mk 0 (Some ∅) [] [] None None.

(** Two versions under one upper limit, met by the first version only. *)
Definition one_of_two : Insights.t :=
  Insights.mk 2 (Some ∅) [Some ∅; Some ∅] [Some ∅; Some ∅]
    (Some (mkPointer 1%positive
       (SLOLimits.mk (Some (mkBacked 2%positive [mkSLO "http/error-rate" 0%float])) None)))
    (Some (SLOResults.mk [[true; false]] [])).

(** The limits of [one_of_two] once more, in a cell of their own. *)
Definition same_limits : pointer SLOLimits.t :=
  mkPointer 3%positive
    (SLOLimits.mk (Some (mkBacked 4%positive [mkSLO "http/error-rate" 0%float])) None).

(** A tighter limit on another metric. *)
Definition other_limits : pointer SLOLimits.t :=
  mkPointer 5%positive
    (SLOLimits.mk (Some (mkBacked 6%positive [mkSLO "http/latency-mean" 100%float])) None).

(** An upper limit that is NaN, and the same limit in a cell of its own. *)
Definition undefined_limit : pointer SLOLimits.t :=
  mkPointer 7%positive
    (SLOLimits.mk (Some (mkBacked 8%positive [mkSLO "http/error-rate" nan])) None).

Definition undefined_limit_copy : pointer SLOLimits.t :=
  mkPointer 9%positive
    (SLOLimits.mk (Some (mkBacked 10%positive [mkSLO "http/error-rate" nan])) None).

(** One version with the sample metric [grpc/latency] and its observations. *)
Definition latencies (vals : list float) : Insights.t :=
  Insights.mk 1
    (Some {["grpc/latency" := mkMetricMeta "gRPC latency" (Some "msec") SampleMetricType]})
    [Some {["grpc/latency" := vals]}] [Some ∅] None None.

(** One version with the counter [prom/requests] and its observations. *)
Definition requests (vals : list float) : Insights.t :=
  Insights.mk 1
    (Some {["prom/requests" := mkMetricMeta "requests" None CounterMetricType]})
    [Some {["prom/requests" := vals]}] [Some ∅] None None.

(** A script to run only when the SLOs hold, in an experiment where they do
    not: the second version of [one_of_two] misses its limit. *)
Definition gated_task : RefEngine.task :=
  RefEngine.mkTask (mkTaskMeta None (Some "echo ok") (Some "SLOs()")) false.

Definition gated_experiment : Experiment.t RefEngine.task :=
  Experiment.mk [gated_task]
    (Some (mkExperimentResult 0 1 0 false (Some one_of_two) "v0.8")).

(** One version, metrics initialised, nothing registered. *)
Definition one_version : Insights.t :=
  Insights.mk 1 (Some ∅) [Some ∅] [Some ∅] None None.

(** The meta of the built-in HTTP latency percentiles. *)
Definition latency_percentile : MetricMeta :=
  mkMetricMeta "latency percentile" (Some "msec") GaugeMetricType.

(** The experiment around [one_of_two] before the assess task has allocated
    the satisfaction matrices. *)
Definition unassessed : Insights.t :=
  Insights.mk 2 (Some ∅) [Some ∅; Some ∅] [Some ∅; Some ∅]
    (Some (mkPointer 1%positive
       (SLOLimits.mk (Some (mkBacked 2%positive [mkSLO "http/error-rate" 0%float])) None)))
    None.

(** A task without a condition that succeeds, one that fails, and a task
    spec with neither a name nor a script. *)
Definition plain_task : RefEngine.task :=
  RefEngine.mkTask (mkTaskMeta (Some "gen-load-and-collect-metrics") None None) false.

Definition failing_task : RefEngine.task :=
  RefEngine.mkTask (mkTaskMeta (Some "assess-app-versions") None None) true.

Definition unnamed_task : RefEngine.task :=
  RefEngine.mkTask (mkTaskMeta None None None) false.

(** An experiment of two tasks, before its first run and after one. *)
Definition two_tasks (r : option ExperimentResult) : Experiment.t RefEngine.task :=
  Experiment.mk [plain_task; gated_task] r.

(** The result of [two_tasks] after one loop. *)
Definition looped_once : ExperimentResult :=
  mkExperimentResult 0 1 2 false (Some one_of_two) "v0.8".

(** * Properties *)

(** ** Slices and loops *)

Lemma index_Ok {A : Type} (l : list A) (i : Z) (a : A) :
  0 <= i -> l !! Z.to_nat i = Some a -> index l i = Ok a.
Proof.
  intros Hi Hl. unfold index.
  destruct (Z.ltb_spec i 0) as [Hneg | _]; [lia |].
  now rewrite Hl.
Qed.

Lemma index_inv {A : Type} (l : list A) (i : Z) (a : A) :
  index l i = Ok a -> 0 <= i /\ l !! Z.to_nat i = Some a.
Proof.
  unfold index.
  destruct (Z.ltb_spec i 0) as [Hneg | Hpos]; [discriminate |].
  destruct (l !! Z.to_nat i) as [b |] eqn:Hl; [| discriminate].
  intros [= ->]. split; [exact Hpos | reflexivity].
Qed.

Lemma index_out_of_range {A : Type} (l : list A) (i : Z) :
  len l <= i -> index l i = Panic IndexOutOfRange.
Proof.
  intros Hi. unfold index, len in *.
  destruct (Z.ltb_spec i 0) as [_ | Hpos]; [reflexivity |].
  rewrite (proj2 (lookup_ge_None l (Z.to_nat i))) by lia.
  reflexivity.
Qed.

Lemma filter_length_all {A : Type} (f : A -> bool) (l : list A) :
  length (List.filter f l) = length l <-> forallb f l = true.
Proof.
  induction l as [| a l IH]; simpl; [tauto |].
  pose proof (List.filter_length_le f l) as Hle.
  destruct (f a); simpl.
  - rewrite <- IH. split; [intros [= E]; exact E | intros ->; reflexivity].
  - split; [lia | discriminate].
Qed.

Lemma forallb_seqZ (f : Z -> bool) (m : Z) (n : nat) :
  forallb f (seqZ m (Z.of_nat n)) = true <->
  forall k, m <= k < m + Z.of_nat n -> f k = true.
Proof.
  rewrite forallb_forall. split.
  - intros Hall k Hk. apply Hall, list_elem_of_In, elem_of_seqZ. exact Hk.
  - intros Hall k Hk. apply Hall. apply list_elem_of_In, elem_of_seqZ in Hk. exact Hk.
Qed.

Lemma seqZ_S (m : Z) (n : nat) :
  seqZ m (Z.of_nat (S n)) = m :: seqZ (m + 1) (Z.of_nat n).
Proof.
  rewrite seqZ_cons by lia. f_equal. f_equal. lia.
Qed.

(** ** The SLO predicate *)

Section SLOs_facts.
Context {T : Type}.

(** The inner loop computes a conjunction over the rows it visits, provided
    every cell it may read is there. *)
Lemma satisfied_rows_total (c : Z -> result bool) (f : Z -> bool) (n : nat)
    (i : Z) (b : bool) :
  (forall k, i <= k < i + Z.of_nat n -> c k = Ok (f k)) ->
  Experiment.satisfied_rows c n i b = Ok (b && forallb f (seqZ i (Z.of_nat n))).
Proof.
  revert i b. induction n as [| n IH]; intros i b Hc.
  - simpl. now rewrite andb_true_r.
  - rewrite seqZ_S. cbn [Experiment.satisfied_rows forallb].
    destruct b; cbn [andb bind].
    + rewrite (Hc i) by lia. cbn [bind].
      destruct (f i) eqn:Hf; cbn [negb andb].
      * rewrite IH; [reflexivity |]. intros k Hk. apply Hc. lia.
      * reflexivity.
    + reflexivity.
Qed.

Lemma all_versions_length (n : nat) (j : Z) (sat : list Z) :
  length (Experiment.all_versions n j sat) = (length sat + n)%nat.
Proof.
  revert j sat. induction n as [| n IH]; intros j sat; simpl.
  - lia.
  - rewrite IH, length_app. simpl. lia.
Qed.

(** The cell a shaped matrix holds, as a boolean. *)
Lemma satisfied_cell_allocated (side : SLOResults.t -> list (list bool))
    (ins : Insights.t) (r : SLOResults.t) (n : nat) (i j : Z) :
  Insights.SLOsSatisfied ins = Some r ->
  length (side r) = n ->
  Forall (fun row => len row = Insights.NumVersions ins) (side r) ->
  0 <= i < Z.of_nat n ->
  0 <= j < Insights.NumVersions ins ->
  exists b, cell (side r) i j = Some b
    /\ Experiment.satisfied_cell side ins i j = Ok b.
Proof.
  intros Hr Hlen Hrows Hi Hj.
  destruct (lookup_lt_is_Some_2 (side r) (Z.to_nat i)) as [row Hrow]; [lia |].
  assert (Hw : len row = Insights.NumVersions ins).
  { rewrite Forall_forall in Hrows. apply Hrows.
    eapply list_elem_of_lookup_2. exact Hrow. }
  destruct (lookup_lt_is_Some_2 row (Z.to_nat j)) as [b Hb].
  { unfold len in Hw. lia. }
  exists b. unfold cell, Experiment.satisfied_cell.
  rewrite Hr, Hrow. split; [exact Hb |].
  rewrite (index_Ok (side r) i row) by (lia || assumption).
  cbn [bind]. apply index_Ok; [lia | exact Hb].
Qed.

Lemma satisfied_versions_total (ins : Insights.t) (slos : SLOLimits.t)
    (r : SLOResults.t) (n : nat) (j : Z) (sat : list Z) :
  Insights.SLOsSatisfied ins = Some r ->
  length (SLOResults.Upper r) = length (slice_elems (SLOLimits.Upper slos)) ->
  length (SLOResults.Lower r) = length (slice_elems (SLOLimits.Lower slos)) ->
  Forall (fun row => len row = Insights.NumVersions ins) (SLOResults.Upper r) ->
  Forall (fun row => len row = Insights.NumVersions ins) (SLOResults.Lower r) ->
  0 <= j -> j + Z.of_nat n <= Insights.NumVersions ins ->
  Experiment.satisfied_versions ins slos n j sat
  = Ok (sat ++ List.filter (passes slos r) (seqZ j (Z.of_nat n))).
Proof.
  intros Hr HU HL HUrows HLrows. revert j sat.
  induction n as [| n IH]; intros j sat Hj Hn.
  - simpl. now rewrite app_nil_r.
  - rewrite seqZ_S. cbn [Experiment.satisfied_versions List.filter].
    rewrite (satisfied_rows_total _
      (fun i => default false (cell (SLOResults.Upper r) i j))).
    2:{ intros k Hk.
        destruct (satisfied_cell_allocated SLOResults.Upper ins r _ k j Hr HU HUrows)
          as (b & Hb & ->); [lia | lia |].
        now rewrite Hb. }
    cbn [bind andb].
    rewrite (satisfied_rows_total _
      (fun i => default false (cell (SLOResults.Lower r) i j))).
    2:{ intros k Hk.
        destruct (satisfied_cell_allocated SLOResults.Lower ins r _ k j Hr HL HLrows)
          as (b & Hb & ->); [lia | lia |].
        now rewrite Hb. }
    cbn [bind]. rewrite IH by lia.
    change (forallb _ _ && forallb _ _) with (passes slos r j).
    destruct (passes slos r j); [| reflexivity].
    now rewrite <- (List.app_assoc sat [j]).
Qed.

(** On shaped matrices, passing is satisfying every configured SLO. *)
Lemma passes_satisfies (ins : Insights.t) (slos : pointer SLOLimits.t)
    (r : SLOResults.t) (j : Z) :
  Insights.SLOs ins = Some slos ->
  Insights.SLOsSatisfied ins = Some r ->
  length (SLOResults.Upper r) = length (slice_elems (SLOLimits.Upper (deref slos))) ->
  length (SLOResults.Lower r) = length (slice_elems (SLOLimits.Lower (deref slos))) ->
  passes (deref slos) r j = true <-> satisfies_SLOs ins j.
Proof.
  intros Hs Hr HU HL. unfold passes, satisfies_SLOs, len. rewrite Hs, Hr.
  rewrite andb_true_iff, !forallb_seqZ.
  split; intros [H1 H2]; split; intros i Hi.
  - specialize (H1 i ltac:(lia)).
    destruct (cell (SLOResults.Upper r) i j) as [[|]|]; simpl in H1; congruence.
  - specialize (H2 i ltac:(lia)).
    destruct (cell (SLOResults.Lower r) i j) as [[|]|]; simpl in H2; congruence.
  - now rewrite H1 by lia.
  - now rewrite H2 by lia.
Qed.

Lemma make_rows_shape (count : nat) (n : Z) :
  0 <= n ->
  exists rows, Experiment.make_rows count n = Ok rows
    /\ length rows = count /\ Forall (fun row => len row = n) rows.
Proof.
  intros Hn. exists (replicate count (replicate (Z.to_nat n) false)).
  split; [| split].
  - unfold Experiment.make_rows. destruct count as [| c]; [reflexivity |].
    destruct (Z.ltb_spec n 0); [lia | reflexivity].
  - apply length_replicate.
  - apply Forall_replicate. unfold len. rewrite length_replicate. lia.
Qed.

(** What the assess task allocates is what [SLOs()] reads: after
    [initializeSLOsSatisfied] on insights without matrices, the matrices are
    allocated for the configured SLOs. *)
Lemma initializeSLOsSatisfied_allocated (e : Experiment.t T) (ins : Insights.t) :
  insights_of (Some e) = Some ins ->
  Insights.SLOsSatisfied ins = None ->
  0 <= Insights.NumVersions ins ->
  exists e' ins',
    Experiment.initializeSLOsSatisfied e = Ok (e', None)
    /\ insights_of (Some e') = Some ins'
    /\ Insights.NumVersions ins' = Insights.NumVersions ins
    /\ Insights.SLOs ins' = Insights.SLOs ins
    /\ SLOsSatisfied_allocated ins'.
Proof.
  intros Hins Hnone Hn. unfold insights_of in Hins.
  unfold Experiment.initializeSLOsSatisfied.
  destruct (Experiment.Result e) as [r |]; [| discriminate].
  rewrite Hins, Hnone.
  destruct (Insights.SLOs ins) as [slos |] eqn:Hs.
  - destruct (make_rows_shape (length (slice_elems (SLOLimits.Upper (deref slos))))
                _ Hn) as (upper & -> & HU & HUrows).
    destruct (make_rows_shape (length (slice_elems (SLOLimits.Lower (deref slos))))
                _ Hn) as (lower & -> & HL & HLrows).
    cbn [bind]. eexists _, _. split; [reflexivity |].
    split; [reflexivity |]. cbn [Insights.set_SLOsSatisfied Insights.NumVersions
                                 Insights.SLOs].
    split; [reflexivity |]. split; [exact Hs |].
    unfold SLOsSatisfied_allocated.
    cbn [Insights.set_SLOsSatisfied Insights.SLOs Insights.SLOsSatisfied
         Insights.NumVersions].
    rewrite Hs. exists (SLOResults.mk upper lower). auto.
  - cbn [bind]. eexists _, _. split; [reflexivity |].
    split; [reflexivity |]. cbn [Insights.set_SLOsSatisfied Insights.NumVersions
                                 Insights.SLOs].
    split; [reflexivity |]. split; [exact Hs |].
    unfold SLOsSatisfied_allocated.
    cbn [Insights.set_SLOsSatisfied Insights.SLOs]. now rewrite Hs.
Qed.

End SLOs_facts.

(** X25. What [SLOs()] answers, as the code has it: false when the
    experiment, its result or its insights is nil. With insights it answers
    true when [numVersions] is zero, and true when [numVersions >= 1] and no
    SLOs are configured. When [numVersions >= 0] and the satisfaction matrices
    are allocated for the configured SLOs, it answers true iff every version
    satisfies every configured SLO. *)
Theorem SLOs_true_iff_all_versions_satisfy {T : Type}
    (exp : option (Experiment.t T)) :
  (insights_of exp = None -> Experiment.SLOs exp = Ok false)
  /\ (forall ins, insights_of exp = Some ins ->
        (Insights.NumVersions ins = 0 -> Experiment.SLOs exp = Ok true)
        /\ (1 <= Insights.NumVersions ins -> Insights.SLOs ins = None ->
            Experiment.SLOs exp = Ok true)
        /\ (0 <= Insights.NumVersions ins -> SLOsSatisfied_allocated ins ->
            exists b, Experiment.SLOs exp = Ok b
              /\ (b = true <-> all_versions_satisfy_SLOs ins))).
Proof.
  assert (Hnone : forall ins, insights_of exp = Some ins ->
            Insights.SLOs ins = None -> 0 <= Insights.NumVersions ins ->
            Experiment.SLOs exp = Ok true).
  { intros ins Hins Hs Hn. destruct exp as [e |]; [| discriminate].
    simpl in Hins. unfold Experiment.SLOs, Experiment.getSLOsSatisfiedBy.
    destruct (Experiment.Result e) as [r |]; [| discriminate].
    rewrite Hins, Hs.
    destruct (Z.eqb_spec (Insights.NumVersions ins) 0) as [E | _]; cbn [bind from_option id].
    - now rewrite E.
    - unfold len. rewrite all_versions_length. simpl.
      f_equal. apply Z.eqb_eq. lia. }
  split.
  - intros Hins. destruct exp as [e |]; [| reflexivity]. simpl in *.
    destruct (Experiment.Result e) as [r |]; [| reflexivity].
    now rewrite Hins.
  - intros ins Hins. split; [| split].
    + intros Hz. destruct exp as [e |]; [| discriminate].
      simpl in Hins. unfold Experiment.SLOs, Experiment.getSLOsSatisfiedBy.
      destruct (Experiment.Result e) as [r |]; [| discriminate].
      rewrite Hins, Hz. reflexivity.
    + intros Hn Hs. apply (Hnone ins Hins Hs). lia.
    + intros Hn Halloc.
      destruct (Insights.SLOs ins) as [slos |] eqn:Hs.
      2:{ exists true. split; [apply (Hnone ins Hins Hs Hn) |].
          split; [| reflexivity]. intros _ j _.
          unfold satisfies_SLOs. now rewrite Hs. }
      unfold SLOsSatisfied_allocated in Halloc. rewrite Hs in Halloc.
      destruct Halloc as (r & Hr & HU & HL & HUrows & HLrows).
      destruct exp as [e |]; [| discriminate].
      simpl in Hins. unfold Experiment.SLOs, Experiment.getSLOsSatisfiedBy.
      destruct (Experiment.Result e) as [res |]; [| discriminate].
      rewrite Hins, Hs.
      destruct (Z.eqb_spec (Insights.NumVersions ins) 0) as [E | NE]; cbn [bind from_option id].
      * exists true. rewrite E. split; [reflexivity |].
        split; [| reflexivity]. intros _ j Hj. lia.
      * rewrite (satisfied_versions_total ins (deref slos) r _ 0 [] Hr HU HL HUrows HLrows)
          by lia.
        cbn [bind from_option id app].
        set (l := seqZ 0 (Z.of_nat (Z.to_nat (Insights.NumVersions ins)))).
        assert (Hl : length l = Z.to_nat (Insights.NumVersions ins)).
        { unfold l. rewrite length_seqZ. lia. }
        exists (Insights.NumVersions ins =? len (List.filter (passes (deref slos) r) l)).
        split; [reflexivity |].
        rewrite Z.eqb_eq. unfold len.
        assert (Hiff : Insights.NumVersions ins
                       = Z.of_nat (length (List.filter (passes (deref slos) r) l))
                       <-> length (List.filter (passes (deref slos) r) l) = length l)
          by lia.
        rewrite Hiff, filter_length_all. unfold l. rewrite forallb_seqZ.
        unfold all_versions_satisfy_SLOs.
        split; intros Hall j Hj.
        -- apply (passes_satisfies ins slos r j Hs Hr HU HL). apply Hall. lia.
        -- apply (passes_satisfies ins slos r j Hs Hr HU HL). apply Hall. lia.
Qed.

(** X25 at two versions under one limit that only the first version meets. *)
Lemma SLOs_true_iff_all_versions_satisfy_witness :
  exists b, Experiment.SLOs (Some (experiment_with one_of_two)) = Ok b
    /\ (b = true <-> all_versions_satisfy_SLOs one_of_two).
Proof.
  apply (SLOs_true_iff_all_versions_satisfy (Some (experiment_with one_of_two))).
  - reflexivity.
  - simpl. lia.
  - exists (SLOResults.mk [[true; false]] []). simpl.
    repeat split; repeat constructor.
Defined.

(** C1. The code departs from the claim at zero versions. For insights with
    [numVersions = 0], [getSLOsSatisfiedBy] returns nil, as it does for a nil
    experiment, result or insights; but [SLOs()] guards the three nils only,
    so that it goes on to compare [numVersions] with the length of that nil
    slice and answers true, where the claim has false. On a nil experiment,
    result or insights the same nil slice comes with the answer false. *)
Theorem SLOs_zero_versions_returns_true {T : Type}
    (exp : option (Experiment.t T)) (ins : Insights.t) :
  insights_of exp = Some ins ->
  Insights.NumVersions ins = 0 ->
  Experiment.getSLOsSatisfiedBy exp = Ok None
  /\ Experiment.SLOs exp = Ok true
  /\ (forall exp' : option (Experiment.t T),
        insights_of exp' = None ->
        Experiment.getSLOsSatisfiedBy exp' = Ok None
        /\ Experiment.SLOs exp' = Ok false).
Proof.
  intros Hins Hzero.
  assert (Hsby : Experiment.getSLOsSatisfiedBy exp = Ok None).
  { destruct exp as [e |]; [| discriminate]. cbn [insights_of] in Hins.
    unfold Experiment.getSLOsSatisfiedBy.
    destruct (Experiment.Result e) as [r |]; [| discriminate].
    now rewrite Hins, Hzero. }
  split; [exact Hsby | split].
  - destruct exp as [e |]; [| discriminate]. cbn [insights_of] in Hins.
    unfold Experiment.SLOs. fold (Experiment.getSLOsSatisfiedBy (Some e)).
    destruct (Experiment.Result e) as [r |] eqn:Hr; [| discriminate].
    rewrite Hins, Hsby, Hzero. reflexivity.
  - intros exp' Hnil. destruct exp' as [e' |]; [| split; reflexivity].
    cbn [insights_of] in Hnil.
    unfold Experiment.SLOs, Experiment.getSLOsSatisfiedBy.
    destruct (Experiment.Result e') as [r' |]; [| split; reflexivity].
    rewrite Hnil. split; reflexivity.
Qed.

(** C1 on [zero_versions]: the answer is true. *)
Lemma SLOs_zero_versions_returns_true_witness :
  Experiment.getSLOsSatisfiedBy (Some (experiment_with zero_versions)) = Ok None
  /\ Experiment.SLOs (Some (experiment_with zero_versions)) = Ok true.
Proof.
  destruct (SLOs_zero_versions_returns_true (Some (experiment_with zero_versions))
              zero_versions eq_refl eq_refl) as (Hsby & Hanswer & _).
  split; [exact Hsby | exact Hanswer].
Defined.

(** ** Strings *)

Lemma HasPrefix_append (pre s : string) : strings_HasPrefix (pre +:+ s) pre = true.
Proof.
  unfold strings_HasPrefix. induction pre as [| a pre IH]; simpl.
  - now destruct s.
  - destruct (ascii_dec a a) as [_ | NE]; [exact IH | now destruct NE].
Qed.

Lemma drop_string_append (pre s : string) :
  drop_string (String.length pre) (pre +:+ s) = s.
Proof. induction pre as [| a pre IH]; simpl; [reflexivity | exact IH]. Qed.

Lemma TrimPrefix_append (pre s : string) : strings_TrimPrefix (pre +:+ s) pre = s.
Proof.
  unfold strings_TrimPrefix. rewrite HasPrefix_append. apply drop_string_append.
Qed.

(** ** Name normalisation *)

Section Normalisation.
Context {libs : GoLibs}.

(** The normaliser by cases on the percentile prefix. *)
Lemma NormalizeMetricName_cases (m : string) :
  Insights.NormalizeMetricName m
  = match percentile_suffix m with
    | None => (m, None)
    | Some (pre, suffix) =>
        match strconv_ParseFloat suffix with
        | None => (m, Some (ErrCannotExtractPercent m))
        | Some percent => (pre +:+ fmt_v percent, None)
        end
    end.
Proof.
  unfold Insights.NormalizeMetricName, percentile_suffix.
  change (httpMetricPrefix +:+ "/" +:+ builtInHTTPLatencyPercentilePrefix)
    with "http/latency-p".
  change (gRPCMetricPrefix +:+ "/" +:+ gRPCLatencySampleMetricName +:+ "/"
          +:+ PercentileAggregatorPrefix) with "grpc/latency/p".
  destruct (strings_HasPrefix m "http/latency-p"); [reflexivity |].
  destruct (strings_HasPrefix m "grpc/latency/p"); reflexivity.
Qed.

(** The normaliser fails exactly on an unparseable percentile suffix. *)
Lemma NormalizeMetricName_error_iff (m : string) :
  (exists err, snd (Insights.NormalizeMetricName m) = Some err)
  <-> (exists pre suffix, percentile_suffix m = Some (pre, suffix)
         /\ strconv_ParseFloat suffix = None).
Proof.
  rewrite NormalizeMetricName_cases.
  destruct (percentile_suffix m) as [[pre suffix] |].
  - destruct (strconv_ParseFloat suffix) as [x |] eqn:Hparse; cbn [snd].
    + split; [intros [e [=]] | intros (p & q & [= <- <-] & Hq); congruence].
    + split; [intros _; eauto | intros _; eauto].
  - cbn [snd]. split; [intros [e [=]] | intros (p & q & [=] & _)].
Qed.

(** A name made of a percentile prefix and a printed float is its own normal
    form. *)
Lemma NormalizeMetricName_printed (pre : string) (x : float) :
  prints_readably ->
  pre = "http/latency-p" \/ pre = "grpc/latency/p" ->
  Insights.NormalizeMetricName (pre +:+ fmt_v x) = (pre +:+ fmt_v x, None).
Proof.
  intros Hp Hpre. destruct (Hp x) as (y & Hy & Hxy).
  unfold Insights.NormalizeMetricName.
  change (httpMetricPrefix +:+ "/" +:+ builtInHTTPLatencyPercentilePrefix)
    with "http/latency-p".
  change (gRPCMetricPrefix +:+ "/" +:+ gRPCLatencySampleMetricName +:+ "/"
          +:+ PercentileAggregatorPrefix) with "grpc/latency/p".
  destruct Hpre as [-> | ->].
  - rewrite HasPrefix_append. cbn [String.length Z.of_nat Z.ltb Z.compare].
    rewrite TrimPrefix_append, Hy, Hxy. reflexivity.
  - replace (strings_HasPrefix ("grpc/latency/p" +:+ fmt_v x) "http/latency-p")
      with false by reflexivity.
    rewrite HasPrefix_append. cbn [String.length Z.of_nat Z.ltb Z.compare].
    rewrite TrimPrefix_append, Hy, Hxy. reflexivity.
Qed.

End Normalisation.

(** C9. [NormalizeMetricName] is idempotent: where it succeeds on [m], it
    succeeds on its output and returns it unchanged, given that a float the
    library prints is one it parses back to the same print. *)
Theorem NormalizeMetricName_idempotent {libs : GoLibs} (m nm : string) :
  prints_readably ->
  Insights.NormalizeMetricName m = (nm, None) ->
  Insights.NormalizeMetricName nm = (nm, None).
Proof.
  intros Hp Hm. revert Hm. unfold Insights.NormalizeMetricName at 1.
  change (httpMetricPrefix +:+ "/" +:+ builtInHTTPLatencyPercentilePrefix)
    with "http/latency-p".
  change (gRPCMetricPrefix +:+ "/" +:+ gRPCLatencySampleMetricName +:+ "/"
          +:+ PercentileAggregatorPrefix) with "grpc/latency/p".
  destruct (strings_HasPrefix m "http/latency-p") eqn:Hhttp.
  - cbn [String.length Z.of_nat Z.ltb Z.compare].
    destruct (strconv_ParseFloat _) as [x |]; [| discriminate].
    intros [= <-]. apply NormalizeMetricName_printed; auto.
  - destruct (strings_HasPrefix m "grpc/latency/p") eqn:Hgrpc.
    + cbn [String.length Z.of_nat Z.ltb Z.compare].
      destruct (strconv_ParseFloat _) as [x |]; [| discriminate].
      intros [= <-]. apply NormalizeMetricName_printed; auto.
    + cbn [String.length Z.of_nat Z.ltb Z.compare]. intros [= <-].
      unfold Insights.NormalizeMetricName.
      change (httpMetricPrefix +:+ "/" +:+ builtInHTTPLatencyPercentilePrefix)
        with "http/latency-p".
      change (gRPCMetricPrefix +:+ "/" +:+ gRPCLatencySampleMetricName +:+ "/"
              +:+ PercentileAggregatorPrefix) with "grpc/latency/p".
      rewrite Hhttp, Hgrpc. reflexivity.
Qed.

(** The reference printer prints a special value, or a decimal that was
    checked to read back. *)
Lemma Ref_Sprint_cases (x : float) :
  Ref.Sprint x = "NaN" \/ Ref.Sprint x = "+Inf" \/ Ref.Sprint x = "-Inf"
  \/ Ref.ParseFloat (Ref.Sprint x) = Some x.
Proof.
  unfold Ref.Sprint.
  destruct (PrimFloat.is_nan x); [now left |].
  destruct (x =? infinity)%float; [now right; left |].
  destruct (x =? neg_infinity)%float; [now right; right; left |].
  destruct (negb (PrimFloat.is_zero x) && _); [now left |].
  destruct (find _ _) as [s |] eqn:Hfind; [| now left].
  right; right; right.
  apply find_some in Hfind as [_ Hs]. unfold Ref.reads_back in Hs.
  destruct (Ref.ParseFloat s) as [y |]; [| discriminate].
  apply FloatAxioms.Leibniz.eqb_spec in Hs. now subst y.
Qed.

Lemma Ref_prints_readably : prints_readably (libs := Ref.libs).
Proof.
  intros x. cbn [fmt_v strconv_ParseFloat Ref.libs].
  destruct (Ref_Sprint_cases x) as [E | [E | [E | E]]].
  - rewrite E. exists nan. split; reflexivity.
  - rewrite E. exists infinity. split; reflexivity.
  - rewrite E. exists neg_infinity. split; reflexivity.
  - exists x. split; [exact E | reflexivity].
Qed.

(** C9 at [http/latency-p95.00], whose normal form is [http/latency-p95]. *)
Lemma NormalizeMetricName_idempotent_witness :
  Insights.NormalizeMetricName (libs := Ref.libs) "http/latency-p95.00"
  = ("http/latency-p95", None)
  /\ Insights.NormalizeMetricName (libs := Ref.libs) "http/latency-p95"
     = ("http/latency-p95", None).
Proof.
  assert (Hm : Insights.NormalizeMetricName (libs := Ref.libs) "http/latency-p95.00"
               = ("http/latency-p95", None)) by (vm_compute; reflexivity).
  split; [exact Hm |].
  exact (NormalizeMetricName_idempotent (libs := Ref.libs) _ _ Ref_prints_readably Hm).
Defined.

(** ** Setting the SLOs *)

Lemma DeepEqual_SLOLimits_ptr_same (p : pointer SLOLimits.t) :
  DeepEqual_SLOLimits_ptr (Some p) (Some p) = true.
Proof. unfold DeepEqual_SLOLimits_ptr. now rewrite Pos.eqb_refl. Qed.

Lemma DeepEqual_elems_same (l : list SLO) :
  Forall (fun s => PrimFloat.is_nan (Limit s) = false) l ->
  DeepEqual_elems DeepEqual_SLO l l = true.
Proof.
  induction 1 as [| s l Hs _ IH]; [reflexivity |].
  cbn [DeepEqual_elems]. unfold DeepEqual_SLO at 1.
  rewrite String.eqb_refl. unfold PrimFloat.is_nan in Hs.
  apply negb_false_iff in Hs. rewrite Hs. exact IH.
Qed.

Lemma DeepEqual_slice_same (x y : slice SLO) :
  option_map elems x = option_map elems y ->
  Forall (fun s => PrimFloat.is_nan (Limit s) = false) (slice_elems x) ->
  DeepEqual_slice DeepEqual_SLO x y = true.
Proof.
  destruct x as [a |], y as [b |]; cbn [option_map slice_elems]; try discriminate;
    [| reflexivity].
  intros [= Hab] Hnan. unfold DeepEqual_slice. rewrite <- Hab, Z.eqb_refl.
  cbn [negb]. destruct (Pos.eqb (base a) (base b)); [reflexivity |].
  now apply DeepEqual_elems_same.
Qed.

(** Limit sets with the same limits, none of them NaN, are deeply equal,
    wherever they are stored. *)
Lemma DeepEqual_SLOLimits_ptr_equal (p q : pointer SLOLimits.t) :
  equal_limits (deref p) (deref q) ->
  no_NaN_limit (deref p) ->
  DeepEqual_SLOLimits_ptr (Some p) (Some q) = true.
Proof.
  intros [HU HL] Hnan. unfold no_NaN_limit in Hnan.
  apply Forall_app in Hnan as [HnU HnL].
  unfold DeepEqual_SLOLimits_ptr, DeepEqual_SLOLimits.
  destruct (Pos.eqb (addr p) (addr q)); [reflexivity |].
  now rewrite (DeepEqual_slice_same _ _ HU HnU), (DeepEqual_slice_same _ _ HL HnL).
Qed.

(** [reflect.DeepEqual] on the SLOs, by what it compares. *)
Lemma DeepEqual_SLO_iff (x y : SLO) : DeepEqual_SLO x y = true <-> SLO_eq x y.
Proof.
  unfold DeepEqual_SLO, SLO_eq. now rewrite andb_true_iff, String.eqb_eq.
Qed.

Lemma DeepEqual_elems_iff (l k : list SLO) :
  DeepEqual_elems DeepEqual_SLO l k = true <-> Forall2 SLO_eq l k.
Proof.
  revert k. induction l as [| x l IH]; intros [| y k]; cbn [DeepEqual_elems].
  - split; [constructor | reflexivity].
  - split; [discriminate | intros Hall; inversion Hall].
  - split; [discriminate | intros Hall; inversion Hall].
  - destruct (DeepEqual_SLO x y) eqn:Hxy.
    + rewrite IH. apply DeepEqual_SLO_iff in Hxy. split.
      * now constructor.
      * intros Hall. now inversion Hall.
    + split; [discriminate |]. intros Hall. inversion Hall as [| ? ? ? ? Heq _]; subst.
      apply DeepEqual_SLO_iff in Heq. congruence.
Qed.

Lemma DeepEqual_slice_iff (x y : slice SLO) :
  DeepEqual_slice DeepEqual_SLO x y = true <-> limits_agree x y.
Proof.
  unfold DeepEqual_slice, limits_agree, len.
  destruct x as [a |], y as [b |]; try (split; [discriminate | contradiction]);
    [| tauto].
  destruct (Z.eqb_spec (Z.of_nat (length (elems a))) (Z.of_nat (length (elems b))))
    as [Hlen | Hlen]; cbn [negb].
  - destruct (Pos.eqb_spec (base a) (base b)) as [Hbase | Hbase].
    + split; [intros _; split; [lia | now left] | reflexivity].
    + rewrite DeepEqual_elems_iff. split.
      * intros Hall. split; [lia | now right].
      * intros [_ [Hsame | Hall]]; [contradiction | exact Hall].
  - split; [discriminate | intros [Hsame _]; lia].
Qed.

Lemma DeepEqual_SLOLimits_ptr_iff (old : pointer SLOLimits.t)
    (slos : option (pointer SLOLimits.t)) :
  DeepEqual_SLOLimits_ptr (Some old) slos = true <-> same_SLOs old slos.
Proof.
  unfold DeepEqual_SLOLimits_ptr, same_SLOs.
  destruct slos as [new |]; [| split; [discriminate | contradiction]].
  destruct (Pos.eqb_spec (addr old) (addr new)) as [Haddr | Haddr].
  - split; [now left | reflexivity].
  - unfold DeepEqual_SLOLimits.
    rewrite andb_true_iff, !DeepEqual_slice_iff. split.
    + intros Hagree. now right.
    + intros [Hsame | Hagree]; [contradiction | exact Hagree].
Qed.

(** C7, amended. [setSLOs] is an idempotent setter up to what
    [reflect.DeepEqual] finds equal. When the SLOs are set, the call succeeds
    if the argument is the stored value: the stored pointer itself, or limits
    whose upper and lower lists each agree with the stored ones (both nil, or
    neither, with one length and one backing array or pairwise [==]
    elements); on any other argument it returns the conflict error; either
    way the insights stay as they are. So a value with the same limits, none
    of them NaN, is accepted; and a separately allocated value with a limit
    that is not [==] to the stored limit at its place is refused, be it a
    changed limit or an unchanged NaN. When the SLOs are unset the argument
    is stored. A call that succeeded can be repeated with its argument: it
    succeeds again and changes nothing. *)
Theorem setSLOs_idempotent (in_ : Insights.t) (slos : option (pointer SLOLimits.t)) :
  (forall old, Insights.SLOs in_ = Some old ->
     (same_SLOs old slos -> Insights.setSLOs in_ slos = (in_, None))
     /\ (~ same_SLOs old slos ->
         Insights.setSLOs in_ slos = (in_, Some ErrSLOsConflict))
     /\ (forall new, slos = Some new ->
         equal_limits (deref old) (deref new) -> no_NaN_limit (deref old) ->
         Insights.setSLOs in_ slos = (in_, None))
     /\ (forall new side a b k sa sb, slos = Some new ->
         side = SLOLimits.Upper \/ side = SLOLimits.Lower ->
         addr old <> addr new ->
         side (deref old) = Some a -> side (deref new) = Some b ->
         base a <> base b ->
         elems a !! k = Some sa -> elems b !! k = Some sb ->
         PrimFloat.eqb (Limit sa) (Limit sb) = false ->
         Insights.setSLOs in_ slos = (in_, Some ErrSLOsConflict)))
  /\ (Insights.SLOs in_ = None ->
      Insights.setSLOs in_ slos = (Insights.set_SLOs in_ slos, None)
      /\ Insights.SLOs (Insights.set_SLOs in_ slos) = slos)
  /\ (forall in1, Insights.setSLOs in_ slos = (in1, None) ->
      Insights.setSLOs in1 slos = (in1, None)).
Proof.
  split; [| split].
  - intros old Hold.
    assert (Hyes : same_SLOs old slos -> Insights.setSLOs in_ slos = (in_, None)).
    { intros Hsame. unfold Insights.setSLOs. rewrite Hold.
      now rewrite (proj2 (DeepEqual_SLOLimits_ptr_iff old slos) Hsame). }
    assert (Hno : ~ same_SLOs old slos ->
                  Insights.setSLOs in_ slos = (in_, Some ErrSLOsConflict)).
    { intros Hother. unfold Insights.setSLOs. rewrite Hold.
      destruct (DeepEqual_SLOLimits_ptr (Some old) slos) eqn:Heq; [| reflexivity].
      now apply DeepEqual_SLOLimits_ptr_iff in Heq. }
    split; [exact Hyes | split; [exact Hno | split]].
    + intros new -> Heq Hnan. unfold Insights.setSLOs. rewrite Hold.
      now rewrite (DeepEqual_SLOLimits_ptr_equal old new Heq Hnan).
    + intros new side a b k sa sb -> Hside Haddr Ha Hb Hbase Hsa Hsb Hne.
      apply Hno. cbn [same_SLOs]. intros [Hsame | [HU HL]]; [contradiction |].
      assert (Hagree : limits_agree (side (deref old)) (side (deref new)))
        by (destruct Hside as [-> | ->]; assumption).
      rewrite Ha, Hb in Hagree. cbn [limits_agree] in Hagree.
      destruct Hagree as [_ [Hsame | Hall]]; [contradiction |].
      destruct (Forall2_lookup_lr _ _ _ _ _ _ Hall Hsa Hsb) as [_ Hlimit].
      congruence.
  - intros Hnone. unfold Insights.setSLOs. rewrite Hnone. split; reflexivity.
  - intros in1. unfold Insights.setSLOs at 1.
    destruct (Insights.SLOs in_) as [old |] eqn:Hold.
    + destruct (DeepEqual_SLOLimits_ptr (Some old) slos) eqn:Heq; [| discriminate].
      intros [= <-]. unfold Insights.setSLOs. now rewrite Hold, Heq.
    + intros [= <-]. unfold Insights.setSLOs. cbn [Insights.set_SLOs Insights.SLOs].
      destruct slos as [p |]; [| reflexivity].
      now rewrite DeepEqual_SLOLimits_ptr_same.
Qed.

(** C7 on the limits of [one_of_two]: the same limits from another cell are
    accepted, other limits are refused, and the store is as it was. *)
Lemma setSLOs_idempotent_witness :
  Insights.setSLOs one_of_two (Some same_limits) = (one_of_two, None)
  /\ Insights.setSLOs one_of_two (Some other_limits)
     = (one_of_two, Some ErrSLOsConflict).
Proof.
  destruct (setSLOs_idempotent one_of_two (Some same_limits)) as [Hset _].
  destruct (setSLOs_idempotent one_of_two (Some other_limits)) as [Hother _].
  split.
  - apply (Hset _ eq_refl) with (new := same_limits).
    + reflexivity.
    + split; reflexivity.
    + repeat constructor.
  - apply (proj2 (proj2 (proj2 (Hother _ eq_refl))) other_limits SLOLimits.Upper
             (mkBacked 2%positive [mkSLO "http/error-rate" 0%float])
             (mkBacked 6%positive [mkSLO "http/latency-mean" 100%float])
             0%nat (mkSLO "http/error-rate" 0%float)
             (mkSLO "http/latency-mean" 100%float));
      try reflexivity; try discriminate.
    now left.
Defined.

(** C7 as stated fails at a NaN limit: a value with the limits of the stored
    one, in a cell of its own, is refused when one of the limits is NaN. *)
Lemma setSLOs_equal_limits_with_NaN_conflict :
  equal_limits (deref undefined_limit) (deref undefined_limit_copy)
  /\ Insights.setSLOs (Insights.set_SLOs one_version (Some undefined_limit))
       (Some undefined_limit_copy)
     = (Insights.set_SLOs one_version (Some undefined_limit), Some ErrSLOsConflict).
Proof. split; [split; reflexivity | reflexivity]. Qed.

(** ** Sample aggregation *)

Lemma latencies_observations (vals : list float) :
  observations (latencies vals) 0 "grpc/latency" = vals.
Proof.
  unfold observations, latencies. cbn [Insights.NonHistMetricValues].
  change ([Some {["grpc/latency" := vals]}] !! Z.to_nat 0)
    with (Some (Some ({["grpc/latency" := vals]} : gmap string (list float)))).
  cbn [map_get]. now rewrite lookup_singleton_eq.
Qed.

Lemma getSampleAggregation_observations {libs : GoLibs} (in_ : Insights.t) (i : Z)
    (base a : string) (mp : option (gmap string (list float))) :
  0 <= i ->
  Insights.NonHistMetricValues in_ !! Z.to_nat i = Some mp ->
  Insights.getSampleAggregation in_ i base a
  = let vals := observations in_ i base in
    if len vals =? 1 then v <- index vals 0 ;; Ok (Some v)
    else if String.eqb a MeanAggregator then Ok (stats_Mean vals)
    else if String.eqb a StdDevAggregator then Ok (stats_StandardDeviation vals)
    else if String.eqb a MinAggregator then Ok (stats_Min vals)
    else if String.eqb a MaxAggregator then Ok (stats_Mean vals)
    else if strings_HasPrefix a "p" then
      if decimal_MatchString (strings_TrimPrefix a "p") then
        match strconv_ParseFloat (strings_TrimPrefix a "p") with
        | None => Ok None
        | Some percent => Ok (stats_Percentile vals percent)
        end
      else Ok None
    else Ok None.
Proof.
  intros Hi Hmp. unfold Insights.getSampleAggregation, observations.
  rewrite (index_Ok _ i mp Hi Hmp), Hmp. reflexivity.
Qed.

(** C6. For every aggregator token and every version [i] that has a slot in
    the store: when no observation is stored for the base metric the result
    is absent, and when exactly one is stored the result is that observation.
    The statistics library is taken to reject an empty input, as it
    documents. *)
Theorem getSampleAggregation_edge_cases {libs : GoLibs} (in_ : Insights.t) (i : Z)
    (base a : string) :
  stats_reject_empty ->
  0 <= i < len (Insights.NonHistMetricValues in_) ->
  (observations in_ i base = [] ->
   Insights.getSampleAggregation in_ i base a = Ok None)
  /\ (forall v, observations in_ i base = [v] ->
      Insights.getSampleAggregation in_ i base a = Ok (Some v)).
Proof.
  intros (Hmean & Hdev & Hmin & Hpct) Hi.
  destruct (lookup_lt_is_Some_2 (Insights.NonHistMetricValues in_) (Z.to_nat i))
    as [mp Hmp]; [unfold len in Hi; lia |].
  rewrite (getSampleAggregation_observations in_ i base a mp) by (lia || assumption).
  split.
  - intros ->. cbn [len length Z.of_nat Z.eqb].
    rewrite Hmean, Hdev, Hmin.
    destruct (String.eqb a MeanAggregator); [reflexivity |].
    destruct (String.eqb a StdDevAggregator); [reflexivity |].
    destruct (String.eqb a MinAggregator); [reflexivity |].
    destruct (String.eqb a MaxAggregator); [reflexivity |].
    destruct (strings_HasPrefix a "p"); [| reflexivity].
    destruct (decimal_MatchString _); [| reflexivity].
    destruct (strconv_ParseFloat _); [| reflexivity].
    now rewrite Hpct.
  - intros v ->. reflexivity.
Qed.

Lemma Ref_stats_reject_empty : stats_reject_empty (libs := Ref.libs).
Proof. repeat split. Qed.

(** C6 at the token [p95], on no observation and on the one observation 7. *)
Lemma getSampleAggregation_edge_cases_witness :
  Insights.getSampleAggregation (libs := Ref.libs) (latencies []) 0 "grpc/latency" "p95"
  = Ok None
  /\ Insights.getSampleAggregation (libs := Ref.libs) (latencies [7%float]) 0
       "grpc/latency" "p95" = Ok (Some 7%float).
Proof.
  split.
  - apply (getSampleAggregation_edge_cases (libs := Ref.libs) (latencies []) 0
             "grpc/latency" "p95" Ref_stats_reject_empty).
    + unfold len, latencies. cbn [Insights.NonHistMetricValues length]. lia.
    + apply latencies_observations.
  - apply (getSampleAggregation_edge_cases (libs := Ref.libs) (latencies [7%float]) 0
             "grpc/latency" "p95" Ref_stats_reject_empty).
    + unfold len, latencies. cbn [Insights.NonHistMetricValues length]. lia.
    + apply latencies_observations.
Defined.

Lemma getSampleAggregation_several {libs : GoLibs} (v1 v2 : float) (rest : list float)
    (a : string) :
  Insights.getSampleAggregation (latencies (v1 :: v2 :: rest)) 0 "grpc/latency" a
  = let vals := v1 :: v2 :: rest in
    if String.eqb a MeanAggregator then Ok (stats_Mean vals)
    else if String.eqb a StdDevAggregator then Ok (stats_StandardDeviation vals)
    else if String.eqb a MinAggregator then Ok (stats_Min vals)
    else if String.eqb a MaxAggregator then Ok (stats_Mean vals)
    else if strings_HasPrefix a "p" then
      if decimal_MatchString (strings_TrimPrefix a "p") then
        match strconv_ParseFloat (strings_TrimPrefix a "p") with
        | None => Ok None
        | Some percent => Ok (stats_Percentile vals percent)
        end
      else Ok None
    else Ok None.
Proof.
  rewrite (getSampleAggregation_observations _ 0 _ _
             (Some {["grpc/latency" := v1 :: v2 :: rest]}))
    by (reflexivity || lia).
  rewrite latencies_observations. cbn zeta.
  replace (len (v1 :: v2 :: rest) =? 1) with false; [reflexivity |].
  symmetry. apply Z.eqb_neq. unfold len. simpl length. lia.
Qed.

(** The aggregated reading [grpc/latency/a] of [latencies vals]. *)
Lemma ScalarMetricValue_latencies {libs : GoLibs} (vals : list float) (i : Z) (a : string) :
  strings_Split a "/" = [a] ->
  Insights.ScalarMetricValue (latencies vals) i ("grpc/latency/" +:+ a)
  = Insights.getSampleAggregation (latencies vals) i "grpc/latency" a.
Proof.
  intros Ha. unfold Insights.ScalarMetricValue, Insights.aggregateMetric.
  assert (Hs : strings_Split ("grpc/latency/" +:+ a) "/" = ["grpc"; "latency"; a]).
  { simpl. change (EmptyString +:+ a) with a. now rewrite Ha. }
  rewrite Hs. cbn [len length Z.of_nat Z.eqb Pos.eqb Pos.of_succ_nat Pos.succ].
  rewrite (index_Ok _ 0 "grpc"), (index_Ok _ 1 "latency"), (index_Ok _ 2 a)
    by (reflexivity || lia).
  cbn [bind String.append].
  unfold latencies at 1. cbn [Insights.MetricsInfo map_get].
  rewrite lookup_singleton_eq. reflexivity.
Qed.

(** C2, what the code does. The token [max] runs the mean routine: on two
    or more observations the result is their mean, whatever the libraries are;
    on the observations 1 and 3 the reference libraries give 2, and the
    maximum is 3. *)
Theorem getSampleAggregation_max_is_mean :
  (forall (L : GoLibs) (v1 v2 : float) (rest : list float),
     Insights.getSampleAggregation (libs := L) (latencies (v1 :: v2 :: rest)) 0
       "grpc/latency" "max"
     = Ok (stats_Mean (GoLibs := L) (v1 :: v2 :: rest)))
  /\ Insights.ScalarMetricValue (libs := Ref.libs) (latencies [1%float; 3%float]) 0
       "grpc/latency/max" = Ok (Some 2%float)
  /\ Ref.Max [1%float; 3%float] = Some 3%float.
Proof.
  split; [| split].
  - intros L v1 v2 rest. now rewrite getSampleAggregation_several.
  - rewrite (ScalarMetricValue_latencies (libs := Ref.libs) _ 0 "max" eq_refl).
    now rewrite getSampleAggregation_several.
  - reflexivity.
Qed.

(** The aggregated name [grpc/latency/count] has a meta of its own. *)
Lemma GetMetricsInfo_count (vals : list float) :
  Insights.GetMetricsInfo (latencies vals) "grpc/latency/count"
  = Ok (Some (mkMetricMeta "count value of grpc/latency" (Some "msec")
                CounterMetricType), None).
Proof.
  unfold Insights.GetMetricsInfo.
  replace (strings_Split "grpc/latency/count" "/") with ["grpc"; "latency"; "count"]
    by reflexivity.
  cbn [len length Z.of_nat Z.eqb Pos.eqb Pos.of_succ_nat Pos.succ].
  rewrite (index_Ok _ 0 "grpc"), (index_Ok _ 1 "latency"), (index_Ok _ 2 "count")
    by (reflexivity || lia).
  cbn [bind]. unfold latencies. cbn [Insights.MetricsInfo map_get].
  replace ("grpc" +:+ "/" +:+ "latency") with "grpc/latency" by reflexivity.
  rewrite lookup_singleton_eq. reflexivity.
Qed.

(** C3, what the code does. The token [count] is no case of the aggregator:
    on two or more observations the result is absent, and on one observation
    it is the observation, not the count 1. [GetMetricsInfo] knows the token:
    it describes the same reading as a counter. *)
Theorem getSampleAggregation_count_is_absent :
  (forall (L : GoLibs) (v1 v2 : float) (rest : list float),
     Insights.getSampleAggregation (libs := L) (latencies (v1 :: v2 :: rest)) 0
       "grpc/latency" "count"
     = Ok None)
  /\ (forall (L : GoLibs),
        Insights.ScalarMetricValue (libs := L) (latencies [5%float; 7%float]) 0
          "grpc/latency/count"
        = Ok None)
  /\ (forall (L : GoLibs),
        Insights.ScalarMetricValue (libs := L) (latencies [5%float]) 0
          "grpc/latency/count"
        = Ok (Some 5%float))
  /\ Insights.GetMetricsInfo (latencies [5%float; 7%float]) "grpc/latency/count"
     = Ok (Some (mkMetricMeta "count value of grpc/latency" (Some "msec")
                   CounterMetricType), None).
Proof.
  split; [| split; [| split]].
  - intros L v1 v2 rest. now rewrite getSampleAggregation_several.
  - intros L. rewrite (ScalarMetricValue_latencies _ 0 "count" eq_refl).
    now rewrite getSampleAggregation_several.
  - intros L. rewrite (ScalarMetricValue_latencies _ 0 "count" eq_refl).
    rewrite (getSampleAggregation_observations _ 0 _ _ (Some {["grpc/latency" := [5%float]]}))
      by (reflexivity || lia).
    now rewrite latencies_observations.
  - apply GetMetricsInfo_count.
Qed.

(** C10, what the code does. An aggregated name is resolved without a look
    at the length of the store: for version 1 of a store with one slot the
    call panics with an index out of range, whatever the libraries are. The
    path of a plain name checks the length and answers absent. *)
Theorem ScalarMetricValue_aggregated_out_of_range :
  (forall (L : GoLibs) (vals : list float),
     Insights.ScalarMetricValue (libs := L) (latencies vals) 1 "grpc/latency/mean"
     = Panic IndexOutOfRange)
  /\ (forall (L : GoLibs) (vals : list float),
        Insights.ScalarMetricValue (libs := L) (requests vals) 1 "prom/requests"
        = Ok None).
Proof.
  split.
  - intros L vals. rewrite (ScalarMetricValue_latencies _ 1 "mean" eq_refl).
    reflexivity.
  - intros L vals. unfold Insights.ScalarMetricValue.
    cbn [strings_Split Ascii.eqb Bool.eqb len length Z.of_nat Z.eqb Pos.eqb
         Pos.of_succ_nat Pos.succ].
    replace (Insights.NormalizeMetricName "prom/requests")
      with ("prom/requests", @None error) by reflexivity.
    unfold Insights.getCounterOrGaugeMetricFromValuesMap, requests.
    cbn [Insights.MetricsInfo map_get]. rewrite lookup_singleton_eq.
    reflexivity.
Qed.

(** ** The engine *)

Section Engine_facts.
Context {D T : Type} `{Experiment.TaskOps T} `{Experiment.Driver D T}
  `{Experiment.ExprLib T}.

(** Completing a task counts it and writes the experiment, and calls nothing
    else. *)
Lemma completeTask_counts_and_writes (s : Experiment.state D T)
    (r : ExperimentResult) :
  Experiment.Result (Experiment.s_exp s) = Some r ->
  Experiment.completeTask s
  = Ok (Experiment.mkState (counted (Experiment.s_exp s) r)
          (fst (Experiment.driver_Write (Experiment.s_driver s)
                  (counted (Experiment.s_exp s) r)))
          (Experiment.s_calls s ++ [Experiment.CallWrite (counted (Experiment.s_exp s) r)]),
        snd (Experiment.driver_Write (Experiment.s_driver s)
               (counted (Experiment.s_exp s) r))).
Proof.
  intros Hr. unfold Experiment.completeTask, Experiment.incrementNumCompletedTasks,
    Experiment.update_Result. rewrite Hr. reflexivity.
Qed.

Lemma shouldRun_condition (tk : T) (e : Experiment.t T) (cond : string)
    (prog : Experiment.program) (b : bool) :
  Experiment.getIf tk = Some cond ->
  Experiment.expr_Compile cond e = inl prog ->
  Experiment.expr_Run prog e = inl b ->
  Experiment.shouldRun tk e = inl b.
Proof.
  intros Hif Hc Hr. unfold Experiment.shouldRun. now rewrite Hif, Hc, Hr.
Qed.

End Engine_facts.

(** C8. A task whose [if] condition evaluates to false is skipped: the step
    of the loop is the common end of the loop body on the state as it was,
    which increments [numCompletedTasks] and writes the experiment through
    the driver and makes no other call, so the task's [run] is not invoked. A
    task that ran successfully ends in the same way, from the state its [run]
    left; and the loop goes on to the next task unless the write failed. *)
Theorem skipped_task_is_counted_and_persisted {D T : Type}
    `{Experiment.TaskOps T} `{Experiment.Driver D T} `{Experiment.ExprLib T}
    (i : nat) (tk : T) (rest : list T) (s : Experiment.state D T)
    (name cond : string) (prog : Experiment.program) (r : ExperimentResult) :
  Experiment.getName tk = Some name ->
  Experiment.getIf tk = Some cond ->
  Experiment.expr_Compile cond (Experiment.s_exp s) = inl prog ->
  Experiment.expr_Run prog (Experiment.s_exp s) = inl false ->
  Experiment.Result (Experiment.s_exp s) = Some r ->
  let e' := counted (Experiment.s_exp s) r in
  let w := Experiment.driver_Write (Experiment.s_driver s) e' in
  let s' := Experiment.mkState e' (fst w)
              (Experiment.s_calls s ++ [Experiment.CallWrite e']) in
  Experiment.run_task i tk s = Experiment.completeTask s
  /\ Experiment.completeTask s = Ok (s', snd w)
  /\ Experiment.run_tasks i (tk :: rest) s
     = match snd w with
       | Some err => Ok (s', Some err)
       | None => Experiment.run_tasks (S i) rest s'
       end
  /\ (forall (tk' : T) (name' : string) (s1 : Experiment.state D T),
        Experiment.getName tk' = Some name' ->
        Experiment.shouldRun tk' (Experiment.s_exp s) = inl true ->
        Experiment.invoke i tk' s = (s1, None) ->
        Experiment.run_task i tk' s = Experiment.completeTask s1).
Proof.
  intros Hname Hif Hc Hrun Hr e' w s'.
  assert (Hskip : Experiment.run_task i tk s = Experiment.completeTask s).
  { unfold Experiment.run_task.
    now rewrite Hname, (shouldRun_condition tk _ cond prog false Hif Hc Hrun). }
  assert (Hend : Experiment.completeTask s = Ok (s', snd w))
    by exact (completeTask_counts_and_writes s r Hr).
  split; [exact Hskip | split; [exact Hend | split]].
  - cbn [Experiment.run_tasks]. rewrite Hskip, Hend. cbn [bind].
    destruct (snd w); reflexivity.
  - intros tk' name' s1 Hname' Hshould Hinvoke.
    unfold Experiment.run_task. now rewrite Hname', Hshould, Hinvoke.
Qed.

(** C8 on [gated_experiment]: its one task is skipped, counted and written. *)
Lemma skipped_task_is_counted_and_persisted_witness :
  let e' := Experiment.mk [gated_task]
              (Some (mkExperimentResult 0 1 1 false (Some one_of_two) "v0.8")) in
  Experiment.run_tasks 0 [gated_task] (Experiment.mkState gated_experiment [] [])
  = Ok (Experiment.mkState e' [e'] [Experiment.CallWrite e'], None).
Proof.
  exact (proj1 (proj2 (proj2
    (skipped_task_is_counted_and_persisted 0 gated_task []
       (Experiment.mkState gated_experiment [] []) "run" "SLOs()" tt
       (mkExperimentResult 0 1 0 false (Some one_of_two) "v0.8")
       eq_refl eq_refl eq_refl eq_refl eq_refl)))).
Defined.

(** ** Updating a metric *)

Lemma DeepEqual_MetricMeta_eq (x y : MetricMeta) :
  DeepEqual_MetricMeta x y = true <-> x = y.
Proof.
  unfold DeepEqual_MetricMeta. rewrite !andb_true_iff, !String.eqb_eq.
  destruct x as [d1 u1 t1], y as [d2 u2 t2]; cbn [Description Units Type_].
  assert (Hu : DeepEqual_string_ptr u1 u2 = true <-> u1 = u2).
  { destruct u1 as [a |], u2 as [b |]; cbn [DeepEqual_string_ptr];
      rewrite ?String.eqb_eq; split; congruence. }
  rewrite Hu. split.
  - intros [[-> ->] ->]. reflexivity.
  - intros [= -> -> ->]. auto.
Qed.

Lemma metricTypeMatch_shape (t : MetricType) (val : MetricValue) :
  metricTypeMatch t val = true <-> shape_matches t val.
Proof.
  split.
  - destruct val as [v | v | v |]; cbn [metricTypeMatch].
    + destruct (String.eqb_spec t CounterMetricType) as [-> | _]; [constructor |].
      destruct (String.eqb_spec t GaugeMetricType) as [-> | _]; [constructor |].
      discriminate.
    + destruct (String.eqb_spec t SampleMetricType) as [-> | _]; [constructor |].
      discriminate.
    + destruct (String.eqb_spec t HistogramMetricType) as [-> | _]; [constructor |].
      discriminate.
    + discriminate.
  - intros []; reflexivity.
Qed.

Lemma append_at_Ok {V : Type} (vs : list (option (gmap string (list V))))
    (nm : string) (i : Z) (val : list V) (g : gmap string (list V)) :
  0 <= i ->
  vs !! Z.to_nat i = Some (Some g) ->
  Insights.append_at vs nm i val
  = Ok (<[Z.to_nat i := Some (<[nm := default [] (g !! nm) ++ val]> g)]> vs).
Proof.
  intros Hi Hg. unfold Insights.append_at.
  now rewrite (index_Ok vs i (Some g) Hi Hg).
Qed.

Lemma append_at_inv {V : Type} (vs vs' : list (option (gmap string (list V))))
    (nm : string) (i : Z) (val : list V) :
  Insights.append_at vs nm i val = Ok vs' ->
  exists g, 0 <= i /\ vs !! Z.to_nat i = Some (Some g)
    /\ vs' = <[Z.to_nat i := Some (<[nm := default [] (g !! nm) ++ val]> g)]> vs.
Proof.
  unfold Insights.append_at.
  destruct (index vs i) as [mp | p] eqn:Hidx; cbn [bind]; [| discriminate].
  apply index_inv in Hidx as [Hi Hmp].
  destruct mp as [g |]; [| discriminate].
  intros [= <-]. exists g. auto.
Qed.

Lemma insert_appended {V : Type} (vs : list (option (gmap string (list V))))
    (nm : string) (i : Z) (val : list V) (g : gmap string (list V)) :
  vs !! Z.to_nat i = Some (Some g) ->
  <[Z.to_nat i := Some (<[nm := default [] (g !! nm) ++ val]> g)]> vs
  = appended vs nm i val.
Proof.
  intros Hg. unfold appended. apply list_eq. intros j.
  destruct (decide (j = Z.to_nat i)) as [-> | Hne].
  - rewrite list_lookup_insert_eq by (eapply lookup_lt_Some; exact Hg).
    rewrite list_lookup_alter_eq, Hg. reflexivity.
  - rewrite list_lookup_insert_ne by congruence.
    rewrite list_lookup_alter_ne by congruence. reflexivity.
Qed.

Lemma initialized_slot {V : Type} (vs : list (option (gmap string (list V))))
    (n i : Z) :
  len vs = n -> Forall is_Some vs -> 0 <= i < n ->
  exists g, vs !! Z.to_nat i = Some (Some g).
Proof.
  intros Hlen Hall Hi.
  destruct (lookup_lt_is_Some_2 vs (Z.to_nat i)) as [mp Hmp];
    [unfold len in Hlen; lia |].
  rewrite Forall_forall in Hall.
  destruct (Hall mp) as [g ->]; [eapply list_elem_of_lookup_2; exact Hmp |].
  now exists g.
Qed.

Section Update.
Context {libs : GoLibs}.

(** Registration either refuses a conflicting meta or stores the new one. *)
Lemma registerMetric_initialized (in_ : Insights.t) (g : gmap string MetricMeta)
    (nm : string) (mm : MetricMeta) :
  Insights.MetricsInfo in_ = Some g ->
  Insights.registerMetric in_ nm mm
  = Ok (match g !! nm with
        | Some old =>
            if DeepEqual_MetricMeta old mm
            then (Insights.set_MetricsInfo in_ (Some (<[nm := mm]> g)), None)
            else (in_, Some (ErrMetaDiffer nm))
        | None => (Insights.set_MetricsInfo in_ (Some (<[nm := mm]> g)), None)
        end).
Proof.
  intros Hg. unfold Insights.registerMetric, Insights.assign_MetricsInfo.
  rewrite Hg. cbn [map_get].
  destruct (g !! nm) as [old |]; [| reflexivity].
  destruct (DeepEqual_MetricMeta old mm); reflexivity.
Qed.

(** With the meta registered, a value of the right shape is appended to the
    store of its shape. *)
Lemma store_after_registration (in_ : Insights.t) (g : gmap string MetricMeta)
    (nm : string) (mm : MetricMeta) (i : Z) (val : MetricValue) :
  metrics_initialized in_ ->
  Insights.MetricsInfo in_ = Some g ->
  0 <= i < Insights.NumVersions in_ ->
  shape_matches (Type_ mm) val ->
  let in1 := Insights.set_MetricsInfo in_ (Some (<[nm := mm]> g)) in
  (if String.eqb (Type_ mm) CounterMetricType || String.eqb (Type_ mm) GaugeMetricType
   then match val with
        | VFloat v =>
            in2 <- Insights.updateMetricValueScalar in1 nm i v ;; Ok (in2, None)
        | _ => Panic TypeAssertion
        end
   else if String.eqb (Type_ mm) SampleMetricType
   then match val with
        | VFloats v =>
            in2 <- Insights.updateMetricValueVector in1 nm i v ;; Ok (in2, None)
        | _ => Panic TypeAssertion
        end
   else if String.eqb (Type_ mm) HistogramMetricType
   then match val with
        | VHist v =>
            in2 <- Insights.updateMetricValueHist in1 nm i v ;; Ok (in2, None)
        | _ => Panic TypeAssertion
        end
   else Ok (in1, None))
  = Ok (recorded in_ nm mm i val, @None error).
Proof.
  intros (_ & HlenN & HlenH & HallN & HallH) Hg Hi Hshape in1.
  destruct (initialized_slot _ _ i HlenN HallN Hi) as [gn Hgn].
  destruct (initialized_slot _ _ i HlenH HallH Hi) as [gh Hgh].
  unfold recorded. rewrite Hg. cbn [from_option id].
  destruct Hshape as [v | v | v | v];
    cbn [String.eqb Ascii.eqb Bool.eqb CounterMetricType GaugeMetricType
         SampleMetricType HistogramMetricType orb];
    unfold Insights.updateMetricValueScalar, Insights.updateMetricValueVector,
      Insights.updateMetricValueHist;
    subst in1; cbn [Insights.set_MetricsInfo Insights.NonHistMetricValues
                    Insights.HistMetricValues].
  - rewrite (append_at_Ok _ nm i [v] gn) by (lia || assumption).
    cbn [bind]. now rewrite (insert_appended _ nm i [v] gn Hgn).
  - rewrite (append_at_Ok _ nm i [v] gn) by (lia || assumption).
    cbn [bind]. now rewrite (insert_appended _ nm i [v] gn Hgn).
  - rewrite (append_at_Ok _ nm i v gn) by (lia || assumption).
    cbn [bind]. now rewrite (insert_appended _ nm i v gn Hgn).
  - rewrite (append_at_Ok _ nm i v gh) by (lia || assumption).
    cbn [bind]. now rewrite (insert_appended _ nm i v gh Hgh).
Qed.

End Update.

(** The shape of the statement about [updateMetric], at an error and at none;
    in each case what is left is the cause of the error, or its absence. *)
Ltac refused :=
  split; [reflexivity |];
  split; [| split; [intros _; reflexivity | discriminate]];
  split; [intros _ | intros _; eexists; reflexivity].

Ltac accepted :=
  split; [reflexivity |];
  split; [| split; [intros [? [=]] | intros _; reflexivity]];
  split; [intros [? [=]] | intros Href; exfalso; revert Href].

(** C4. On initialised metrics and for a version index [i >= 0],
    [updateMetric] returns. It returns an error iff [i >= numVersions], or
    the shape of the value does not match the type of the meta, or the
    canonical name is registered with a different meta, or the percentile in
    the name does not parse; on an error the insights are unchanged.
    Otherwise it returns no error, and the insights have the meta registered
    under the canonical name and the value appended for version [i]. *)
Theorem updateMetric_error_iff_refused {libs : GoLibs} (in_ : Insights.t) (m : string)
    (mm : MetricMeta) (i : Z) (val : MetricValue) :
  metrics_initialized in_ ->
  0 <= i ->
  exists in' err,
    Insights.updateMetric in_ m mm i val = Ok (in', err)
    /\ (is_Some err <-> update_refused in_ m mm i val)
    /\ (is_Some err -> in' = in_)
    /\ (err = None ->
        in' = recorded in_ (fst (Insights.NormalizeMetricName m)) mm i val).
Proof.
  intros Hinit Hi. pose proof Hinit as ([g Hg] & _).
  unfold Insights.updateMetric, update_refused.
  destruct (metricTypeMatch (Type_ mm) val) eqn:Hmatch; cbn [negb].
  2:{ exists in_, (Some ErrIncompatible). refused.
      right; left. rewrite <- metricTypeMatch_shape. congruence. }
  apply metricTypeMatch_shape in Hmatch.
  destruct (Z.leb_spec (Insights.NumVersions in_) i) as [Hle | Hlt].
  { exists in_, (Some ErrInsufficientVersions). refused. now left. }
  destruct (Insights.NormalizeMetricName m) as [nm [e |]] eqn:Hnorm.
  { exists in_, (Some e). refused. right; right; right.
    apply NormalizeMetricName_error_iff. exists e. now rewrite Hnorm. }
  rewrite (registerMetric_initialized in_ g nm mm Hg). cbn [bind fst snd].
  assert (Hstore := store_after_registration in_ g nm mm i val Hinit Hg
                      ltac:(lia) Hmatch).
  cbn zeta in Hstore.
  assert (Hok : (forall old, g !! nm = Some old -> old = mm) ->
            ~ (Insights.NumVersions in_ <= i
               \/ ~ shape_matches (Type_ mm) val
               \/ (exists nm' old', (nm, @None error) = (nm', None)
                     /\ map_get (Insights.MetricsInfo in_) nm' = Some old'
                     /\ old' <> mm)
               \/ (exists pre suffix, percentile_suffix m = Some (pre, suffix)
                     /\ strconv_ParseFloat suffix = None))).
  { intros Hsame [Hle | [Hsh | [(nm' & old' & [= <-] & Hold' & Hne) | Hparse]]].
    - lia.
    - now apply Hsh.
    - rewrite Hg in Hold'. cbn [map_get] in Hold'. now apply Hne, Hsame.
    - apply NormalizeMetricName_error_iff in Hparse as [e He].
      rewrite Hnorm in He. discriminate. }
  destruct (g !! nm) as [old |] eqn:Hold.
  - destruct (DeepEqual_MetricMeta old mm) eqn:Heq.
    + apply DeepEqual_MetricMeta_eq in Heq. rewrite Hstore.
      exists (recorded in_ nm mm i val), None. accepted.
      apply Hok. intros old' [= <-]. exact Heq.
    + exists in_, (Some (ErrMetaDiffer nm)). refused.
      right; right; left. exists nm, old.
      rewrite Hg. cbn [map_get]. repeat split; [exact Hold |].
      intros ->. rewrite (proj2 (DeepEqual_MetricMeta_eq mm mm) eq_refl) in Heq.
      discriminate.
  - rewrite Hstore. exists (recorded in_ nm mm i val), None. accepted.
    apply Hok. intros old' [=].
Qed.

Lemma one_version_initialized : metrics_initialized one_version.
Proof.
  unfold metrics_initialized, one_version. cbn [Insights.MetricsInfo
    Insights.NonHistMetricValues Insights.HistMetricValues Insights.NumVersions].
  repeat split; eauto; repeat constructor; eauto.
Qed.

(** C4 at the first observation of [http/latency-p95.00] for version 0. *)
Lemma updateMetric_error_iff_refused_witness :
  exists in' err,
    Insights.updateMetric (libs := Ref.libs) one_version "http/latency-p95.00"
      latency_percentile 0 (VFloat 12.5%float) = Ok (in', err)
    /\ (is_Some err <-> update_refused (libs := Ref.libs) one_version
                          "http/latency-p95.00" latency_percentile 0 (VFloat 12.5%float))
    /\ (is_Some err -> in' = one_version)
    /\ (err = None ->
        in' = recorded one_version
                (fst (Insights.NormalizeMetricName (libs := Ref.libs) "http/latency-p95.00"))
                latency_percentile 0 (VFloat 12.5%float)).
Proof.
  apply (updateMetric_error_iff_refused (libs := Ref.libs) one_version
           "http/latency-p95.00" latency_percentile 0 (VFloat 12.5%float)).
  - exact one_version_initialized.
  - lia.
Defined.

(** ** Reading back what was written *)

Section Round_trip.
Context {libs : GoLibs}.

(** What a successful update with a scalar has done. *)
Lemma updateMetric_scalar_inv (in_ in' : Insights.t) (m : string)
    (mm : MetricMeta) (i : Z) (v : float) :
  Insights.updateMetric in_ m mm i (VFloat v) = Ok (in', None) ->
  exists nm g gi,
    Insights.NormalizeMetricName m = (nm, None)
    /\ (Type_ mm = CounterMetricType \/ Type_ mm = GaugeMetricType)
    /\ 0 <= i
    /\ Insights.NonHistMetricValues in_ !! Z.to_nat i = Some (Some gi)
    /\ Insights.MetricsInfo in' = Some (<[nm := mm]> g)
    /\ Insights.NonHistMetricValues in'
       = <[Z.to_nat i := Some (<[nm := default [] (gi !! nm) ++ [v]]> gi)]>
           (Insights.NonHistMetricValues in_).
Proof.
  unfold Insights.updateMetric.
  destruct (metricTypeMatch (Type_ mm) (VFloat v)) eqn:Hmatch; [| discriminate].
  cbn [negb].
  assert (Htype : Type_ mm = CounterMetricType \/ Type_ mm = GaugeMetricType).
  { apply metricTypeMatch_shape in Hmatch. inversion Hmatch; auto. }
  cbn [metricTypeMatch] in Hmatch.
  destruct (String.eqb (Type_ mm) CounterMetricType
            || String.eqb (Type_ mm) GaugeMetricType) eqn:Hscalar; [| discriminate].
  destruct (Insights.NumVersions in_ <=? i); [discriminate |].
  destruct (Insights.NormalizeMetricName m) as [nm [e |]]; [discriminate |].
  destruct (Insights.MetricsInfo in_) as [g |] eqn:Hg.
  2:{ unfold Insights.registerMetric, Insights.assign_MetricsInfo.
      rewrite Hg. discriminate. }
  rewrite (registerMetric_initialized in_ g nm mm Hg). cbn [bind].
  assert (Hstored :
    (in2 <- Insights.updateMetricValueScalar
              (Insights.set_MetricsInfo in_ (Some (<[nm := mm]> g))) nm i v ;;
     Ok (in2, @None error)) = Ok (in', None) ->
    exists nm0 g0 gi,
      (nm, @None error) = (nm0, None)
      /\ (Type_ mm = CounterMetricType \/ Type_ mm = GaugeMetricType)
      /\ 0 <= i
      /\ Insights.NonHistMetricValues in_ !! Z.to_nat i = Some (Some gi)
      /\ Insights.MetricsInfo in' = Some (<[nm0 := mm]> g0)
      /\ Insights.NonHistMetricValues in'
         = <[Z.to_nat i := Some (<[nm0 := default [] (gi !! nm0) ++ [v]]> gi)]>
             (Insights.NonHistMetricValues in_)).
  { unfold Insights.updateMetricValueScalar.
    cbn [Insights.set_MetricsInfo Insights.NonHistMetricValues].
    destruct (Insights.append_at _ nm i [v]) as [vs |] eqn:Happ; [| discriminate].
    cbn [bind]. intros [= <-].
    apply append_at_inv in Happ as (gi & Hi & Hgi & ->).
    exists nm, g, gi. repeat split; auto. }
  destruct (g !! nm) as [old |].
  - destruct (DeepEqual_MetricMeta old mm); [| discriminate].
    exact Hstored.
  - exact Hstored.
Qed.

End Round_trip.

(** C5. After [updateMetric(m, meta, i, v)] has succeeded with a scalar [v],
    which it does only for a meta of type counter or gauge and a version [i]
    within [numVersions], [ScalarMetricValue(i, m')] returns [v] for every
    name [m'] of two segments that normalises to the canonical name of [m]. *)
Theorem ScalarMetricValue_after_updateMetric {libs : GoLibs} (in_ in' : Insights.t)
    (m m' nm : string) (mm : MetricMeta) (i : Z) (v : float) :
  Insights.updateMetric in_ m mm i (VFloat v) = Ok (in', None) ->
  Insights.NormalizeMetricName m = (nm, None) ->
  len (strings_Split m' "/") = 2 ->
  Insights.NormalizeMetricName m' = (nm, None) ->
  Insights.ScalarMetricValue in' i m' = Ok (Some v).
Proof.
  intros Hupdate Hnorm Hsegments Hnorm'.
  destruct (updateMetric_scalar_inv _ _ _ _ _ _ Hupdate)
    as (nm0 & g & gi & Hnm0 & Htype & Hi & Hgi & Hinfo & Hvalues).
  rewrite Hnorm in Hnm0. injection Hnm0 as <-.
  unfold Insights.ScalarMetricValue. rewrite Hsegments, Hnorm'.
  cbn [Z.eqb Pos.eqb].
  unfold Insights.getCounterOrGaugeMetricFromValuesMap.
  rewrite Hinfo. cbn [map_get]. rewrite lookup_insert_eq.
  assert (Hscalar : negb (String.eqb (Type_ mm) CounterMetricType)
                    && negb (String.eqb (Type_ mm) GaugeMetricType) = false).
  { destruct Htype as [-> | ->]; reflexivity. }
  rewrite Hscalar, Hvalues.
  assert (Hlt : (Z.to_nat i < length (Insights.NonHistMetricValues in_))%nat)
    by (eapply lookup_lt_Some; exact Hgi).
  destruct (Z.leb_spec (len (<[Z.to_nat i := Some (<[nm := default [] (gi !! nm) ++ [v]]> gi)]>
                               (Insights.NonHistMetricValues in_))) i) as [Hle | _].
  { unfold len in Hle. rewrite length_insert in Hle. lia. }
  rewrite (index_Ok _ i (Some (<[nm := default [] (gi !! nm) ++ [v]]> gi)) Hi)
    by (now apply list_lookup_insert_eq).
  cbn [bind map_get]. rewrite lookup_insert_eq.
  set (vals := default [] (gi !! nm)).
  assert (Hlen : len (vals ++ [v]) = Z.of_nat (length vals) + 1).
  { unfold len. rewrite length_app. simpl. lia. }
  destruct (Z.ltb_spec 0 (len (vals ++ [v]))) as [_ | Hnone]; [| lia].
  rewrite (index_Ok _ _ v); [reflexivity | lia |].
  rewrite Hlen. replace (Z.to_nat (Z.of_nat (length vals) + 1 - 1)) with (length vals)
    by lia.
  apply list_lookup_middle. reflexivity.
Qed.

(** C5 on the spec's scenario: [12.5] written to [http/latency-p95.00] for
    version 0 is read back under [http/latency-p95]. *)
Lemma ScalarMetricValue_after_updateMetric_witness :
  Insights.updateMetric (libs := Ref.libs) one_version "http/latency-p95.00"
    latency_percentile 0 (VFloat 12.5%float)
  = Ok (recorded one_version "http/latency-p95" latency_percentile 0
          (VFloat 12.5%float), None)
  /\ Insights.ScalarMetricValue (libs := Ref.libs)
       (recorded one_version "http/latency-p95" latency_percentile 0
          (VFloat 12.5%float)) 0 "http/latency-p95" = Ok (Some 12.5%float).
Proof.
  assert (Hupdate :
    Insights.updateMetric (libs := Ref.libs) one_version "http/latency-p95.00"
      latency_percentile 0 (VFloat 12.5%float)
    = Ok (recorded one_version "http/latency-p95" latency_percentile 0
            (VFloat 12.5%float), None)) by (vm_compute; reflexivity).
  split; [exact Hupdate |].
  apply (ScalarMetricValue_after_updateMetric (libs := Ref.libs) one_version _
           "http/latency-p95.00" "http/latency-p95" "http/latency-p95"
           latency_percentile 0 12.5%float Hupdate).
  - vm_compute; reflexivity.
  - reflexivity.
  - vm_compute; reflexivity.
Defined.

(** ** A whole run *)

(** The run of [gated_experiment] on an empty store: the loop count goes
    from 1 to 2 and is written, the one task is skipped, counted and written,
    and no task is run. *)
Example run_gated_experiment :
  let started := Experiment.mk [gated_task]
                   (Some (mkExperimentResult 0 2 0 false (Some one_of_two) "v0.8")) in
  let done := Experiment.mk [gated_task]
                (Some (mkExperimentResult 0 2 1 false (Some one_of_two) "v0.8")) in
  Experiment.run gated_experiment []
  = Ok (Experiment.mkState done [started; done]
          [Experiment.CallWrite started; Experiment.CallWrite done], None).
Proof. reflexivity. Qed.

(** * Further properties of the code *)

(** ** The versions that satisfy the SLOs *)

Lemma all_versions_seqZ (n : nat) (j : Z) (sat : list Z) :
  Experiment.all_versions n j sat = sat ++ seqZ j (Z.of_nat n).
Proof.
  revert j sat. induction n as [| n IH]; intros j sat.
  - simpl. now rewrite app_nil_r.
  - rewrite seqZ_S. cbn [Experiment.all_versions]. rewrite IH.
    now rewrite <- (List.app_assoc sat [j]).
Qed.

Lemma StronglySorted_seqZ (m : Z) (n : nat) :
  StronglySorted Z.lt (seqZ m (Z.of_nat n)).
Proof.
  revert m. induction n as [| n IH]; intros m.
  - constructor.
  - rewrite seqZ_S. constructor; [apply IH |].
    apply Forall_forall. intros k Hk. apply elem_of_seqZ in Hk. lia.
Qed.

Lemma StronglySorted_filter {A : Type} (R : A -> A -> Prop) (f : A -> bool)
    (l : list A) :
  StronglySorted R l -> StronglySorted R (List.filter f l).
Proof.
  induction 1 as [| a l Hl IH Ha]; [constructor |].
  cbn [List.filter]. destruct (f a); [| exact IH].
  constructor; [exact IH |].
  rewrite Forall_forall in *. intros x Hx. apply Ha.
  apply list_elem_of_In in Hx. apply filter_In in Hx as [Hx _].
  now apply list_elem_of_In.
Qed.

(** X1. [getSLOsSatisfiedBy] returns the versions that satisfy every
    configured SLO, each once and in increasing order: with insights of
    [numVersions >= 0] and matrices allocated for the configured SLOs, the
    slice it returns is nil iff [numVersions] is zero, it is strictly
    increasing, and version [j] is in it iff [0 <= j < numVersions] and [j]
    satisfies every configured SLO. *)
Theorem getSLOsSatisfiedBy_satisfying_versions {T : Type}
    (exp : option (Experiment.t T)) (ins : Insights.t) :
  insights_of exp = Some ins ->
  0 <= Insights.NumVersions ins ->
  SLOsSatisfied_allocated ins ->
  exists sby,
    Experiment.getSLOsSatisfiedBy exp = Ok sby
    /\ (sby = None <-> Insights.NumVersions ins = 0)
    /\ StronglySorted Z.lt (default [] sby)
    /\ (forall j, j ∈ default [] sby <->
          0 <= j < Insights.NumVersions ins /\ satisfies_SLOs ins j).
Proof.
  intros Hins Hn Halloc. destruct exp as [e |]; [| discriminate].
  simpl in Hins. unfold Experiment.getSLOsSatisfiedBy.
  destruct (Experiment.Result e) as [r |]; [| discriminate].
  rewrite Hins.
  destruct (Z.eqb_spec (Insights.NumVersions ins) 0) as [E | NE].
  { exists None. split; [reflexivity |].
    split; [split; [intros _; exact E | reflexivity] |].
    cbn [from_option id]. split; [constructor |].
    intros j. split; [intros Hj; inversion Hj | intros [Hj _]; lia]. }
  unfold SLOsSatisfied_allocated in Halloc.
  destruct (Insights.SLOs ins) as [slos |] eqn:Hs.
  - destruct Halloc as (res & Hr & HU & HL & HUrows & HLrows).
    rewrite (satisfied_versions_total ins (deref slos) res _ 0 [] Hr HU HL HUrows HLrows)
      by lia.
    cbn [bind app]. eexists. split; [reflexivity |].
    cbn [from_option id]. split; [split; [discriminate | contradiction] |].
    split; [apply StronglySorted_filter, StronglySorted_seqZ |].
    intros j. rewrite list_elem_of_In, filter_In, <- list_elem_of_In, elem_of_seqZ.
    rewrite (passes_satisfies ins slos res j Hs Hr HU HL). split.
    + intros [Hj Hsat]. split; [lia | exact Hsat].
    + intros [Hj Hsat]. split; [lia | exact Hsat].
  - rewrite all_versions_seqZ. cbn [app]. eexists. split; [reflexivity |].
    cbn [from_option id]. split; [split; [discriminate | contradiction] |].
    split; [apply StronglySorted_seqZ |].
    intros j. rewrite elem_of_seqZ. unfold satisfies_SLOs. rewrite Hs. split.
    + intros Hj. split; [lia | exact I].
    + intros [Hj _]. lia.
Qed.

(** X1 on [one_of_two]: the first version only. *)
Lemma getSLOsSatisfiedBy_satisfying_versions_witness :
  exists sby,
    Experiment.getSLOsSatisfiedBy (Some (experiment_with one_of_two)) = Ok sby
    /\ (sby = None <-> Insights.NumVersions one_of_two = 0)
    /\ StronglySorted Z.lt (default [] sby)
    /\ (forall j, j ∈ default [] sby <->
          0 <= j < Insights.NumVersions one_of_two /\ satisfies_SLOs one_of_two j).
Proof.
  apply (getSLOsSatisfiedBy_satisfying_versions (Some (experiment_with one_of_two))).
  - reflexivity.
  - simpl. lia.
  - exists (SLOResults.mk [[true; false]] []). simpl.
    repeat split; repeat constructor.
Defined.

(** ** Allocating the satisfaction matrices *)

Section Allocation.
Context {T : Type}.

Lemma make_rows_all_false (count : nat) (n : Z) (rows : list (list bool)) :
  Experiment.make_rows count n = Ok rows -> all_false rows.
Proof.
  assert (Hall : forall c k, all_false (replicate c (replicate k false))).
  { intros c k. apply Forall_replicate, Forall_replicate. reflexivity. }
  unfold Experiment.make_rows. destruct count as [| c].
  - intros [= <-]. constructor.
  - destruct (n <? 0); [discriminate |]. intros [= <-]. apply (Hall (S c)).
Qed.

Lemma cell_all_false (rows : list (list bool)) (i j : Z) (b : bool) :
  all_false rows -> cell rows i j = Some b -> b = false.
Proof.
  unfold all_false, cell. intros Hall.
  destruct (rows !! Z.to_nat i) as [row |] eqn:Hrow; [| discriminate].
  intros Hb. rewrite Forall_forall in Hall.
  specialize (Hall row (list_elem_of_lookup_2 _ _ _ Hrow)).
  rewrite Forall_forall in Hall.
  exact (Hall b (list_elem_of_lookup_2 _ _ _ Hb)).
Qed.

End Allocation.

(** What [initializeSLOsSatisfied] allocates when there are no matrices. *)
Lemma initializeSLOsSatisfied_fresh {T : Type} (e : Experiment.t T)
    (ins : Insights.t) :
  insights_of (Some e) = Some ins ->
  0 <= Insights.NumVersions ins ->
  Insights.SLOsSatisfied ins = None ->
  exists e' sat,
    Experiment.initializeSLOsSatisfied e = Ok (e', None)
    /\ insights_of (Some e') = Some (Insights.set_SLOsSatisfied ins (Some sat))
    /\ SLOsSatisfied_allocated (Insights.set_SLOsSatisfied ins (Some sat))
    /\ all_false (SLOResults.Upper sat) /\ all_false (SLOResults.Lower sat).
Proof.
  intros Hins Hn Hnone. unfold insights_of in Hins.
  unfold Experiment.initializeSLOsSatisfied.
  destruct (Experiment.Result e) as [r |]; [| discriminate].
  rewrite Hins, Hnone.
  destruct (Insights.SLOs ins) as [slos |] eqn:Hs.
  - destruct (make_rows_shape (length (slice_elems (SLOLimits.Upper (deref slos))))
                _ Hn) as (upper & HmU & HU & HUrows).
    destruct (make_rows_shape (length (slice_elems (SLOLimits.Lower (deref slos))))
                _ Hn) as (lower & HmL & HL & HLrows).
    rewrite HmU, HmL. cbn [bind].
    eexists _, (SLOResults.mk upper lower). split; [reflexivity |].
    split; [reflexivity |]. split; [| split].
    + unfold SLOsSatisfied_allocated.
      cbn [Insights.set_SLOsSatisfied Insights.SLOs Insights.SLOsSatisfied
           Insights.NumVersions].
      rewrite Hs. exists (SLOResults.mk upper lower). auto.
    + exact (make_rows_all_false _ _ _ HmU).
    + exact (make_rows_all_false _ _ _ HmL).
  - cbn [bind]. eexists _, (SLOResults.mk [] []). split; [reflexivity |].
    split; [reflexivity |]. split; [| split; constructor].
    unfold SLOsSatisfied_allocated.
    cbn [Insights.set_SLOsSatisfied Insights.SLOs]. now rewrite Hs.
Qed.



(** X3. Allocation and the SLO predicate compose: right after
    [initializeSLOsSatisfied] has allocated the matrices, with at least one
    version and at least one SLO configured, no version satisfies the SLOs
    and [SLOs()] answers false. *)
Theorem SLOs_false_after_allocation {T : Type} (e e' : Experiment.t T)
    (ins : Insights.t) (slos : pointer SLOLimits.t) :
  insights_of (Some e) = Some ins ->
  Insights.SLOsSatisfied ins = None ->
  Insights.SLOs ins = Some slos ->
  some_SLO (deref slos) ->
  1 <= Insights.NumVersions ins ->
  Experiment.initializeSLOsSatisfied e = Ok (e', None) ->
  Experiment.getSLOsSatisfiedBy (Some e') = Ok (Some [])
  /\ Experiment.SLOs (Some e') = Ok false.
Proof.
  intros Hins Hnone Hs Hsome Hn Hinit.
  destruct (initializeSLOsSatisfied_fresh e ins Hins ltac:(lia) Hnone)
    as (e2 & sat & Hinit' & Hins' & Hshape & HfU & HfL).
  rewrite Hinit in Hinit'. injection Hinit' as <-.
  set (ins' := Insights.set_SLOsSatisfied ins (Some sat)) in *.
  assert (Hs' : Insights.SLOs ins' = Some slos) by exact Hs.
  assert (Hn' : Insights.NumVersions ins' = Insights.NumVersions ins) by reflexivity.
  unfold SLOsSatisfied_allocated in Hshape. rewrite Hs' in Hshape.
  destruct Hshape as (res & Hr & HU & HL & HUrows & HLrows).
  assert (res = sat) as -> by (cbn in Hr; congruence).
  assert (Hget : Experiment.getSLOsSatisfiedBy (Some e') = Ok (Some [])).
  { unfold Experiment.getSLOsSatisfiedBy. unfold insights_of in Hins'.
    destruct (Experiment.Result e') as [r' |]; [| discriminate].
    rewrite Hins', Hs'.
    destruct (Z.eqb_spec (Insights.NumVersions ins') 0) as [E | _]; [lia |].
    rewrite (satisfied_versions_total ins' (deref slos) sat _ 0 [] Hr HU HL HUrows HLrows)
      by lia.
    cbn [bind app]. do 2 f_equal.
    induction (seqZ 0 (Z.of_nat (Z.to_nat (Insights.NumVersions ins')))) as [| j l IH];
      [reflexivity |].
    cbn [List.filter].
    replace (passes (deref slos) sat j) with false; [exact IH |].
    symmetry. apply not_true_is_false. intros Hpass.
    apply (passes_satisfies ins' slos sat j Hs' Hr HU HL) in Hpass.
    unfold satisfies_SLOs in Hpass. rewrite Hs', Hr in Hpass.
    destruct Hpass as [HpU HpL]. unfold some_SLO, len in *.
    destruct (slice_elems (SLOLimits.Upper (deref slos))) as [| u us] eqn:EU.
    - destruct (slice_elems (SLOLimits.Lower (deref slos))) as [| l0 ls] eqn:EL;
        [simpl in Hsome; lia |].
      specialize (HpL 0 ltac:(simpl; lia)).
      now apply (cell_all_false _ _ _ _ HfL) in HpL.
    - specialize (HpU 0 ltac:(simpl; lia)).
      now apply (cell_all_false _ _ _ _ HfU) in HpU. }
  split; [exact Hget |].
  unfold Experiment.SLOs. unfold insights_of in Hins'.
  destruct (Experiment.Result e') as [r' |]; [| discriminate].
  rewrite Hins', Hget. cbn [bind from_option id len length Z.of_nat].
  f_equal. apply Z.eqb_neq. rewrite Hn'. unfold len. simpl length. lia.
Qed.

(** X3 on [unassessed]. *)
Lemma SLOs_false_after_allocation_witness :
  exists e',
    Experiment.initializeSLOsSatisfied (experiment_with unassessed) = Ok (e', None)
    /\ Experiment.getSLOsSatisfiedBy (Some e') = Ok (Some [])
    /\ Experiment.SLOs (Some e') = Ok false.
Proof.
  eexists. split; [reflexivity |].
  eapply (SLOs_false_after_allocation (experiment_with unassessed) _ unassessed).
  - reflexivity.
  - reflexivity.
  - reflexivity.
  - unfold some_SLO. simpl. lia.
  - simpl. lia.
  - reflexivity.
Defined.

(** ** The registry of metrics *)

Lemma registerMetric_inv (in_ in' : Insights.t) (nm : string) (mm : MetricMeta)
    (err : option error) :
  Insights.registerMetric in_ nm mm = Ok (in', err) ->
  exists g, Insights.MetricsInfo in_ = Some g
    /\ ((err = Some (ErrMetaDiffer nm) /\ in' = in_
         /\ exists old, g !! nm = Some old /\ old <> mm)
        \/ (err = None
            /\ in' = Insights.set_MetricsInfo in_ (Some (<[nm := mm]> g))
            /\ forall old, g !! nm = Some old -> old = mm)).
Proof.
  destruct (Insights.MetricsInfo in_) as [g |] eqn:Hg.
  2:{ unfold Insights.registerMetric, Insights.assign_MetricsInfo.
      rewrite Hg. discriminate. }
  rewrite (registerMetric_initialized in_ g nm mm Hg).
  intros Hreg. exists g. split; [reflexivity |].
  destruct (g !! nm) as [old |] eqn:Hold.
  - destruct (DeepEqual_MetricMeta old mm) eqn:Heq.
    + injection Hreg as <- <-. right. repeat split.
      intros old' [= <-]. now apply DeepEqual_MetricMeta_eq.
    + injection Hreg as <- <-. left. repeat split. exists old. split; [reflexivity |].
      intros ->. rewrite (proj2 (DeepEqual_MetricMeta_eq mm mm) eq_refl) in Heq.
      discriminate.
  - injection Hreg as <- <-. right. repeat split. intros old [=].
Qed.

(** X4. [registerMetric] never changes or removes the meta of a registered
    name: when it returns, every name registered before has the meta it had;
    on success the name is registered with the new meta, which is the one it
    had if it was registered already; on a conflict nothing changes. It does
    not touch the metric values. *)
Theorem registerMetric_keeps_registered (in_ in' : Insights.t) (nm : string)
    (mm : MetricMeta) (err : option error) :
  Insights.registerMetric in_ nm mm = Ok (in', err) ->
  (forall k old, map_get (Insights.MetricsInfo in_) k = Some old ->
     map_get (Insights.MetricsInfo in') k = Some old)
  /\ (forall k, k <> nm ->
        map_get (Insights.MetricsInfo in') k = map_get (Insights.MetricsInfo in_) k)
  /\ (err = None -> map_get (Insights.MetricsInfo in') nm = Some mm)
  /\ (is_Some err ->
      in' = in_ /\ exists old, map_get (Insights.MetricsInfo in_) nm = Some old
                               /\ old <> mm)
  /\ Insights.NonHistMetricValues in' = Insights.NonHistMetricValues in_
  /\ Insights.HistMetricValues in' = Insights.HistMetricValues in_.
Proof.
  intros Hreg.
  destruct (registerMetric_inv _ _ _ _ _ Hreg)
    as (g & Hg & [(-> & -> & old & Hold & Hne) | (-> & -> & Hsame)]).
  - rewrite Hg. cbn [map_get]. repeat split; auto; try discriminate.
    exists old. auto.
  - cbn [Insights.set_MetricsInfo Insights.MetricsInfo Insights.NonHistMetricValues
         Insights.HistMetricValues]. rewrite Hg. cbn [map_get].
    split; [| split; [| split; [| split; [| split]]]]; try reflexivity.
    + intros k old Hk. destruct (decide (k = nm)) as [-> | Hne].
      * rewrite lookup_insert_eq. f_equal. symmetry. now apply Hsame.
      * now rewrite lookup_insert_ne by congruence.
    + intros k Hne. now rewrite lookup_insert_ne by congruence.
    + intros _. apply lookup_insert_eq.
    + intros [e [=]].
Qed.

(** X4 on [requests]: the counter is registered again with its meta. *)
Lemma registerMetric_keeps_registered_witness :
  let mm := mkMetricMeta "requests" None CounterMetricType in
  exists in', Insights.registerMetric (requests []) "prom/requests" mm = Ok (in', None)
    /\ map_get (Insights.MetricsInfo in') "prom/requests" = Some mm.
Proof.
  eexists. split; [vm_compute; reflexivity |].
  eapply (registerMetric_keeps_registered (requests []) _ "prom/requests"
            (mkMetricMeta "requests" None CounterMetricType) None).
  - vm_compute; reflexivity.
  - reflexivity.
Defined.

(** ** What an update leaves behind *)

Section Update_effects.
Context {libs : GoLibs}.

(** An update that returns has refused and changed nothing, or has recorded
    the value. *)
Lemma updateMetric_inv (in_ in' : Insights.t) (m : string) (mm : MetricMeta)
    (i : Z) (val : MetricValue) (err : option error) :
  Insights.updateMetric in_ m mm i val = Ok (in', err) ->
  (is_Some err /\ in' = in_)
  \/ (err = None
      /\ exists nm g,
           Insights.NormalizeMetricName m = (nm, None)
           /\ Insights.MetricsInfo in_ = Some g
           /\ (forall old, g !! nm = Some old -> old = mm)
           /\ shape_matches (Type_ mm) val
           /\ 0 <= i < Insights.NumVersions in_
           /\ (match val with
               | VHist _ => exists gh, Insights.HistMetricValues in_ !! Z.to_nat i
                                       = Some (Some gh)
               | _ => exists gi, Insights.NonHistMetricValues in_ !! Z.to_nat i
                                 = Some (Some gi)
               end)
           /\ in' = recorded in_ nm mm i val).
Proof.
  unfold Insights.updateMetric.
  destruct (metricTypeMatch (Type_ mm) val) eqn:Hmatch; cbn [negb].
  2:{ intros [= <- <-]. left. eauto. }
  apply metricTypeMatch_shape in Hmatch.
  destruct (Z.leb_spec (Insights.NumVersions in_) i) as [Hle | Hlt].
  { intros [= <- <-]. left. eauto. }
  destruct (Insights.NormalizeMetricName m) as [nm [e |]] eqn:Hnorm.
  { intros [= <- <-]. left. eauto. }
  destruct (Insights.registerMetric in_ nm mm) as [[in1 e1] | p] eqn:Hreg;
    cbn [bind]; [| discriminate].
  destruct (registerMetric_inv _ _ _ _ _ Hreg)
    as (g & Hg & [(-> & -> & _) | (-> & -> & Hsame)]).
  { intros [= <- <-]. left. eauto. }
  intros Hstore. right. split.
  { revert Hstore. destruct Hmatch;
      cbn [String.eqb Ascii.eqb Bool.eqb CounterMetricType GaugeMetricType
           SampleMetricType HistogramMetricType orb];
      unfold Insights.updateMetricValueScalar, Insights.updateMetricValueVector,
        Insights.updateMetricValueHist;
      destruct (Insights.append_at _ nm i _); cbn [bind]; congruence. }
  exists nm, g. split; [reflexivity |]. split; [exact Hg |]. split; [exact Hsame |].
  split; [exact Hmatch |].
  unfold recorded. rewrite Hg. cbn [from_option id].
  revert Hstore. destruct Hmatch as [v | v | v | v];
    cbn [String.eqb Ascii.eqb Bool.eqb CounterMetricType GaugeMetricType
         SampleMetricType HistogramMetricType orb];
    unfold Insights.updateMetricValueScalar, Insights.updateMetricValueVector,
      Insights.updateMetricValueHist;
    cbn [Insights.set_MetricsInfo Insights.NonHistMetricValues
         Insights.HistMetricValues];
    destruct (Insights.append_at _ nm i _) as [vs |] eqn:Happ; cbn [bind];
    try discriminate; intros [= <- _];
    apply append_at_inv in Happ as (gi & Hi & Hgi & ->);
    rewrite (insert_appended _ nm i _ gi Hgi);
    (split; [lia |]); (split; [exists gi; exact Hgi |]); reflexivity.
Qed.

Lemma appended_initialized {V : Type} (vs : list (option (gmap string (list V))))
    (nm : string) (i : Z) (val : list V) (n : Z) :
  len vs = n -> Forall is_Some vs ->
  len (appended vs nm i val) = n /\ Forall is_Some (appended vs nm i val).
Proof.
  intros Hlen Hall. unfold appended, len in *. rewrite length_alter.
  split; [exact Hlen |].
  apply Forall_alter; [exact Hall |]. intros x _ [g ->]. now eexists.
Qed.

(** The observations of a store after an append. *)
Lemma observations_appended (vs : list (option (gmap string (list float))))
    (nm k : string) (i j : Z) (val : list float)
    (gi : gmap string (list float)) :
  0 <= i -> 0 <= j ->
  vs !! Z.to_nat i = Some (Some gi) ->
  match appended vs nm i val !! Z.to_nat j with
  | Some mp => default [] (map_get mp k)
  | None => []
  end
  = match vs !! Z.to_nat j with
    | Some mp => default [] (map_get mp k)
    | None => []
    end ++ (if decide (j = i /\ k = nm) then val else []).
Proof.
  intros Hi Hj Hgi. unfold appended.
  destruct (decide (j = i)) as [-> | Hne].
  - rewrite list_lookup_alter_eq, Hgi. cbn [fmap option_fmap option_map map_get].
    destruct (decide (k = nm)) as [-> | Hk].
    + rewrite lookup_insert_eq. cbn [from_option id].
      destruct (decide (i = i /\ nm = nm)) as [_ | Hn]; [reflexivity | tauto].
    + rewrite lookup_insert_ne by congruence.
      destruct (decide (i = i /\ k = nm)) as [[_ Heq] | _]; [congruence |].
      now rewrite app_nil_r.
  - rewrite list_lookup_alter_ne by lia.
    destruct (decide (j = i /\ k = nm)) as [[Heq _] | _]; [congruence |].
    now rewrite app_nil_r.
Qed.

(** The observations after a value was recorded. *)
Lemma observations_recorded (in_ : Insights.t) (nm k : string) (mm : MetricMeta)
    (i j : Z) (val : MetricValue) :
  0 <= i -> 0 <= j ->
  match val with
  | VHist _ => True
  | _ => exists gi, Insights.NonHistMetricValues in_ !! Z.to_nat i = Some (Some gi)
  end ->
  observations (recorded in_ nm mm i val) j k
  = observations in_ j k
    ++ (if decide (j = i /\ k = nm) then new_observations val else []).
Proof.
  intros Hi Hj Hslot. unfold observations, recorded.
  cbn [Insights.NonHistMetricValues].
  destruct val as [v | v | v |]; cbn [new_observations].
  - destruct Hslot as [gi Hgi].
    apply (observations_appended _ nm k i j [v] gi); (lia || assumption).
  - destruct Hslot as [gi Hgi].
    apply (observations_appended _ nm k i j v gi); (lia || assumption).
  - destruct (decide (j = i /\ k = nm)); now rewrite app_nil_r.
  - destruct (decide (j = i /\ k = nm)); now rewrite app_nil_r.
Qed.

End Update_effects.

(** X5. [updateMetric] keeps the insights well formed: when it returns on
    insights whose metrics are initialised, they are initialised still, with
    the number of versions, the SLOs and the satisfaction matrices as they
    were, and every metric registered before has the meta it had. *)
Theorem updateMetric_keeps_initialized {libs : GoLibs} (in_ in' : Insights.t)
    (m : string) (mm : MetricMeta) (i : Z) (val : MetricValue)
    (err : option error) :
  metrics_initialized in_ ->
  Insights.updateMetric in_ m mm i val = Ok (in', err) ->
  metrics_initialized in'
  /\ Insights.NumVersions in' = Insights.NumVersions in_
  /\ Insights.SLOs in' = Insights.SLOs in_
  /\ Insights.SLOsSatisfied in' = Insights.SLOsSatisfied in_
  /\ (forall k old, map_get (Insights.MetricsInfo in_) k = Some old ->
        map_get (Insights.MetricsInfo in') k = Some old).
Proof.
  intros Hinit Hupdate.
  destruct (updateMetric_inv _ _ _ _ _ _ _ Hupdate)
    as [[_ ->] | (-> & nm & g & _ & Hg & Hsame & _ & _ & _ & ->)].
  { repeat split; auto; apply Hinit. }
  destruct Hinit as (_ & HlenN & HlenH & HallN & HallH).
  unfold recorded. rewrite Hg.
  split; [| split; [| split; [| split]]]; try reflexivity.
  - unfold metrics_initialized.
    cbn [Insights.MetricsInfo Insights.NonHistMetricValues
         Insights.HistMetricValues Insights.NumVersions from_option id].
    split; [eauto |].
    destruct val as [v | v | v |];
      repeat match goal with
             | |- _ /\ _ => split
             end;
      try assumption;
      try (apply (appended_initialized _ nm i _ _ HlenN HallN));
      try (apply (appended_initialized _ nm i _ _ HlenH HallH)).
  - cbn [Insights.MetricsInfo map_get from_option id]. intros k old Hk.
    destruct (decide (k = nm)) as [-> | Hne].
    + rewrite lookup_insert_eq. f_equal. symmetry. now apply Hsame.
    + now rewrite lookup_insert_ne by congruence.
Qed.

(** X5 at the first observation of [http/latency-p95.00]. *)
Lemma updateMetric_keeps_initialized_witness :
  metrics_initialized
    (recorded one_version "http/latency-p95" latency_percentile 0 (VFloat 12.5%float)).
Proof.
  apply (updateMetric_keeps_initialized (libs := Ref.libs) one_version _
           "http/latency-p95.00" latency_percentile 0 (VFloat 12.5%float) None
           one_version_initialized).
  vm_compute; reflexivity.
Defined.

(** X6. [updateMetric] appends, in order, and to one place: after a
    successful update under the canonical name [nm], the observations of
    version [i] for [nm] are the old ones followed by the new value (the
    values, for a sample; none, for a histogram), and the observations of
    every other version or metric are as they were. *)
Theorem updateMetric_appends_observations {libs : GoLibs} (in_ in' : Insights.t)
    (m nm : string) (mm : MetricMeta) (i : Z) (val : MetricValue) :
  Insights.updateMetric in_ m mm i val = Ok (in', None) ->
  Insights.NormalizeMetricName m = (nm, None) ->
  observations in' i nm = observations in_ i nm ++ new_observations val
  /\ (forall j k, 0 <= j -> j <> i \/ k <> nm ->
        observations in' j k = observations in_ j k).
Proof.
  intros Hupdate Hnorm.
  destruct (updateMetric_inv _ _ _ _ _ _ _ Hupdate)
    as [[[e [=]] _] | (_ & nm0 & g & Hnm0 & Hg & _ & Hshape & Hi & Hslot & ->)].
  rewrite Hnorm in Hnm0. injection Hnm0 as <-.
  assert (Hobs : forall j k, 0 <= j ->
    observations (recorded in_ nm mm i val) j k
    = observations in_ j k
      ++ (if decide (j = i /\ k = nm) then new_observations val else [])).
  { intros j k Hj. apply observations_recorded; try lia.
    destruct val; exact Hslot || exact I. }
  split.
  - rewrite Hobs by lia.
    destruct (decide (i = i /\ nm = nm)) as [_ | Hn]; [reflexivity | tauto].
  - intros j k Hj Hother. rewrite Hobs by lia.
    destruct (decide (j = i /\ k = nm)) as [[-> ->] | _]; [tauto |].
    now rewrite app_nil_r.
Qed.

(** X6 at a second batch of latencies for version 0. *)
Lemma updateMetric_appends_observations_witness :
  let mm := mkMetricMeta "gRPC latency" (Some "msec") SampleMetricType in
  observations (recorded (latencies [1%float]) "grpc/latency" mm 0
                  (VFloats [2%float; 3%float])) 0 "grpc/latency"
  = observations (latencies [1%float]) 0 "grpc/latency" ++ [2%float; 3%float].
Proof.
  apply (updateMetric_appends_observations (libs := Ref.libs) (latencies [1%float]) _
           "grpc/latency" "grpc/latency"
           (mkMetricMeta "gRPC latency" (Some "msec") SampleMetricType) 0
           (VFloats [2%float; 3%float])).
  - vm_compute; reflexivity.
  - reflexivity.
Defined.

(** X7. What [updateMetric] registers, [GetMetricsInfo] returns: after a
    successful update under a canonical name of two segments, the meta of
    that name is the meta of the update. *)
Theorem GetMetricsInfo_after_updateMetric {libs : GoLibs} (in_ in' : Insights.t)
    (m nm : string) (mm : MetricMeta) (i : Z) (val : MetricValue) :
  Insights.updateMetric in_ m mm i val = Ok (in', None) ->
  Insights.NormalizeMetricName m = (nm, None) ->
  len (strings_Split nm "/") = 2 ->
  Insights.GetMetricsInfo in' nm = Ok (Some mm, None).
Proof.
  intros Hupdate Hnorm Hsegments.
  destruct (updateMetric_inv _ _ _ _ _ _ _ Hupdate)
    as [[[e [=]] _] | (_ & nm0 & g & Hnm0 & Hg & _ & _ & _ & _ & ->)].
  rewrite Hnorm in Hnm0. injection Hnm0 as <-.
  unfold Insights.GetMetricsInfo. rewrite Hsegments. cbn [Z.eqb Pos.eqb].
  unfold recorded. cbn [Insights.MetricsInfo map_get].
  now rewrite lookup_insert_eq.
Qed.

(** X7 at [http/latency-p95.00], read back under [http/latency-p95]. *)
Lemma GetMetricsInfo_after_updateMetric_witness :
  Insights.GetMetricsInfo
    (recorded one_version "http/latency-p95" latency_percentile 0 (VFloat 12.5%float))
    "http/latency-p95" = Ok (Some latency_percentile, None).
Proof.
  apply (GetMetricsInfo_after_updateMetric (libs := Ref.libs) one_version _
           "http/latency-p95.00" "http/latency-p95" latency_percentile 0
           (VFloat 12.5%float)).
  - vm_compute; reflexivity.
  - vm_compute; reflexivity.
  - reflexivity.
Defined.

(** ** Names and their segments *)

Lemma Split_not_nil (s : string) : strings_Split s "/" <> [].
Proof.
  destruct s as [| c s]; cbn [strings_Split]; [discriminate |].
  destruct (Ascii.eqb c "/"); [discriminate |].
  destruct (strings_Split s "/"); discriminate.
Qed.

(** Joining with a slash concatenates the segments. *)
Lemma Split_join (x y : string) :
  strings_Split (x +:+ "/" +:+ y) "/" = strings_Split x "/" ++ strings_Split y "/".
Proof.
  induction x as [| c x IH].
  - reflexivity.
  - change (String c x +:+ "/" +:+ y) with (String c (x +:+ "/" +:+ y)).
    cbn [strings_Split]. destruct (Ascii.eqb c "/").
    + now rewrite IH.
    + rewrite IH. pose proof (Split_not_nil x) as Hx.
      destruct (strings_Split x "/") as [| h t]; [contradiction | reflexivity].
Qed.

Lemma Split_one (s x : string) : strings_Split s "/" = [x] -> s = x.
Proof.
  revert x. induction s as [| c s IH]; intros x; cbn [strings_Split].
  - now intros [= <-].
  - destruct (Ascii.eqb c "/").
    + intros [= _ Hnil]. now destruct (Split_not_nil s).
    + destruct (strings_Split s "/") as [| h t] eqn:Hs;
        [now destruct (Split_not_nil s) |].
      intros [= <- ->]. now rewrite (IH h eq_refl).
Qed.

(** A name of two segments is its segments joined by a slash. *)
Lemma Split_two (s x y : string) :
  strings_Split s "/" = [x; y] -> s = x +:+ "/" +:+ y.
Proof.
  revert x. induction s as [| c s IH]; intros x; cbn [strings_Split].
  - discriminate.
  - destruct (Ascii.eqb_spec c "/") as [-> | _].
    + intros [= <- Hy]. now rewrite (Split_one s y Hy).
    + destruct (strings_Split s "/") as [| h t] eqn:Hs; [discriminate |].
      intros [= <- ->]. now rewrite (IH h eq_refl).
Qed.

(** ** Reading metrics *)

Section Reading.
Context {libs : GoLibs}.



(** The value of a counter or gauge is its last observation. *)
Lemma getCounterOrGauge_last (in_ : Insights.t) (i : Z) (nm : string) :
  0 <= i ->
  Insights.getCounterOrGaugeMetricFromValuesMap in_ i nm
  = Ok (if scalar_metric in_ nm then last (observations in_ i nm) else None).
Proof.
  intros Hi. unfold Insights.getCounterOrGaugeMetricFromValuesMap, scalar_metric.
  destruct (map_get (Insights.MetricsInfo in_) nm) as [mm |]; [| reflexivity].
  destruct (String.eqb (Type_ mm) CounterMetricType
            || String.eqb (Type_ mm) GaugeMetricType) eqn:Hscalar.
  2:{ apply orb_false_iff in Hscalar as [-> ->]. reflexivity. }
  replace (negb (String.eqb (Type_ mm) CounterMetricType)
           && negb (String.eqb (Type_ mm) GaugeMetricType)) with false
    by (symmetry; rewrite <- negb_orb, Hscalar; reflexivity).
  unfold observations.
  destruct (Z.leb_spec (len (Insights.NonHistMetricValues in_)) i) as [Hle | Hlt].
  - rewrite (proj2 (lookup_ge_None _ (Z.to_nat i))) by (unfold len in Hle; lia).
    reflexivity.
  - destruct (lookup_lt_is_Some_2 (Insights.NonHistMetricValues in_) (Z.to_nat i))
      as [mp Hmp]; [unfold len in Hlt; lia |].
    rewrite (index_Ok _ i mp Hi Hmp), Hmp. cbn [bind].
    destruct (map_get mp nm) as [vals |]; [| reflexivity].
    cbn [from_option id].
    destruct (Z.ltb_spec 0 (len vals)) as [Hpos | Hzero].
    + destruct (lookup_lt_is_Some_2 vals (pred (length vals))) as [v Hv];
        [unfold len in Hpos; lia |].
      rewrite last_lookup, Hv.
      rewrite (index_Ok vals (len vals - 1) v); [reflexivity | lia |].
      unfold len. now replace (Z.to_nat (Z.of_nat (length vals) - 1))
        with (pred (length vals)) by lia.
    + destruct vals; [reflexivity | unfold len in Hzero; simpl in Hzero; lia].
Qed.

End Reading.



(** X9. The reading of a plain name is the last observation: for a name [m]
    of two segments with canonical name [nm], and a version index [i >= 0],
    [ScalarMetricValue] does not panic; it returns the last observation of
    version [i] for [nm] when [nm] is registered as a counter or a gauge
    (absent when there is none, or when [i] has no slot in the store), and
    absent for any other metric. *)
Theorem ScalarMetricValue_last_observation {libs : GoLibs} (in_ : Insights.t)
    (i : Z) (m nm : string) :
  len (strings_Split m "/") = 2 ->
  0 <= i ->
  Insights.NormalizeMetricName m = (nm, None) ->
  Insights.ScalarMetricValue in_ i m
  = Ok (if scalar_metric in_ nm then last (observations in_ i nm) else None).
Proof.
  intros Hsegments Hi Hnorm. unfold Insights.ScalarMetricValue.
  rewrite Hsegments, Hnorm. cbn [Z.eqb Pos.eqb].
  now apply getCounterOrGauge_last.
Qed.

(** X9 on a counter with three observations. *)
Lemma ScalarMetricValue_last_observation_witness :
  Insights.ScalarMetricValue (libs := Ref.libs)
    (requests [1%float; 2%float; 4%float]) 0 "prom/requests"
  = Ok (if scalar_metric (requests [1%float; 2%float; 4%float]) "prom/requests"
        then last (observations (requests [1%float; 2%float; 4%float]) 0
                     "prom/requests")
        else None).
Proof.
  apply (ScalarMetricValue_last_observation (libs := Ref.libs)
           (requests [1%float; 2%float; 4%float]) 0 "prom/requests" "prom/requests").
  - reflexivity.
  - lia.
  - reflexivity.
Defined.



(** X11. [GetMetricsInfo] always returns, with a meta or with an error and
    never both. For an aggregated name [base/a] over a registered base, the
    meta it makes up is a counter when [a] is [count] and a gauge otherwise,
    with the units of the base. *)
Theorem GetMetricsInfo_returns (in_ : Insights.t) (nm : string) :
  exists meta err,
    Insights.GetMetricsInfo in_ nm = Ok (meta, err)
    /\ (is_Some meta <-> err = None)
    /\ (forall base a mm,
          nm = base +:+ "/" +:+ a ->
          len (strings_Split base "/") = 2 -> strings_Split a "/" = [a] ->
          map_get (Insights.MetricsInfo in_) base = Some mm ->
          exists description,
            meta = Some (mkMetricMeta description (Units mm)
                           (if String.eqb a CountAggregator then CounterMetricType
                            else GaugeMetricType))).
Proof.
  unfold Insights.GetMetricsInfo.
  destruct (Z.eqb_spec (len (strings_Split nm "/")) 3) as [H3 | N3].
  - destruct (strings_Split nm "/") as [| s0 [| s1 [| s2 [| s3 rest]]]] eqn:Hs;
      try (unfold len in H3; simpl in H3; lia).
    rewrite (index_Ok _ 0 s0), (index_Ok _ 1 s1), (index_Ok _ 2 s2)
      by (reflexivity || lia).
    cbn [bind].
    assert (Hbase : forall base a, nm = base +:+ "/" +:+ a ->
              len (strings_Split base "/") = 2 -> strings_Split a "/" = [a] ->
              base = s0 +:+ "/" +:+ s1 /\ a = s2).
    { intros base a -> Hb Ha. rewrite Split_join, Ha in Hs.
      destruct (strings_Split base "/") as [| b0 [| b1 [| b2 brest]]] eqn:Hbs;
        try (unfold len in Hb; simpl in Hb; lia).
      injection Hs as <- <- <-. split; [now apply Split_two | reflexivity]. }
    destruct (map_get (Insights.MetricsInfo in_) (s0 +:+ "/" +:+ s1)) as [mm |] eqn:Hmm.
    + eexists _, _. split; [reflexivity |]. split; [split; eauto |].
      intros base a mm' Hnm Hb Ha Hmm'.
      destruct (Hbase base a Hnm Hb Ha) as [-> ->].
      rewrite Hmm in Hmm'. injection Hmm' as <-.
      eexists. destruct (String.eqb s2 CountAggregator); reflexivity.
    + eexists _, _. split; [reflexivity |].
      split; [split; [intros [? [=]] | discriminate] |].
      intros base a mm' Hnm Hb Ha Hmm'.
      destruct (Hbase base a Hnm Hb Ha) as [-> ->]. congruence.
  - assert (Hnot : forall base a, nm = base +:+ "/" +:+ a ->
              len (strings_Split base "/") = 2 -> strings_Split a "/" = [a] -> False).
    { intros base a -> Hb Ha. apply N3. rewrite Split_join, Ha.
      unfold len in *. rewrite length_app. simpl. lia. }
    destruct (len (strings_Split nm "/") =? 2).
    + destruct (map_get (Insights.MetricsInfo in_) nm) as [mm |].
      * eexists _, _. split; [reflexivity |]. split; [split; eauto |].
        intros base a mm' Hnm Hb Ha. now destruct (Hnot base a Hnm Hb Ha).
      * eexists _, _. split; [reflexivity |].
        split; [split; [intros [? [=]] | discriminate] |].
        intros base a mm' Hnm Hb Ha. now destruct (Hnot base a Hnm Hb Ha).
    + eexists _, _. split; [reflexivity |].
      split; [split; [intros [? [=]] | discriminate] |].
      intros base a mm' Hnm Hb Ha. now destruct (Hnot base a Hnm Hb Ha).
Qed.

(** X11 at the 95th percentile of the latencies: a gauge in msec. *)
Lemma GetMetricsInfo_returns_witness :
  exists meta description,
    Insights.GetMetricsInfo (latencies []) "grpc/latency/p95" = Ok (Some meta, None)
    /\ meta = mkMetricMeta description (Some "msec") GaugeMetricType.
Proof.
  destruct (GetMetricsInfo_returns (latencies []) "grpc/latency/p95")
    as (meta & err & Hget & Hboth & Htype).
  destruct (Htype "grpc/latency" "p95"
              (mkMetricMeta "gRPC latency" (Some "msec") SampleMetricType))
    as [description Hmeta].
  - reflexivity.
  - reflexivity.
  - reflexivity.
  - unfold latencies. cbn [Insights.MetricsInfo map_get].
    now rewrite lookup_singleton_eq.
  - exists (mkMetricMeta description (Some "msec") GaugeMetricType), description.
    split; [| reflexivity].
    rewrite Hget. subst meta.
    assert (Herr : err = None) by (apply Hboth; eauto).
    now rewrite Herr.
Defined.

(** ** The initialisers *)

(** What [initMetrics] makes of insights whose stores are nil. *)
Lemma initMetrics_fresh (in_ : Insights.t) :
  0 <= Insights.NumVersions in_ ->
  Insights.initMetrics in_ false
  = Ok (Insights.mk (Insights.NumVersions in_) (Some ∅)
          (replicate (Z.to_nat (Insights.NumVersions in_)) (Some ∅))
          (replicate (Z.to_nat (Insights.NumVersions in_)) (Some ∅))
          (Insights.SLOs in_) (Insights.SLOsSatisfied in_), None).
Proof.
  intros Hn. unfold Insights.initMetrics, Insights.make_maps.
  now destruct (Z.ltb_spec (Insights.NumVersions in_) 0); [lia |].
Qed.

(** [initMetrics] keeps the number of versions. *)
Lemma initMetrics_NumVersions (in_ in' : Insights.t) (allocated : bool)
    (err : option Insights.init_error) :
  Insights.initMetrics in_ allocated = Ok (in', err) ->
  Insights.NumVersions in' = Insights.NumVersions in_.
Proof.
  unfold Insights.initMetrics, Insights.make_maps. destruct allocated.
  - destruct (_ || _); [now intros [= <- _] |].
    destruct (index (Insights.NonHistMetricValues in_) 0); [| discriminate].
    destruct (index (Insights.HistMetricValues in_) 0); [| discriminate].
    cbn [bind]. destruct (negb _); now intros [= <- _].
  - destruct (Insights.NumVersions in_ <? 0); [discriminate |].
    cbn [bind]. now intros [= <- _].
Qed.

(** X12. [initMetrics] on insights with nil stores: with a number of versions
    that is not negative it returns without error; the map of metric
    metadata is empty, and each of the two stores of values holds one empty
    map per version, so that the metrics are initialised, no metric is
    registered and no version has an observation; the number of versions and
    the SLOs are kept. With a negative number of versions it panics in
    [make]. *)
Theorem initMetrics_allocates (in_ : Insights.t) :
  (0 <= Insights.NumVersions in_ ->
   exists in',
     Insights.initMetrics in_ false = Ok (in', None)
     /\ Insights.MetricsInfo in' = Some ∅
     /\ Insights.NonHistMetricValues in'
        = replicate (Z.to_nat (Insights.NumVersions in_)) (Some ∅)
     /\ Insights.HistMetricValues in'
        = replicate (Z.to_nat (Insights.NumVersions in_)) (Some ∅)
     /\ metrics_initialized in'
     /\ Insights.NumVersions in' = Insights.NumVersions in_
     /\ (forall nm, map_get (Insights.MetricsInfo in') nm = None)
     /\ (forall i nm, observations in' i nm = [])
     /\ Insights.SLOs in' = Insights.SLOs in_
     /\ Insights.SLOsSatisfied in' = Insights.SLOsSatisfied in_)
  /\ (Insights.NumVersions in_ < 0 ->
      Insights.initMetrics in_ false = Panic MakeSliceLenOutOfRange).
Proof.
  split.
  - intros Hn. eexists. split; [now apply initMetrics_fresh |].
    split; [reflexivity | split; [reflexivity | split; [reflexivity |]]].
    split; [| split; [reflexivity | split; [| split; [| split; reflexivity]]]].
    + unfold metrics_initialized, len. cbn [Insights.MetricsInfo
        Insights.NonHistMetricValues Insights.HistMetricValues Insights.NumVersions].
      rewrite !length_replicate.
      repeat split; eauto; try lia; apply Forall_replicate; eauto.
    + intros nm. cbn [Insights.MetricsInfo map_get]. apply lookup_empty.
    + intros i nm. unfold observations. cbn [Insights.NonHistMetricValues].
      destruct (replicate _ _ !! Z.to_nat i) as [mp |] eqn:Hmp; [| reflexivity].
      apply lookup_replicate in Hmp as [-> _]. cbn [map_get].
      now rewrite lookup_empty.
  - intros Hn. unfold Insights.initMetrics, Insights.make_maps.
    now destruct (Z.ltb_spec (Insights.NumVersions in_) 0); [| lia].
Qed.

(** X12 for three versions. *)
Lemma initMetrics_allocates_witness :
  exists in',
    Insights.initMetrics (Insights.mk 3 None [] [] None None) false = Ok (in', None)
    /\ Insights.MetricsInfo in' = Some ∅
    /\ Insights.NonHistMetricValues in' = [Some ∅; Some ∅; Some ∅]
    /\ Insights.HistMetricValues in' = [Some ∅; Some ∅; Some ∅]
    /\ metrics_initialized in'
    /\ Insights.NumVersions in' = 3.
Proof.
  destruct (proj1 (initMetrics_allocates (Insights.mk 3 None [] [] None None)))
    as (in' & Hinit & Hinfo & Hnonhist & Hhist & Hready & Hn & _).
  - cbn [Insights.NumVersions]. lia.
  - exists in'. split; [exact Hinit | split; [exact Hinfo |]].
    split; [exact Hnonhist | split; [exact Hhist |]].
    split; [exact Hready | exact Hn].
Defined.

(** X13. [initMetrics] a second time, on what it allocated itself: for one
    version or more it finds the stores consistent and returns without error
    and without a change; for zero versions it panics, reading entry 0 of a
    store of length zero. *)
Theorem initMetrics_again (in_ in' : Insights.t) (err : option Insights.init_error) :
  Insights.initMetrics in_ false = Ok (in', err) ->
  (1 <= Insights.NumVersions in_ -> Insights.initMetrics in' true = Ok (in', None))
  /\ (Insights.NumVersions in_ = 0 ->
      Insights.initMetrics in' true = Panic IndexOutOfRange).
Proof.
  intros Hinit.
  assert (Hn : 0 <= Insights.NumVersions in_).
  { revert Hinit. unfold Insights.initMetrics, Insights.make_maps.
    destruct (Z.ltb_spec (Insights.NumVersions in_) 0); [discriminate | lia]. }
  rewrite (initMetrics_fresh in_ Hn) in Hinit. injection Hinit as <- <-.
  unfold Insights.initMetrics, len.
  cbn [Insights.MetricsInfo Insights.NonHistMetricValues Insights.HistMetricValues
       Insights.NumVersions].
  rewrite !length_replicate, Z2Nat.id, Z.eqb_refl by lia. cbn [negb orb].
  split.
  - intros H1.
    rewrite !(index_Ok _ 0 (Some ∅))
      by (lia || (apply lookup_replicate_2; lia)).
    cbn [bind Insights.map_len]. now rewrite map_size_empty.
  - intros ->. reflexivity.
Qed.

(** X13 for zero versions: the second call panics. *)
Lemma initMetrics_again_witness :
  Insights.initMetrics (Insights.mk 0 (Some ∅) [] [] None None) true
  = Panic IndexOutOfRange.
Proof.
  apply (proj2 (initMetrics_again (Insights.mk 0 None [] [] None None)
                  (Insights.mk 0 (Some ∅) [] [] None None) None eq_refl)).
  reflexivity.
Defined.

(** X14. The consistency check of [initMetrics] counts the metrics of version
    0 only: after the first metric is recorded on freshly initialised
    insights, [initMetrics] returns without error when the update was for
    version 0, and reports inconsistent metrics when it was for any later
    version. *)
Theorem initMetrics_after_first_update {libs : GoLibs} (in_ in0 in1 : Insights.t)
    (e0 : option Insights.init_error) (m : string) (mm : MetricMeta) (i : Z)
    (val : MetricValue) :
  Insights.initMetrics in_ false = Ok (in0, e0) ->
  Insights.updateMetric in0 m mm i val = Ok (in1, None) ->
  Insights.initMetrics in1 true
  = Ok (in1, if i =? 0 then None else Some Insights.ErrInconsistentMetrics).
Proof.
  intros Hinit Hupd.
  assert (Hn : 0 <= Insights.NumVersions in_).
  { revert Hinit. unfold Insights.initMetrics, Insights.make_maps.
    destruct (Z.ltb_spec (Insights.NumVersions in_) 0); [discriminate | lia]. }
  rewrite (initMetrics_fresh in_ Hn) in Hinit. injection Hinit as <- <-.
  destruct (updateMetric_inv _ _ _ _ _ _ _ Hupd)
    as [[[? [=]] _] | (_ & nm & g & _ & Hg & _ & Hshape & Hi & _ & ->)].
  cbn [Insights.MetricsInfo Insights.NumVersions] in Hg, Hi.
  injection Hg as <-.
  set (n := Insights.NumVersions in_) in *.
  assert (Hempty : forall V, replicate (Z.to_nat n) (Some (∅ : gmap string (list V)))
                             !! 0%nat = Some (Some ∅))
    by (intros V; apply lookup_replicate_2; lia).
  assert (Happended : forall V (vs : list V),
            length (appended (replicate (Z.to_nat n) (Some ∅)) nm i vs) = Z.to_nat n
            /\ appended (replicate (Z.to_nat n) (Some ∅)) nm i vs !! 0%nat
               = Some (Some (if i =? 0 then {[nm := vs]} else ∅))).
  { intros V vs. unfold appended. split.
    - now rewrite length_alter, length_replicate.
    - destruct (Z.eqb_spec i 0) as [-> | Hne].
      + change (Z.to_nat 0) with 0%nat.
        rewrite list_lookup_alter, Hempty. cbn [fmap option_fmap option_map].
        now rewrite lookup_empty.
      + rewrite list_lookup_alter_ne by lia. apply Hempty. }
  unfold Insights.initMetrics, recorded, len.
  cbn [Insights.MetricsInfo Insights.NonHistMetricValues Insights.HistMetricValues
       Insights.NumVersions default from_option id].
  fold n.
  assert (Hsize : Insights.map_len (Some (<[nm := mm]> (∅ : gmap string MetricMeta))) = 1).
  { cbn [Insights.map_len]. rewrite insert_empty, map_size_singleton. reflexivity. }
  rewrite Hsize.
  destruct val as [v | vs | hs |]; [| | | inversion Hshape].
  - destruct (Happended float [v]) as [Hlen H0].
    rewrite Hlen, length_replicate, Z2Nat.id, Z.eqb_refl by lia. cbn [negb orb].
    rewrite (index_Ok _ 0 _ ltac:(lia) H0), (index_Ok _ 0 _ ltac:(lia) (Hempty _)).
    cbn [bind Insights.map_len].
    destruct (i =? 0); now rewrite ?map_size_singleton, map_size_empty.
  - destruct (Happended float vs) as [Hlen H0].
    rewrite Hlen, length_replicate, Z2Nat.id, Z.eqb_refl by lia. cbn [negb orb].
    rewrite (index_Ok _ 0 _ ltac:(lia) H0), (index_Ok _ 0 _ ltac:(lia) (Hempty _)).
    cbn [bind Insights.map_len].
    destruct (i =? 0); now rewrite ?map_size_singleton, map_size_empty.
  - destruct (Happended HistBucket hs) as [Hlen H0].
    rewrite Hlen, length_replicate, Z2Nat.id, Z.eqb_refl by lia. cbn [negb orb].
    rewrite (index_Ok _ 0 _ ltac:(lia) H0), (index_Ok _ 0 _ ltac:(lia) (Hempty _)).
    cbn [bind Insights.map_len].
    destruct (i =? 0); now rewrite ?map_size_singleton, map_size_empty.
Qed.

(** X14 for a counter recorded for the second of two versions. *)
Lemma initMetrics_after_first_update_witness :
  exists in1,
    Insights.updateMetric (libs := Ref.libs)
      (Insights.mk 2 (Some ∅) [Some ∅; Some ∅] [Some ∅; Some ∅] None None)
      "prom/requests" (mkMetricMeta "requests" None CounterMetricType) 1
      (VFloat 5%float) = Ok (in1, None)
    /\ Insights.initMetrics in1 true
       = Ok (in1, Some Insights.ErrInconsistentMetrics).
Proof.
  eexists. split; [reflexivity |].
  apply (initMetrics_after_first_update (libs := Ref.libs)
           (Insights.mk 2 None [] [] None None)
           (Insights.mk 2 (Some ∅) [Some ∅; Some ∅] [Some ∅; Some ∅] None None) _ None
           "prom/requests" (mkMetricMeta "requests" None CounterMetricType) 1
           (VFloat 5%float)); reflexivity.
Defined.

(** X15. [initInsightsWithNumVersions] returns an error iff the result has
    insights for another number of versions, and then leaves the result as it
    was; what [initMetrics] reports is not an error of the call. Without an
    error the result has insights for [n] versions, its other fields
    unchanged. On a result without insights and for [n >= 0] it returns, and
    the insights have their metrics initialised. *)
Theorem initInsightsWithNumVersions_error_iff (r r' : ExperimentResult) (n : Z)
    (allocated : bool) (err : option Insights.init_error) :
  (initInsightsWithNumVersions r n allocated = Ok (r', err) ->
   (is_Some err <->
    exists ins, Insights r = Some ins /\ Insights.NumVersions ins <> n)
   /\ (is_Some err -> r' = r)
   /\ (err = None ->
       (exists ins', Insights r' = Some ins' /\ Insights.NumVersions ins' = n)
       /\ Revision r' = Revision r /\ NumLoops r' = NumLoops r
       /\ NumCompletedTasks r' = NumCompletedTasks r /\ Failure r' = Failure r
       /\ Iter8Version r' = Iter8Version r))
  /\ (Insights r = None -> 0 <= n ->
      exists r1 ins,
        initInsightsWithNumVersions r n allocated = Ok (r1, None)
        /\ Insights r1 = Some ins /\ metrics_initialized ins).
Proof.
  split.
  - unfold initInsightsWithNumVersions.
    destruct (Insights r) as [ins |] eqn:Hins.
    + destruct (Z.eqb_spec (Insights.NumVersions ins) n) as [Heq | Hne]; cbn [negb].
      * destruct (Insights.initMetrics ins allocated) as [[ins' e] |] eqn:Hinit;
          cbn [bind fst]; [| discriminate].
        intros [= <- <-].
        split; [split; [intros [? [=]] | intros (? & [= <-] & Hne); congruence] |].
        split; [intros [? [=]] |]. intros _. cbn.
        split; [eexists; split; [reflexivity |] | tauto].
        now rewrite (initMetrics_NumVersions _ _ _ _ Hinit).
      * intros [= <- <-].
        split; [split; eauto |]. split; [reflexivity | discriminate].
    + destruct (Insights.initMetrics _ false) as [[ins' e] |] eqn:Hinit;
        cbn [bind fst]; [| discriminate].
      intros [= <- <-].
      split; [split; [intros [? [=]] | intros (? & [=] & _)] |].
      split; [intros [? [=]] |]. intros _. cbn.
      split; [eexists; split; [reflexivity |] | tauto].
      now rewrite (initMetrics_NumVersions _ _ _ _ Hinit).
  - intros Hins Hn. unfold initInsightsWithNumVersions. rewrite Hins.
    rewrite initMetrics_fresh by exact Hn. cbn [bind fst Insights.NumVersions
      Insights.SLOs Insights.SLOsSatisfied].
    eexists _, _. split; [reflexivity |]. split; [reflexivity |].
    unfold metrics_initialized, len. cbn [Insights.MetricsInfo
      Insights.NonHistMetricValues Insights.HistMetricValues Insights.NumVersions].
    rewrite !length_replicate.
    repeat split; eauto; try lia; apply Forall_replicate; eauto.
Qed.

(** X15 on a result with insights for one version, asked for two. *)
Lemma initInsightsWithNumVersions_error_iff_witness :
  is_Some (Some Insights.ErrVersionsChanged)
  <-> exists ins, Insights (mkExperimentResult 0 1 0 false (Some one_version) "v0.8")
                  = Some ins /\ Insights.NumVersions ins <> 2.
Proof.
  apply (proj1 (initInsightsWithNumVersions_error_iff
                  (mkExperimentResult 0 1 0 false (Some one_version) "v0.8")
                  (mkExperimentResult 0 1 0 false (Some one_version) "v0.8")
                  2 true (Some Insights.ErrVersionsChanged)) eq_refl).
Defined.

(** ** Runs of the engine *)

Section Engine_runs.
Context {D T : Type} `{Experiment.TaskOps T} `{Experiment.Driver D T}
  `{Experiment.ExprLib T}.

(** The loop over a list of tasks is the loop over its first part, then, if
    that returned no error, the loop over the rest. *)
Lemma run_tasks_app (i : nat) (before after : list T) (s : Experiment.state D T) :
  Experiment.run_tasks i (before ++ after) s
  = (r <- Experiment.run_tasks i before s ;;
     match r with
     | (s', Some err) => Ok (s', Some err)
     | (s', None) => Experiment.run_tasks (i + length before) after s'
     end).
Proof.
  revert i s. induction before as [| tk before IH]; intros i s.
  - cbn [app Experiment.run_tasks bind length]. now rewrite Nat.add_0_r.
  - cbn [app Experiment.run_tasks length].
    destruct (Experiment.run_task i tk s) as [[s1 [e |]] | p]; cbn [bind];
      try reflexivity.
    rewrite IH. now replace (S i + length before)%nat with (i + S (length before))%nat
      by lia.
Qed.

(** The three ways the loop body returns: the condition did not evaluate; the
    task was skipped or ran, and was counted and written; the task failed,
    and the failure was written. *)
Lemma run_task_inv (i : nat) (tk : T) (s s' : Experiment.state D T)
    (err : option error) :
  Experiment.run_task i tk s = Ok (s', err) ->
  (exists e, Experiment.shouldRun tk (Experiment.s_exp s) = inr e
             /\ s' = s /\ err = Some e)
  \/ (exists mid r,
        (mid = s
         \/ mid = Experiment.mkState (fst (Experiment.task_run tk (Experiment.s_exp s)))
                    (Experiment.s_driver s)
                    (Experiment.s_calls s ++ [Experiment.CallRun i tk]))
        /\ Experiment.Result (Experiment.s_exp mid) = Some r
        /\ s' = Experiment.mkState (counted (Experiment.s_exp mid) r)
                  (fst (Experiment.driver_Write (Experiment.s_driver mid)
                          (counted (Experiment.s_exp mid) r)))
                  (Experiment.s_calls mid
                   ++ [Experiment.CallWrite (counted (Experiment.s_exp mid) r)])
        /\ err = snd (Experiment.driver_Write (Experiment.s_driver mid)
                        (counted (Experiment.s_exp mid) r)))
  \/ (exists terr r,
        snd (Experiment.task_run tk (Experiment.s_exp s)) = Some terr
        /\ Experiment.Result (fst (Experiment.task_run tk (Experiment.s_exp s))) = Some r
        /\ let e' := failed (fst (Experiment.task_run tk (Experiment.s_exp s))) r in
           s' = Experiment.mkState e'
                  (fst (Experiment.driver_Write (Experiment.s_driver s) e'))
                  (Experiment.s_calls s
                   ++ [Experiment.CallRun i tk; Experiment.CallWrite e'])
           /\ err = Some (default terr
                            (snd (Experiment.driver_Write (Experiment.s_driver s) e')))).
Proof.
  unfold Experiment.run_task.
  destruct (Experiment.getName tk); [| discriminate].
  assert (Hend : forall mid,
            Experiment.completeTask mid = Ok (s', err) ->
            exists r,
              Experiment.Result (Experiment.s_exp mid) = Some r
              /\ s' = Experiment.mkState (counted (Experiment.s_exp mid) r)
                        (fst (Experiment.driver_Write (Experiment.s_driver mid)
                                (counted (Experiment.s_exp mid) r)))
                        (Experiment.s_calls mid
                         ++ [Experiment.CallWrite (counted (Experiment.s_exp mid) r)])
              /\ err = snd (Experiment.driver_Write (Experiment.s_driver mid)
                              (counted (Experiment.s_exp mid) r))).
  { intros mid. destruct (Experiment.Result (Experiment.s_exp mid)) as [r |] eqn:Hr.
    - rewrite (completeTask_counts_and_writes mid r Hr). intros [= <- <-]. eauto.
    - unfold Experiment.completeTask, Experiment.incrementNumCompletedTasks,
        Experiment.update_Result. now rewrite Hr. }
  destruct (Experiment.shouldRun tk (Experiment.s_exp s)) as [[|] | e].
  - unfold Experiment.invoke.
    destruct (Experiment.task_run tk (Experiment.s_exp s)) as [e1 [terr |]] eqn:Hrun;
      cbn [fst snd].
    + unfold Experiment.failExperiment, Experiment.update_Result.
      cbn [Experiment.s_exp Experiment.s_driver Experiment.s_calls].
      destruct (Experiment.Result e1) as [r |] eqn:Hr; [| discriminate].
      cbn [bind]. unfold Experiment.write.
      cbn [Experiment.s_exp Experiment.s_driver Experiment.s_calls].
      fold (failed e1 r).
      intros Hret. right; right. exists terr, r. cbn [fst snd].
      split; [reflexivity | split; [reflexivity |]]. cbn zeta.
      rewrite <- List.app_assoc in Hret. cbn [app] in Hret.
      destruct (snd (Experiment.driver_Write (Experiment.s_driver s) (failed e1 r)));
        injection Hret as <- <-; split; reflexivity.
    + intros Hret. destruct (Hend _ Hret) as (r & Hr & Hs' & Herr).
      right; left. eexists _, r. split; [right; reflexivity |]. eauto.
  - intros Hret. destruct (Hend _ Hret) as (r & Hr & Hs' & Herr).
    right; left. exists s, r. eauto.
  - intros [= <- <-]. left. eauto.
Qed.

(** The calls of the loop body: none when the condition did not evaluate;
    otherwise the task's [run] or nothing, then one write of the experiment
    it returns with. *)
Lemma run_task_calls (i : nat) (tk : T) (s s' : Experiment.state D T)
    (err : option error) :
  Experiment.run_task i tk s = Ok (s', err) ->
  (s' = s /\ is_Some err)
  \/ (exists pre, (pre = [] \/ pre = [Experiment.CallRun i tk])
        /\ Experiment.s_calls s'
           = Experiment.s_calls s ++ pre ++ [Experiment.CallWrite (Experiment.s_exp s')]).
Proof.
  intros Hret.
  destruct (run_task_inv _ _ _ _ _ Hret)
    as [(e & _ & -> & ->) | [(mid & r & Hmid & _ & -> & _) | (terr & r & _ & _ & Hs)]].
  - left. eauto.
  - right. destruct Hmid as [-> | ->].
    + exists []. split; [now left | reflexivity].
    + exists [Experiment.CallRun i tk]. split; [now right |].
      cbn [Experiment.s_calls Experiment.s_exp]. now rewrite <- List.app_assoc.
  - right. cbn zeta in Hs. destruct Hs as [-> _].
    exists [Experiment.CallRun i tk]. split; [now right | reflexivity].
Qed.

(** The loop ends on a state whose last call is the write of its experiment,
    when it started on one. *)
Lemma run_tasks_written (i : nat) (ts : list T) (s s' : Experiment.state D T)
    (err : option error) :
  last (Experiment.s_calls s) = Some (Experiment.CallWrite (Experiment.s_exp s)) ->
  Experiment.run_tasks i ts s = Ok (s', err) ->
  last (Experiment.s_calls s') = Some (Experiment.CallWrite (Experiment.s_exp s')).
Proof.
  revert i s. induction ts as [| tk ts IH]; intros i s Hlast.
  - cbn [Experiment.run_tasks]. now intros [= <- _].
  - cbn [Experiment.run_tasks].
    destruct (Experiment.run_task i tk s) as [[s1 e1] | p] eqn:Hstep;
      cbn [bind]; [| discriminate].
    assert (Hlast1 : last (Experiment.s_calls s1)
                     = Some (Experiment.CallWrite (Experiment.s_exp s1))).
    { destruct (run_task_calls _ _ _ _ _ Hstep) as [[-> _] | (pre & _ & ->)];
        [exact Hlast |].
      now rewrite List.app_assoc, last_snoc. }
    destruct e1 as [e |]; [now intros [= <- _] | now apply IH].
Qed.

(** The calls of the loop: every task is run at most once and in the order
    of the list, and written once when the loop returns no error. *)
Lemma run_tasks_calls (i : nat) (ts : list T) (s s' : Experiment.state D T)
    (err : option error) :
  Experiment.run_tasks i ts s = Ok (s', err) ->
  exists l,
    Experiment.s_calls s' = Experiment.s_calls s ++ l
    /\ sublist (tasks_run l) ts
    /\ (writes l <= length ts)%nat
    /\ (err = None -> writes l = length ts).
Proof.
  revert i s. induction ts as [| tk ts IH]; intros i s.
  - cbn [Experiment.run_tasks]. intros [= <- <-]. exists [].
    rewrite List.app_nil_r. repeat split; constructor.
  - cbn [Experiment.run_tasks].
    destruct (Experiment.run_task i tk s) as [[s1 e1] | p] eqn:Hstep;
      cbn [bind]; [| discriminate].
    destruct (run_task_calls _ _ _ _ _ Hstep) as [[-> [e ->]] | (pre & Hpre & Hcalls)].
    + intros [= <- <-]. exists []. rewrite List.app_nil_r.
      repeat split; [apply sublist_nil_l | cbn; lia | discriminate].
    + assert (Hone : sublist (tasks_run (pre ++ [Experiment.CallWrite (Experiment.s_exp s1)]))
                       [tk]
                     /\ writes (pre ++ [Experiment.CallWrite (Experiment.s_exp s1)]) = 1%nat).
      { destruct Hpre as [-> | ->]; cbn; (split; [| reflexivity]).
        - apply sublist_nil_l.
        - reflexivity. }
      destruct Hone as [Hsub Hw].
      destruct e1 as [e |].
      * intros [= <- <-]. eexists. split; [exact Hcalls |].
        split; [| split; [rewrite Hw; cbn; lia | discriminate]].
        change (tk :: ts) with ([tk] ++ ts).
        rewrite <- (List.app_nil_r (tasks_run _)).
        apply sublist_app; [exact Hsub | apply sublist_nil_l].
      * intros Hrest. destruct (IH _ _ Hrest) as (l & Hl & Hsubl & Hle & Hall).
        exists ((pre ++ [Experiment.CallWrite (Experiment.s_exp s1)]) ++ l).
        split; [rewrite Hl, Hcalls; now rewrite <- !List.app_assoc |].
        unfold tasks_run, writes in *.
        rewrite omap_app, List.filter_app, length_app, Hw.
        split; [| split; [cbn [length]; lia | intros He; rewrite (Hall He); reflexivity]].
        change (tk :: ts) with ([tk] ++ ts).
        now apply sublist_app.
Qed.

(** A step of the loop that returns no error counts the task, and keeps the
    tasks and the failure status, when the tasks keep the progress. *)
Lemma run_task_progress (i : nat) (tk : T) (s s' : Experiment.state D T)
    (r : ExperimentResult) :
  keeps_progress ->
  Experiment.Result (Experiment.s_exp s) = Some r ->
  Experiment.run_task i tk s = Ok (s', None) ->
  exists r',
    Experiment.Result (Experiment.s_exp s') = Some r'
    /\ NumCompletedTasks r' = int_succ (NumCompletedTasks r)
    /\ Failure r' = Failure r
    /\ Experiment.Spec (Experiment.s_exp s') = Experiment.Spec (Experiment.s_exp s).
Proof.
  intros Hkeeps Hr Hret.
  destruct (run_task_inv _ _ _ _ _ Hret)
    as [(e & _ & _ & [=]) | [(mid & r1 & Hmid & Hr1 & -> & _) | (terr & r1 & _ & _ & Hs)]].
  2:{ cbn zeta in Hs. destruct Hs as [_ [=]]. }
  cbn [Experiment.s_exp counted Experiment.Result Experiment.Spec].
  eexists. split; [reflexivity |].
  cbn [NumCompletedTasks Failure].
  destruct Hmid as [-> | ->].
  - rewrite Hr in Hr1. injection Hr1 as <-. auto.
  - cbn [Experiment.s_exp] in *.
    destruct (Hkeeps tk (Experiment.s_exp s)) as [Hspec Hprog].
    unfold progress in Hprog. rewrite Hr, Hr1 in Hprog.
    cbn [option_map] in Hprog. injection Hprog as -> ->. auto.
Qed.

(** The loop that returns no error counts each of its tasks. *)
Lemma run_tasks_progress (i : nat) (ts : list T) (s s' : Experiment.state D T)
    (r : ExperimentResult) :
  keeps_progress ->
  Experiment.Result (Experiment.s_exp s) = Some r ->
  0 <= NumCompletedTasks r ->
  NumCompletedTasks r + len ts < 2 ^ 63 ->
  Experiment.run_tasks i ts s = Ok (s', None) ->
  exists r',
    Experiment.Result (Experiment.s_exp s') = Some r'
    /\ NumCompletedTasks r' = NumCompletedTasks r + len ts
    /\ Failure r' = Failure r
    /\ Experiment.Spec (Experiment.s_exp s') = Experiment.Spec (Experiment.s_exp s).
Proof.
  intros Hkeeps. revert i s r. induction ts as [| tk ts IH]; intros i s r Hr Hmin Hmax.
  - cbn [Experiment.run_tasks]. intros [= <-]. exists r. unfold len. cbn [length].
    repeat split; [exact Hr | lia].
  - cbn [Experiment.run_tasks].
    destruct (Experiment.run_task i tk s) as [[s1 [e |]] | p] eqn:Hstep;
      cbn [bind]; try discriminate.
    intros Hrest.
    destruct (run_task_progress _ _ _ _ _ Hkeeps Hr Hstep)
      as (r1 & Hr1 & Hcount & Hfail & Hspec).
    assert (Hsucc : int_succ (NumCompletedTasks r) = NumCompletedTasks r + 1).
    { unfold int_succ. unfold len in Hmax. cbn [length] in Hmax.
      rewrite Z.mod_small; lia. }
    unfold len in *. cbn [length] in *.
    destruct (IH (S i) s1 r1 Hr1 ltac:(lia) ltac:(lia) Hrest)
      as (r' & Hr' & Hcount' & Hfail' & Hspec').
    exists r'. repeat split; [exact Hr' | lia | congruence | congruence].
Qed.

(** [run] on an experiment with a result: the loop counter goes up, the
    experiment is written, and the loop starts on what the write left. *)
Lemma run_started (exp : Experiment.t T) (d : D) (r : ExperimentResult) :
  Experiment.Result exp = Some r ->
  let e := Experiment.mk (Experiment.Spec exp)
             (Some (mkExperimentResult (Revision r) (int_succ (NumLoops r))
                      (NumCompletedTasks r) (Failure r) (Insights r)
                      (Iter8Version r))) in
  let s0 := Experiment.mkState e (fst (Experiment.driver_Write d e))
              [Experiment.CallWrite e] in
  Experiment.run exp d
  = match snd (Experiment.driver_Write d e) with
    | Some err => Ok (s0, Some err)
    | None => Experiment.run_tasks 0 (Experiment.Spec exp) s0
    end.
Proof.
  intros Hr e s0. unfold Experiment.run, Experiment.incrementNumLoops,
    Experiment.update_Result. rewrite Hr. cbn [bind]. unfold Experiment.write.
  cbn [Experiment.s_exp Experiment.s_driver Experiment.s_calls app].
  fold e. fold s0. now destruct (snd (Experiment.driver_Write d e)).
Qed.

End Engine_runs.

(** X16. [run] starts and ends on a write. On an experiment without a result
    it returns an error and calls nothing. On an experiment with a result,
    whenever it returns, with an error or without, its first call is the
    write of the experiment with the loop counter incremented, and its last
    call is the write of the experiment it returns with: no change of a task
    or of the engine is left that was not passed to the driver. *)
Theorem run_starts_and_ends_on_a_write {D T : Type}
    `{Experiment.TaskOps T} `{Experiment.Driver D T} `{Experiment.ExprLib T}
    (exp : Experiment.t T) (d : D) :
  (Experiment.Result exp = None ->
   Experiment.run exp d = Ok (Experiment.mkState exp d [], Some ErrNilResult))
  /\ (forall r s err,
        Experiment.Result exp = Some r ->
        Experiment.run exp d = Ok (s, err) ->
        head (Experiment.s_calls s) = Some (Experiment.CallWrite (started exp r))
        /\ last (Experiment.s_calls s)
           = Some (Experiment.CallWrite (Experiment.s_exp s))).
Proof.
  split.
  - intros Hr. unfold Experiment.run. now rewrite Hr.
  - intros r s err Hr. rewrite (run_started exp d r Hr). cbn zeta.
    fold (started exp r).
    destruct (snd (Experiment.driver_Write d (started exp r))).
    + intros [= <- _]. split; reflexivity.
    + intros Hloop. split.
      * destruct (run_tasks_calls _ _ _ _ _ Hloop) as (l & -> & _). reflexivity.
      * refine (run_tasks_written _ _ _ _ _ _ Hloop). reflexivity.
Qed.

(** X16 on [two_tasks] after an earlier run: three calls, the first and the
    last of them writes. *)
Lemma run_starts_and_ends_on_a_write_witness :
  exists s,
    Experiment.run (two_tasks (Some (mkExperimentResult 0 1 2 false (Some one_of_two) "v0.8")))
      ([] : list (Experiment.t RefEngine.task)) = Ok (s, None)
    /\ head (Experiment.s_calls s)
       = Some (Experiment.CallWrite
                 (started (two_tasks (Some (mkExperimentResult 0 1 2 false
                                              (Some one_of_two) "v0.8")))
                    (mkExperimentResult 0 1 2 false (Some one_of_two) "v0.8")))
    /\ last (Experiment.s_calls s) = Some (Experiment.CallWrite (Experiment.s_exp s)).
Proof.
  eexists. split; [vm_compute; reflexivity |].
  apply (proj2 (run_starts_and_ends_on_a_write
                  (two_tasks (Some (mkExperimentResult 0 1 2 false (Some one_of_two) "v0.8")))
                  ([] : list (Experiment.t RefEngine.task)))
           (mkExperimentResult 0 1 2 false (Some one_of_two) "v0.8") _ None eq_refl).
  vm_compute. reflexivity.
Defined.

(** X17. The calls of a run: the tasks whose [run] is called are tasks of the
    experiment, each called at most once and in the order of the experiment;
    the driver is written at most once more than there are tasks, and exactly
    once at the start and once after each task when the run returns no
    error. *)
Theorem run_calls_follow_the_tasks {D T : Type}
    `{Experiment.TaskOps T} `{Experiment.Driver D T} `{Experiment.ExprLib T}
    (exp : Experiment.t T) (d : D) (s : Experiment.state D T) (err : option error) :
  Experiment.run exp d = Ok (s, err) ->
  sublist (tasks_run (Experiment.s_calls s)) (Experiment.Spec exp)
  /\ (writes (Experiment.s_calls s) <= S (length (Experiment.Spec exp)))%nat
  /\ (err = None -> writes (Experiment.s_calls s) = S (length (Experiment.Spec exp))).
Proof.
  destruct (Experiment.Result exp) as [r |] eqn:Hr.
  - rewrite (run_started exp d r Hr). cbn zeta.
    destruct (snd (Experiment.driver_Write d _)).
    + intros [= <- <-]. cbn. repeat split; [apply sublist_nil_l | lia | discriminate].
    + intros Hloop.
      destruct (run_tasks_calls _ _ _ _ _ Hloop) as (l & -> & Hsub & Hle & Hall).
      cbn [Experiment.s_calls app]. unfold writes in *.
      cbn [tasks_run omap List.filter is_write length].
      repeat split; [exact Hsub | lia | intros He; now rewrite (Hall He)].
  - unfold Experiment.run. rewrite Hr. intros [= <- <-]. cbn.
    repeat split; [apply sublist_nil_l | lia | discriminate].
Qed.

(** X17 on [two_tasks]: the gated task is skipped, the other is run, and the
    driver is written three times. *)
Lemma run_calls_follow_the_tasks_witness :
  exists s,
    Experiment.run (two_tasks (Some (mkExperimentResult 0 0 0 false (Some one_of_two) "v0.8")))
      ([] : list (Experiment.t RefEngine.task)) = Ok (s, None)
    /\ tasks_run (Experiment.s_calls s) = [plain_task]
    /\ writes (Experiment.s_calls s) = 3%nat.
Proof.
  eexists. split; [vm_compute; reflexivity |].
  split; [vm_compute; reflexivity |].
  apply (run_calls_follow_the_tasks
           (two_tasks (Some (mkExperimentResult 0 0 0 false (Some one_of_two) "v0.8")))
           ([] : list (Experiment.t RefEngine.task)) _ None);
    [vm_compute; reflexivity | reflexivity].
Defined.

(** X18. A run that returns no error has counted every task: with tasks that
    keep the progress, the number of completed tasks has grown by the number
    of tasks and the failure status is as it was. So [Completed] holds after
    the run iff the count was zero before it, and [NoFailure] iff no failure
    was recorded before it. *)
Theorem clean_run_counts_every_task {D T : Type}
    `{Experiment.TaskOps T} `{Experiment.Driver D T} `{Experiment.ExprLib T}
    (exp : Experiment.t T) (d : D) (s : Experiment.state D T) (r : ExperimentResult) :
  keeps_progress ->
  Experiment.Result exp = Some r ->
  0 <= NumCompletedTasks r ->
  NumCompletedTasks r + len (Experiment.Spec exp) < 2 ^ 63 ->
  Experiment.run exp d = Ok (s, None) ->
  exists r',
    Experiment.Result (Experiment.s_exp s) = Some r'
    /\ NumCompletedTasks r' = NumCompletedTasks r + len (Experiment.Spec exp)
    /\ Failure r' = Failure r
    /\ (Experiment.Completed (Some (Experiment.s_exp s)) = true
        <-> NumCompletedTasks r = 0)
    /\ Experiment.NoFailure (Some (Experiment.s_exp s)) = negb (Failure r).
Proof.
  intros Hkeeps Hr Hmin Hmax. rewrite (run_started exp d r Hr). cbn zeta.
  destruct (snd (Experiment.driver_Write d _)); [discriminate |].
  intros Hloop.
  eapply (run_tasks_progress _ _ _ _
            (mkExperimentResult (Revision r) (int_succ (NumLoops r))
               (NumCompletedTasks r) (Failure r) (Insights r) (Iter8Version r))
            Hkeeps) in Hloop as (r' & Hr' & Hcount & Hfail & Hspec);
    [| reflexivity | exact Hmin | exact Hmax].
  cbn [Experiment.s_exp Experiment.Spec NumCompletedTasks Failure] in Hcount, Hfail, Hspec.
  exists r'. split; [exact Hr' | split; [exact Hcount | split; [exact Hfail |]]].
  unfold Experiment.Completed, Experiment.NoFailure. rewrite Hr', Hspec, Hcount, Hfail.
  split; [| reflexivity].
  destruct (Z.eqb_spec (NumCompletedTasks r + len (Experiment.Spec exp))
              (len (Experiment.Spec exp))); split; (lia || congruence).
Qed.

(** X18 on a second loop over [two_tasks]: four tasks counted for two, so the
    experiment does not read as completed. *)
Lemma clean_run_counts_every_task_witness :
  exists s,
    Experiment.run (two_tasks (Some looped_once))
      ([] : list (Experiment.t RefEngine.task)) = Ok (s, None)
    /\ exists r',
         Experiment.Result (Experiment.s_exp s) = Some r'
         /\ NumCompletedTasks r'
            = NumCompletedTasks looped_once
              + len (Experiment.Spec (two_tasks (Some looped_once)))
         /\ Failure r' = Failure looped_once
         /\ (Experiment.Completed (Some (Experiment.s_exp s)) = true
             <-> NumCompletedTasks looped_once = 0)
         /\ Experiment.NoFailure (Some (Experiment.s_exp s))
            = negb (Failure looped_once).
Proof.
  eexists. split; [vm_compute; reflexivity |].
  apply (clean_run_counts_every_task (two_tasks (Some looped_once))
           ([] : list (Experiment.t RefEngine.task))).
  - intros tk e. split; reflexivity.
  - reflexivity.
  - unfold looped_once. cbn. lia.
  - unfold looped_once, two_tasks, len. cbn. lia.
  - vm_compute. reflexivity.
Defined.

(** X19. [RunExperiment]: when the driver cannot read the experiment, the
    error of the read is returned and nothing is run. With [reuseResult] and
    an experiment that has no result, the run is refused. Without
    [reuseResult] the result is initialised first, so that a run that returns
    no error, over tasks that keep the progress, leaves the experiment
    completed and without failure. *)
Theorem RunExperiment_completes {D T : Type}
    `{Experiment.TaskOps T} `{Experiment.Driver D T} `{Experiment.ExprLib T}
    (MajorMinor : string) (d : D) :
  (forall err reuseResult,
     Experiment.driver_Read d = inr err ->
     Experiment.RunExperiment MajorMinor reuseResult d = Ok (None, Some err))
  /\ (forall exp,
        Experiment.driver_Read d = inl exp -> Experiment.Result exp = None ->
        Experiment.RunExperiment MajorMinor true d
        = Ok (Some (Experiment.mkState exp d []), Some ErrNilResult))
  /\ (forall exp s,
        keeps_progress ->
        Experiment.driver_Read d = inl exp ->
        len (Experiment.Spec exp) < 2 ^ 63 ->
        Experiment.RunExperiment MajorMinor false d = Ok (Some s, None) ->
        Experiment.Completed (Some (Experiment.s_exp s)) = true
        /\ Experiment.NoFailure (Some (Experiment.s_exp s)) = true).
Proof.
  unfold Experiment.RunExperiment, Experiment.BuildExperiment.
  split; [| split].
  - intros err reuseResult ->. reflexivity.
  - intros exp -> Hr. cbn [negb]. unfold Experiment.run. now rewrite Hr.
  - intros exp s Hkeeps -> Hmax. cbn [negb].
    set (exp0 := Experiment.initResults MajorMinor exp (Experiment.driver_GetRevision d)).
    destruct (Experiment.run exp0 d) as [[s1 e1] | p] eqn:Hrun; cbn [bind fst snd];
      [| discriminate].
    intros [= -> ->].
    set (r0 := mkExperimentResult (Experiment.driver_GetRevision d) 0 0 false None
                 MajorMinor).
    rewrite (run_started exp0 d r0 eq_refl) in Hrun. cbn zeta in Hrun.
    destruct (snd (Experiment.driver_Write d _)); [discriminate |].
    assert (Hlen : 0 <= len (Experiment.Spec exp)) by (unfold len; lia).
    eapply (run_tasks_progress _ _ _ _
              (mkExperimentResult (Experiment.driver_GetRevision d) (int_succ 0) 0
                 false None MajorMinor) Hkeeps) in Hrun
      as (r' & Hr' & Hcount & Hfail & Hspec);
      [| reflexivity | cbn; lia | cbn; lia].
    cbn [Experiment.s_exp Experiment.Spec NumCompletedTasks Failure r0 exp0
         Experiment.initResults] in Hcount, Hfail, Hspec.
    unfold Experiment.Completed, Experiment.NoFailure.
    rewrite Hr', Hspec, Hcount, Hfail. cbn [negb Z.add].
    now rewrite Z.eqb_refl.
Qed.

(** X19 on a driver that holds [two_tasks] with the result of an earlier
    run. *)
Lemma RunExperiment_completes_witness :
  exists s,
    Experiment.RunExperiment "v0.8" false
      [two_tasks (Some (mkExperimentResult 0 1 2 true (Some one_of_two) "v0.8"))]
    = Ok (Some s, None)
    /\ Experiment.Completed (Some (Experiment.s_exp s)) = true
    /\ Experiment.NoFailure (Some (Experiment.s_exp s)) = true.
Proof.
  eexists. split; [vm_compute; reflexivity |].
  apply (proj2 (proj2 (RunExperiment_completes "v0.8"
           [two_tasks (Some (mkExperimentResult 0 1 2 true (Some one_of_two) "v0.8"))]))
           (two_tasks (Some (mkExperimentResult 0 1 2 true (Some one_of_two) "v0.8")))).
  - intros tk e. split; reflexivity.
  - reflexivity.
  - unfold two_tasks, len. cbn. lia.
  - vm_compute. reflexivity.
Defined.

(** X20. A task that fails ends the run: once the tasks before it have
    completed, and its condition holds and its [run] returns an error, the
    experiment is marked as failed and written, and the loop returns with the
    error of the write if it has one and with the error of the task
    otherwise. The task is not counted and the tasks after it are not
    started. *)
Theorem failing_task_ends_run {D T : Type}
    `{Experiment.TaskOps T} `{Experiment.Driver D T} `{Experiment.ExprLib T}
    (i : nat) (before after : list T) (tk : T) (name : string)
    (s s0 s1 : Experiment.state D T) (terr : error) (r : ExperimentResult) :
  Experiment.run_tasks i before s = Ok (s0, None) ->
  Experiment.getName tk = Some name ->
  Experiment.shouldRun tk (Experiment.s_exp s0) = inl true ->
  Experiment.invoke (i + length before) tk s0 = (s1, Some terr) ->
  Experiment.Result (Experiment.s_exp s1) = Some r ->
  let e' := failed (Experiment.s_exp s1) r in
  let w := Experiment.driver_Write (Experiment.s_driver s1) e' in
  Experiment.run_tasks i (before ++ tk :: after) s
  = Ok (Experiment.mkState e' (fst w)
          (Experiment.s_calls s0
           ++ [Experiment.CallRun (i + length before) tk; Experiment.CallWrite e']),
        Some (default terr (snd w)))
  /\ Experiment.NoFailure (Some e') = false
  /\ progress e' = Some (NumCompletedTasks r, true).
Proof.
  intros Hbefore Hname Hshould Hinvoke Hr e' w.
  split; [| split; reflexivity].
  rewrite run_tasks_app, Hbefore. cbn [bind Experiment.run_tasks].
  unfold Experiment.run_task. rewrite Hname, Hshould, Hinvoke.
  unfold Experiment.failExperiment, Experiment.update_Result. rewrite Hr.
  cbn [bind]. unfold Experiment.write.
  cbn [Experiment.s_exp Experiment.s_driver Experiment.s_calls].
  assert (Hcalls : Experiment.s_calls s1
                   = Experiment.s_calls s0 ++ [Experiment.CallRun (i + length before) tk]).
  { revert Hinvoke. unfold Experiment.invoke. now intros [= <- _]. }
  rewrite Hcalls, <- List.app_assoc. cbn [app].
  subst w e'. unfold failed.
  now destruct (snd (Experiment.driver_Write _ _)).
Qed.

(** X20 on a failing task between two others: the last one is not run. *)
Lemma failing_task_ends_run_witness :
  let e0 := Experiment.mk [plain_task; failing_task; plain_task]
              (Some (mkExperimentResult 0 1 0 false None "v0.8")) in
  let e1 := Experiment.mk [plain_task; failing_task; plain_task]
              (Some (mkExperimentResult 0 1 1 false None "v0.8")) in
  let e2 := Experiment.mk [plain_task; failing_task; plain_task]
              (Some (mkExperimentResult 0 1 1 true None "v0.8")) in
  Experiment.run_tasks 0 ([plain_task] ++ failing_task :: [plain_task])
    (Experiment.mkState e0 [] [])
  = Ok (Experiment.mkState e2 [e1; e2]
          [Experiment.CallRun 0 plain_task; Experiment.CallWrite e1;
           Experiment.CallRun 1 failing_task; Experiment.CallWrite e2],
        Some (ErrExternal "task failed")).
Proof.
  intros e0 e1 e2.
  exact (proj1 (failing_task_ends_run 0 [plain_task] [plain_task] failing_task
                  "assess-app-versions"
                  (Experiment.mkState e0 [] [])
                  (Experiment.mkState e1 [e1]
                     [Experiment.CallRun 0 plain_task; Experiment.CallWrite e1])
                  (Experiment.mkState e1 [e1]
                     [Experiment.CallRun 0 plain_task; Experiment.CallWrite e1;
                      Experiment.CallRun 1 failing_task])
                  (ErrExternal "task failed")
                  (mkExperimentResult 0 1 1 false None "v0.8")
                  eq_refl eq_refl eq_refl eq_refl eq_refl)).
Defined.

(** X21. A task spec with neither a name nor a script stops the experiment:
    [run] dereferences the nil name when it logs the start of the task, so a
    run of an experiment with such a task never returns without an error; it
    panics when it reaches the task, whether the task's condition holds or
    not. *)
Theorem unnamed_task_stops_run {D T : Type}
    `{Experiment.TaskOps T} `{Experiment.Driver D T} `{Experiment.ExprLib T}
    (exp : Experiment.t T) (d : D) (tk : T) :
  tk ∈ Experiment.Spec exp ->
  Experiment.getName tk = None ->
  (forall s err, Experiment.run exp d = Ok (s, err) -> is_Some err)
  /\ (forall i before after s s0,
        Experiment.run_tasks i before s = Ok (s0, None) ->
        Experiment.run_tasks i (before ++ tk :: after) s = Panic NilDereference).
Proof.
  intros Hin Hname. split.
  - assert (Hloop : forall ts i s0 s,
              tk ∈ ts -> Experiment.run_tasks i ts s0 <> Ok (s, None)).
    { induction ts as [| tk' ts IH]; intros i s0 s Hts; [now apply elem_of_nil in Hts |].
      cbn [Experiment.run_tasks].
      apply elem_of_cons in Hts as [<- | Hts].
      - unfold Experiment.run_task. now rewrite Hname.
      - destruct (Experiment.run_task i tk' s0) as [[s1 [e |]] | p]; cbn [bind];
          try discriminate.
        now apply IH. }
    intros s [e |] Hrun; [eauto |]. exfalso.
    destruct (Experiment.Result exp) as [r |] eqn:Hr.
    + rewrite (run_started exp d r Hr) in Hrun. cbn zeta in Hrun.
      destruct (snd (Experiment.driver_Write d _)); [discriminate |].
      now apply (Hloop _ _ _ _ Hin) in Hrun.
    + unfold Experiment.run in Hrun. now rewrite Hr in Hrun.
  - intros i before after s s0 Hbefore.
    rewrite run_tasks_app, Hbefore. cbn [bind Experiment.run_tasks].
    unfold Experiment.run_task. now rewrite Hname.
Qed.

(** X21 on an unnamed task after a successful one: the run panics at the
    second task. *)
Lemma unnamed_task_stops_run_witness :
  Experiment.run_tasks 0 ([plain_task] ++ unnamed_task :: [])
    (Experiment.mkState
       (Experiment.mk [plain_task; unnamed_task]
          (Some (mkExperimentResult 0 1 0 false None "v0.8")))
       ([] : list (Experiment.t RefEngine.task)) [])
  = Panic NilDereference.
Proof.
  eapply (proj2 (unnamed_task_stops_run
                   (Experiment.mk [plain_task; unnamed_task]
                      (Some (mkExperimentResult 0 1 0 false None "v0.8")))
                   ([] : list (Experiment.t RefEngine.task)) unnamed_task
                   ltac:(set_solver) eq_refl)).
  vm_compute. reflexivity.
Defined.

(** ** Outside the intended use *)

(** Two lists with the same elements, one of them with a NaN limit, are not
    deeply equal. *)
Lemma DeepEqual_elems_NaN (l : list SLO) :
  Exists (fun s => PrimFloat.is_nan (Limit s) = true) l ->
  DeepEqual_elems DeepEqual_SLO l l = false.
Proof.
  induction 1 as [s l Hs | s l _ IH]; cbn [DeepEqual_elems].
  - unfold DeepEqual_SLO. unfold PrimFloat.is_nan in Hs.
    apply negb_true_iff in Hs. now rewrite Hs, andb_false_r.
  - rewrite IH. now destruct (DeepEqual_SLO s s).
Qed.

(** X22. [setSLOs] does not recognise a copy of SLOs that hold a NaN limit:
    when the SLOs are set and have a NaN among their upper limits, a call
    with the same limits in another allocation is refused as a conflict,
    while a call with the very pointer that is stored is accepted. *)
Theorem setSLOs_refuses_copy_with_NaN (in_ : Insights.t) (old new : pointer SLOLimits.t)
    (a b : backed SLO) :
  Insights.SLOs in_ = Some old ->
  SLOLimits.Upper (deref old) = Some a ->
  SLOLimits.Upper (deref new) = Some b ->
  elems a = elems b ->
  Exists (fun s => PrimFloat.is_nan (Limit s) = true) (elems a) ->
  addr old <> addr new ->
  base a <> base b ->
  Insights.setSLOs in_ (Some new) = (in_, Some ErrSLOsConflict)
  /\ Insights.setSLOs in_ (Some old) = (in_, None).
Proof.
  intros Hold Ha Hb Hsame Hnan Haddr Hbase. unfold Insights.setSLOs.
  rewrite Hold. split.
  - unfold DeepEqual_SLOLimits_ptr, DeepEqual_SLOLimits, DeepEqual_slice.
    rewrite (proj2 (Pos.eqb_neq _ _) Haddr), Ha, Hb, <- Hsame, Z.eqb_refl.
    cbn [negb]. rewrite (proj2 (Pos.eqb_neq _ _) Hbase).
    now rewrite (DeepEqual_elems_NaN _ Hnan).
  - now rewrite DeepEqual_SLOLimits_ptr_same.
Qed.

(** X22 on a NaN limit for the error rate. *)
Lemma setSLOs_refuses_copy_with_NaN_witness :
  let stored := mkPointer 1%positive
                  (SLOLimits.mk (Some (mkBacked 2%positive [mkSLO "http/error-rate" nan]))
                     None) in
  let copy := mkPointer 3%positive
                (SLOLimits.mk (Some (mkBacked 4%positive [mkSLO "http/error-rate" nan]))
                   None) in
  let in_ := Insights.mk 1 (Some ∅) [Some ∅] [Some ∅] (Some stored) None in
  Insights.setSLOs in_ (Some copy) = (in_, Some ErrSLOsConflict)
  /\ Insights.setSLOs in_ (Some stored) = (in_, None).
Proof.
  intros stored copy in_.
  apply (setSLOs_refuses_copy_with_NaN in_ stored copy
           (mkBacked 2%positive [mkSLO "http/error-rate" nan])
           (mkBacked 4%positive [mkSLO "http/error-rate" nan]));
    try reflexivity; try discriminate.
  apply Exists_cons_hd. reflexivity.
Defined.

(** X23. [updateMetric] checks the version index against the number of
    versions only, and assumes initialised metrics. For a value of the right
    shape, a name that normalises and an index below the number of versions:
    on insights whose map of metric metadata is nil it panics on the
    assignment to the map; with a negative index and a map that allows the
    registration, it panics on the index into the store of values. *)
Theorem updateMetric_panics_outside_its_domain {libs : GoLibs} (in_ : Insights.t)
    (m nm : string) (mm : MetricMeta) (i : Z) (val : MetricValue) :
  shape_matches (Type_ mm) val ->
  i < Insights.NumVersions in_ ->
  Insights.NormalizeMetricName m = (nm, None) ->
  (Insights.MetricsInfo in_ = None ->
   Insights.updateMetric in_ m mm i val = Panic NilMapAssignment)
  /\ (forall g, Insights.MetricsInfo in_ = Some g ->
        (forall old, g !! nm = Some old -> old = mm) ->
        i < 0 ->
        Insights.updateMetric in_ m mm i val = Panic IndexOutOfRange).
Proof.
  intros Hshape Hi Hnorm. unfold Insights.updateMetric.
  rewrite (proj2 (metricTypeMatch_shape _ _) Hshape). cbn [negb].
  destruct (Z.leb_spec (Insights.NumVersions in_) i) as [Hle | _]; [lia |].
  rewrite Hnorm. split.
  - intros Hnil. unfold Insights.registerMetric, Insights.assign_MetricsInfo.
    now rewrite Hnil.
  - intros g Hg Hsame Hneg.
    rewrite (registerMetric_initialized in_ g nm mm Hg).
    assert (Hreg : match g !! nm with
                   | Some old =>
                       if DeepEqual_MetricMeta old mm
                       then (Insights.set_MetricsInfo in_ (Some (<[nm := mm]> g)),
                             @None error)
                       else (in_, Some (ErrMetaDiffer nm))
                   | None => (Insights.set_MetricsInfo in_ (Some (<[nm := mm]> g)), None)
                   end
                   = (Insights.set_MetricsInfo in_ (Some (<[nm := mm]> g)), None)).
    { destruct (g !! nm) as [old |] eqn:Hg'; [| reflexivity].
      rewrite (Hsame old eq_refl).
      now rewrite (proj2 (DeepEqual_MetricMeta_eq mm mm) eq_refl). }
    rewrite Hreg. cbn [bind].
    assert (Hidx : forall A (l : list A), index l i = Panic IndexOutOfRange).
    { intros A l. unfold index. now destruct (Z.ltb_spec i 0); [| lia]. }
    unfold Insights.updateMetricValueScalar, Insights.updateMetricValueVector,
      Insights.updateMetricValueHist, Insights.append_at.
    destruct Hshape; rewrite ?Hidx; reflexivity.
Qed.

(** X23 on insights that were never initialised, and on a negative index. *)
Lemma updateMetric_panics_outside_its_domain_witness :
  Insights.updateMetric (libs := Ref.libs) (Insights.mk 1 None [] [] None None)
    "prom/requests" (mkMetricMeta "requests" None CounterMetricType) 0 (VFloat 1%float)
  = Panic NilMapAssignment
  /\ Insights.updateMetric (libs := Ref.libs) one_version
       "prom/requests" (mkMetricMeta "requests" None CounterMetricType) (-1)
       (VFloat 1%float)
     = Panic IndexOutOfRange.
Proof.
  split.
  - apply (proj1 (updateMetric_panics_outside_its_domain (libs := Ref.libs)
                    (Insights.mk 1 None [] [] None None) "prom/requests" "prom/requests"
                    (mkMetricMeta "requests" None CounterMetricType) 0 (VFloat 1%float)
                    (scalar_counter 1%float) ltac:(cbn; lia) eq_refl)).
    reflexivity.
  - apply (proj2 (updateMetric_panics_outside_its_domain (libs := Ref.libs)
                    one_version "prom/requests" "prom/requests"
                    (mkMetricMeta "requests" None CounterMetricType) (-1)
                    (VFloat 1%float)
                    (scalar_counter 1%float) ltac:(cbn; lia) eq_refl) ∅).
    + reflexivity.
    + intros old Hold. now rewrite lookup_empty in Hold.
    + lia.
Defined.

(** ** Spellings of a percentile *)

(** A successful update appends to the observations of its canonical name. *)
Lemma updateMetric_observed {libs : GoLibs} (in_ in' : Insights.t) (m nm : string)
    (mm : MetricMeta) (i : Z) (val : MetricValue) :
  Insights.updateMetric in_ m mm i val = Ok (in', None) ->
  Insights.NormalizeMetricName m = (nm, None) ->
  observations in' i nm = observations in_ i nm ++ new_observations val.
Proof.
  intros Hupdate Hnorm.
  destruct (updateMetric_inv _ _ _ _ _ _ _ Hupdate)
    as [[[e [=]] _] | (_ & nm0 & g & Hnm0 & _ & _ & _ & Hi & Hslot & ->)].
  rewrite Hnorm in Hnm0. injection Hnm0 as <-.
  rewrite observations_recorded by (lia || (destruct val; exact Hslot || exact I)).
  destruct (decide (i = i /\ nm = nm)) as [_ | Hn]; [reflexivity | tauto].
Qed.

(** X24. Normalisation identifies the spellings of a percentile: two names
    under the same percentile prefix whose suffixes parse to the same float
    have the same canonical name, the prefix followed by the float as [%v]
    prints it; so two successful scalar updates under the two names append to
    the observations of one metric, in the order of the updates. *)
Theorem updateMetric_identifies_percentile_spellings {libs : GoLibs}
    (in_ in1 in2 : Insights.t) (m1 m2 pre s1 s2 : string) (x : float)
    (mm : MetricMeta) (i : Z) (v1 v2 : float) :
  percentile_suffix m1 = Some (pre, s1) ->
  percentile_suffix m2 = Some (pre, s2) ->
  strconv_ParseFloat s1 = Some x ->
  strconv_ParseFloat s2 = Some x ->
  Insights.updateMetric in_ m1 mm i (VFloat v1) = Ok (in1, None) ->
  Insights.updateMetric in1 m2 mm i (VFloat v2) = Ok (in2, None) ->
  Insights.NormalizeMetricName m1 = (pre +:+ fmt_v x, None)
  /\ Insights.NormalizeMetricName m2 = (pre +:+ fmt_v x, None)
  /\ observations in2 i (pre +:+ fmt_v x)
     = observations in_ i (pre +:+ fmt_v x) ++ [v1; v2].
Proof.
  intros Hm1 Hm2 Hs1 Hs2 Hfirst Hsecond.
  assert (Hn1 : Insights.NormalizeMetricName m1 = (pre +:+ fmt_v x, None))
    by now rewrite NormalizeMetricName_cases, Hm1, Hs1.
  assert (Hn2 : Insights.NormalizeMetricName m2 = (pre +:+ fmt_v x, None))
    by now rewrite NormalizeMetricName_cases, Hm2, Hs2.
  split; [exact Hn1 | split; [exact Hn2 |]].
  rewrite (updateMetric_observed _ _ _ _ _ _ _ Hsecond Hn2).
  rewrite (updateMetric_observed _ _ _ _ _ _ _ Hfirst Hn1).
  cbn [new_observations]. now rewrite <- List.app_assoc.
Qed.

(** X24 on the median HTTP latency, written [p50] and [p50.0]. *)
Lemma updateMetric_identifies_percentile_spellings_witness :
  let in1 := Insights.mk 1 (Some {["http/latency-p50" := latency_percentile]})
               [Some {["http/latency-p50" := [1%float]]}] [Some ∅] None None in
  let in2 := Insights.mk 1 (Some {["http/latency-p50" := latency_percentile]})
               [Some {["http/latency-p50" := [1%float; 2%float]]}] [Some ∅] None None in
  Insights.updateMetric (libs := Ref.libs) one_version "http/latency-p50"
    latency_percentile 0 (VFloat 1%float) = Ok (in1, None)
  /\ Insights.updateMetric (libs := Ref.libs) in1 "http/latency-p50.0"
       latency_percentile 0 (VFloat 2%float) = Ok (in2, None)
  /\ observations in2 0 "http/latency-p50" = [1%float; 2%float].
Proof.
  intros in1 in2.
  assert (H1 : Insights.updateMetric (libs := Ref.libs) one_version "http/latency-p50"
                 latency_percentile 0 (VFloat 1%float) = Ok (in1, None))
    by (vm_compute; reflexivity).
  assert (H2 : Insights.updateMetric (libs := Ref.libs) in1 "http/latency-p50.0"
                 latency_percentile 0 (VFloat 2%float) = Ok (in2, None))
    by (vm_compute; reflexivity).
  split; [exact H1 | split; [exact H2 |]].
  exact (proj2 (proj2 (updateMetric_identifies_percentile_spellings (libs := Ref.libs)
           one_version in1 in2 "http/latency-p50" "http/latency-p50.0"
           "http/latency-p" "50" "50.0" 50%float latency_percentile 0
           1%float 2%float eq_refl eq_refl eq_refl eq_refl H1 H2))).
Defined.
